(** * Project-Wrapped: the Azure DevOps aggregation pipeline

    A shallow embedding of the pure part of the aggregation pipeline of
    [server/services/azure-devops.ts] and of its two earlier revisions
    kept in the repository ([unnamed/part_001], [unnamed/part_009]),
    followed by the properties the specification states about it.

    Layout:
    - [Js]        : the few pieces of the JavaScript runtime the code uses
                    (stable [Array.prototype.sort], insertion-ordered [Map]
                    and [Set], [String.prototype.split("T")[0]], template
                    literals of numbers, [Math.max], [indexOf]);
    - [Runtime]   : the host-dependent part ([Date] parsing, local time,
                    [toLocaleString]) as an interface, with one reference
                    instance [IsoUtc] used to run the code on examples;
    - the input records and the summary schema of [shared/schema.ts];
    - one module per revision of the service, with the source's names:
      [AzureDevOps] (the current, "enhanced" file), [Part001], [Part009];
    - the theorems. *)

From Stdlib Require Import ZArith Lia String Ascii List DecimalString.
From Stdlib Require Import QArith Qround Qminmax Lqa.
From stdpp Require Import base list strings sorting.

Set Default Proof Using "Type".

(** ** JavaScript runtime pieces *)

Module Js.

(** [Array.prototype.sort(cmp)].  ECMAScript (2019 and later, and every
    Node.js release since 11) requires the sort to be stable.  For a
    comparator that is consistent (a total preorder) the outcome is fully
    determined: the stable sorted arrangement.  Insertion from the right
    computes it.  [cmp a b < 0] puts [a] first, [cmp a b > 0] puts [b]
    first, [0] keeps the original order. *)
Section Sort.
Context {A : Type} (cmp : A -> A -> Z).

Fixpoint insert (x : A) (l : list A) : list A :=
  match l with
  | [] => [x]
  | y :: l' => if (0 <? cmp x y)%Z then y :: insert x l' else x :: l
  end.

Definition sort (l : list A) : list A := foldr insert [] l.
End Sort.

(** The default comparator of [sort()] on strings: code-unit order. *)
Definition compareStrings (a b : string) : Z :=
  match String.compare a b with
  | Lt => (-1)%Z
  | Eq => 0%Z
  | Gt => 1%Z
  end.

(** A subtraction of two numbers either of which may be [NaN] ([None]):
    [sort] treats a comparator result of [NaN] as [+0]. *)
Definition compareTimes (a b : option Z) : Z :=
  match a, b with
  | Some x, Some y => (x - y)%Z
  | _, _ => 0%Z
  end.

(** [s.split("T")[0]]: the text before the first ["T"] (all of [s] when
    there is none). *)
Fixpoint splitT0 (s : string) : string :=
  match s with
  | EmptyString => EmptyString
  | String c r => if Ascii.eqb c "T" then EmptyString else String c (splitT0 r)
  end.

(** [`${n}`] for an integer-valued number. *)
Definition numberToString (z : Z) : string := NilZero.string_of_int (Z.to_int z).
Definition natToString (n : nat) : string := numberToString (Z.of_nat n).

(** Truthiness of a string: every string but the empty one. *)
Definition truthy (s : string) : bool := negb (String.eqb s "").

(** [o || d] for an optional string. *)
Definition orString (o : option string) (d : string) : string :=
  match o with
  | Some s => if truthy s then s else d
  | None => d
  end.

(** [o || 0] for an optional number. *)
Definition orZero (o : option Z) : Z := default 0%Z o.

(** [Math.max(...l)] on a histogram.  All histograms of the service have
    a fixed positive length, so the [-Infinity] of the empty spread never
    arises; the model answers [0] there. *)
Definition Math_max (l : list nat) : nat := foldr Nat.max 0 l.

(** [l.indexOf(x)]: the first index holding [x], [-1] when there is none. *)
Fixpoint indexOf (x : nat) (l : list nat) : Z :=
  match l with
  | [] => (-1)%Z
  | y :: l' =>
      if Nat.eqb y x then 0%Z
      else let i := indexOf x l' in if (i <? 0)%Z then (-1)%Z else (i + 1)%Z
  end.

(** [l[i]] for a number [i]: [undefined] ([None]) off the array. *)
Definition at_ {A} (l : list A) (i : Z) : option A :=
  if (i <? 0)%Z then None else l !! Z.to_nat i.

(** [Math.round] on an exact rational (merge times are kept as exact
    quotients of milliseconds where the code has doubles). *)
Definition Math_round (q : Q) : Z := Qfloor (q + (1 # 2)).

(** [s.split(sep)] for a one-character separator: never empty, and
    [""] splits into [[""]]. *)
Fixpoint split (sep : ascii) (s : string) : list string :=
  match s with
  | EmptyString => [EmptyString]
  | String c r =>
      if Ascii.eqb c sep then EmptyString :: split sep r
      else match split sep r with
           | h :: t => String c h :: t
           | [] => [String c EmptyString]
           end
  end.

(** [l.pop()] read as a value: the last element, [undefined] on []. *)
Definition pop {A} (l : list A) : option A := last l.

(** *** [Map<string, V>]: entries in insertion order, keys unique. *)
Module Map.
Section Map.
Context {V : Type}.

Definition t := list (string * V).

Definition empty : t := [].

Fixpoint get (k : string) (m : t) : option V :=
  match m with
  | [] => None
  | (k', v) :: m' => if String.eqb k k' then Some v else get k m'
  end.

Definition has (k : string) (m : t) : bool :=
  match get k m with Some _ => true | None => false end.

(** In-place update of the object stored under [k]
    ([m.get(k)!.field++]); nothing happens when [k] is absent. *)
Fixpoint update (f : V -> V) (k : string) (m : t) : t :=
  match m with
  | [] => []
  | (k', v) :: m' =>
      if String.eqb k k' then (k', f v) :: m' else (k', v) :: update f k m'
  end.

(** [m.set(k, v)]: an existing key keeps its position. *)
Definition set (k : string) (v : V) (m : t) : t :=
  if has k m then update (fun _ => v) k m else m ++ [(k, v)].

Definition keys (m : t) : list string := map fst m.
Definition values (m : t) : list V := map snd m.
Definition entries (m : t) : list (string * V) := m.
End Map.
Arguments t : clear implicits.
End Map.

(** *** [Set<string>]: elements in insertion order, no duplicates. *)
Module StringSet.
Definition t := list string.
Definition empty : t := [].
Definition has (x : string) (s : t) : bool := existsb (String.eqb x) s.
Definition add (x : string) (s : t) : t := if has x s then s else s ++ [x].
Definition size (s : t) : nat := length s.
Definition ofList (l : list string) : t := foldl (fun s x => add x s) empty l.
End StringSet.

End Js.

(** ** Host-dependent runtime: dates and number formatting *)

(** [new Date(s)] depends on the engine's parser and, for [getHours] and
    [getDay], on the time zone of the process; [toLocaleString] depends on
    its locale.  The service is modelled over any such host.  [None]
    stands for [NaN] (an invalid date). *)
Class Runtime := {
  Date_getTime : string -> option Z;
  Date_getHours : string -> option nat;
  Date_getDay : string -> option nat;
  toLocaleString : Z -> string;
}.

(** *** A reference host: ISO-8601 strings, UTC, "en-US" grouping. *)
Module Iso.

Definition digit (c : ascii) : option Z :=
  let n := Z.of_nat (nat_of_ascii c) in
  if ((48 <=? n) && (n <=? 57))%Z then Some (n - 48)%Z else None.

Definition num2 (a b : ascii) : option Z :=
  x ← digit a; y ← digit b; Some (10 * x + y)%Z.

Definition num4 (a b c d : ascii) : option Z :=
  x ← num2 a b; y ← num2 c d; Some (100 * x + y)%Z.

Definition isLeap (y : Z) : bool :=
  ((y mod 4 =? 0) && (negb (y mod 100 =? 0) || (y mod 400 =? 0)))%Z.

Definition daysInMonth (y m : Z) : Z :=
  if (m =? 2)%Z then (if isLeap y then 29 else 28)%Z
  else if ((m =? 4) || (m =? 6) || (m =? 9) || (m =? 11))%Z then 30%Z
  else 31%Z.

(** Days from 1970-01-01 to the civil date [y]-[m]-[d] (proleptic
    Gregorian calendar). *)
Definition daysFromCivil (y m d : Z) : Z :=
  let y' := (if m <=? 2 then y - 1 else y)%Z in
  let era := (y' / 400)%Z in
  let yoe := (y' - era * 400)%Z in
  let mp := (if 2 <? m then m - 3 else m + 9)%Z in
  let doy := ((153 * mp + 2) / 5 + d - 1)%Z in
  let doe := (yoe * 365 + yoe / 4 - yoe / 100 + doy)%Z in
  (era * 146097 + doe - 719468)%Z.

Definition msPerDay : Z := 86400000%Z.

Definition civil (y m d : Z) : option Z :=
  if ((1 <=? m) && (m <=? 12) && (1 <=? d) && (d <=? daysInMonth y m))%Z
  then Some (daysFromCivil y m d * msPerDay)%Z else None.

Definition clock (h mi s ms : Z) : option Z :=
  if ((h <=? 23) && (mi <=? 59) && (s <=? 59))%Z
  then Some (((h * 60 + mi) * 60 + s) * 1000 + ms)%Z else None.

(** Accepted forms: [YYYY-MM-DD], [YYYY-MM-DDTHH:mm:ssZ] and
    [YYYY-MM-DDTHH:mm:ss.sssZ]; everything else is an invalid date on
    this host. *)
Definition parse (s : string) : option Z :=
  match list_ascii_of_string s with
  | [y1; y2; y3; y4; "-"; m1; m2; "-"; d1; d2]%char =>
      y ← num4 y1 y2 y3 y4; m ← num2 m1 m2; d ← num2 d1 d2; civil y m d
  | [y1; y2; y3; y4; "-"; m1; m2; "-"; d1; d2; "T";
     h1; h2; ":"; i1; i2; ":"; s1; s2; "Z"]%char =>
      y ← num4 y1 y2 y3 y4; m ← num2 m1 m2; d ← num2 d1 d2;
      h ← num2 h1 h2; mi ← num2 i1 i2; sec ← num2 s1 s2;
      day ← civil y m d; t ← clock h mi sec 0; Some (day + t)%Z
  | [y1; y2; y3; y4; "-"; m1; m2; "-"; d1; d2; "T";
     h1; h2; ":"; i1; i2; ":"; s1; s2; "."; f1; f2; f3; "Z"]%char =>
      y ← num4 y1 y2 y3 y4; m ← num2 m1 m2; d ← num2 d1 d2;
      h ← num2 h1 h2; mi ← num2 i1 i2; sec ← num2 s1 s2;
      f ← digit f1; g ← num2 f2 f3;
      day ← civil y m d; t ← clock h mi sec (100 * f + g); Some (day + t)%Z
  | _ => None
  end.

Definition hours (s : string) : option nat :=
  t ← parse s; Some (Z.to_nat ((t / 3600000) mod 24)).

(** 1970-01-01 was a Thursday (day 4, Sunday being 0). *)
Definition weekday (s : string) : option nat :=
  t ← parse s; Some (Z.to_nat ((t / msPerDay + 4) mod 7)).

(** Digits in groups of three, separated by commas. *)
Fixpoint group3 (l : list ascii) : list ascii :=
  match l with
  | a :: b :: c :: ((_ :: _) as r) => a :: b :: c :: ","%char :: group3 r
  | _ => l
  end.

Definition grouped (z : Z) : string :=
  let digits := list_ascii_of_string (Js.numberToString (Z.abs z)) in
  let body := string_of_list_ascii (rev (group3 (rev digits))) in
  if (z <? 0)%Z then String "-" body else body.

End Iso.

#[export] Instance IsoUtc : Runtime := {|
  Date_getTime := Iso.parse;
  Date_getHours := Iso.hours;
  Date_getDay := Iso.weekday;
  toLocaleString := Iso.grouped;
|}.

(** ** Input records (the interfaces at the top of the service) *)

Record Author := {
  author_name : string;
  author_email : string;
  author_date : string;
}.

(** [comment] is optional here because the code reads it with [?.]. *)
Record AzureDevOpsCommit := {
  commitId : string;
  author : Author;
  comment : option string;
}.

Record Reviewer := {
  displayName : string;
  vote : Z;
}.

(** [createdBy] holds [createdBy.displayName]. *)
Record AzureDevOpsPullRequest := {
  pullRequestId : Z;
  pr_title : string;
  status : string;
  createdBy : string;
  closedDate : option string;
  creationDate : string;
  reviewers : option (list Reviewer);
}.

(** The [fields] bag of a work item; [System_AssignedTo] holds
    [fields["System.AssignedTo"]?.displayName].  Story points are taken
    to be whole numbers; [None] also stands for the values [|| 0] maps
    to 0. *)
Record AzureDevOpsWorkItem := {
  id : Z;
  System_Title : string;
  System_WorkItemType : string;
  System_State : string;
  System_AssignedTo : option string;
  StoryPoints : option Z;
  System_CreatedDate : string;
  System_AreaPath : option string;
}.

(** One entry of the untyped file-change list: [item?.path],
    [changeType], [item?.contentLength]. *)
Record FileChange := {
  item_path : option string;
  changeType : string;
  item_contentLength : option Z;
}.

(** ** The summary schema ([shared/schema.ts]) *)

Record Contributor := {
  name : string;
  commits : nat;
  pullRequestsOpened : nat;
  pullRequestsReviewed : nat;
  commentsWritten : nat;
  bugsFixed : nat;
  storyPointsDone : Z;
  linesAdded : option Z;
  linesDeleted : option Z;
  avgPrMergeTimeHours : option Z;
  longestStreak : option nat;
  favoriteHour : option Z;
}.

Record Top5Entry := {
  entry_name : string;
  entry_commits : option nat;
  entry_pullRequestsOpened : option nat;
  entry_pullRequestsReviewed : option nat;
  entry_commentsWritten : option nat;
}.

Record BusiestDay := {
  day_date : string;
  day_commits : nat;
}.

Record Top5 := {
  mostCommits : list Top5Entry;
  mostPullRequestsOpened : list Top5Entry;
  mostPullRequestsReviewed : list Top5Entry;
  mostCommentsWritten : list Top5Entry;
  busiestDaysByCommits : list BusiestDay;
  longestStreaks : option (list Top5Entry);
}.

Record Milestone := {
  date : string;
  title : string;
  description : string;
  icon : string;
}.

Record ActivityPattern := {
  hourlyDistribution : list nat;
  dailyDistribution : list nat;
  busiestHour : Z;
  busiestDay : option string;
  peakProductivityTime : string;
}.

Record CodeChanges := {
  cc_linesAdded : Z;
  cc_linesDeleted : Z;
  cc_filesChanged : nat;
}.

(** [Module] of the schema, as [aggregateModuleStats] fills it. *)
Record ProjectModule := {
  module_name : string;
  module_commits : nat;
  module_pullRequests : nat;
  module_storyPointsDone : Z;
  module_status : string;
}.

(** [RepositoryStats], with the fields [aggregateRepositoryStats] sets;
    and the repositories it is given. *)
Record RepositoryStats := {
  repo_name : string;
  repo_commits : nat;
  repo_pullRequests : nat;
  repo_contributors : nat;
}.

Record Repository := {
  repository_id : string;
  repository_name : string;
}.

(** The part of [ProjectWrappedData] the properties below speak about.
    The remaining fields of the document (project name, version, date
    range, modules, repositories, fun facts, work-item breakdown and the
    other counters of [stats]) are built independently of these. *)
Record ProjectWrappedData := {
  totalCommits : nat;
  totalPullRequests : nat;
  sprintsCompleted : option Z;
  contributors : list Contributor;
  top5 : Top5;
  highlights : list string;
  milestones : list Milestone;
  activityPattern : option ActivityPattern;
}.

(** *** Field updates on a contributor object *)

Definition incCommits (c : Contributor) : Contributor :=
  {| name := name c; commits := S (commits c);
     pullRequestsOpened := pullRequestsOpened c;
     pullRequestsReviewed := pullRequestsReviewed c;
     commentsWritten := commentsWritten c; bugsFixed := bugsFixed c;
     storyPointsDone := storyPointsDone c; linesAdded := linesAdded c;
     linesDeleted := linesDeleted c;
     avgPrMergeTimeHours := avgPrMergeTimeHours c;
     longestStreak := longestStreak c; favoriteHour := favoriteHour c |}.

Definition incPullRequestsOpened (c : Contributor) : Contributor :=
  {| name := name c; commits := commits c;
     pullRequestsOpened := S (pullRequestsOpened c);
     pullRequestsReviewed := pullRequestsReviewed c;
     commentsWritten := commentsWritten c; bugsFixed := bugsFixed c;
     storyPointsDone := storyPointsDone c; linesAdded := linesAdded c;
     linesDeleted := linesDeleted c;
     avgPrMergeTimeHours := avgPrMergeTimeHours c;
     longestStreak := longestStreak c; favoriteHour := favoriteHour c |}.

Definition incPullRequestsReviewed (c : Contributor) : Contributor :=
  {| name := name c; commits := commits c;
     pullRequestsOpened := pullRequestsOpened c;
     pullRequestsReviewed := S (pullRequestsReviewed c);
     commentsWritten := commentsWritten c; bugsFixed := bugsFixed c;
     storyPointsDone := storyPointsDone c; linesAdded := linesAdded c;
     linesDeleted := linesDeleted c;
     avgPrMergeTimeHours := avgPrMergeTimeHours c;
     longestStreak := longestStreak c; favoriteHour := favoriteHour c |}.

Definition incBugsFixed (c : Contributor) : Contributor :=
  {| name := name c; commits := commits c;
     pullRequestsOpened := pullRequestsOpened c;
     pullRequestsReviewed := pullRequestsReviewed c;
     commentsWritten := commentsWritten c; bugsFixed := S (bugsFixed c);
     storyPointsDone := storyPointsDone c; linesAdded := linesAdded c;
     linesDeleted := linesDeleted c;
     avgPrMergeTimeHours := avgPrMergeTimeHours c;
     longestStreak := longestStreak c; favoriteHour := favoriteHour c |}.

Definition addStoryPoints (p : Z) (c : Contributor) : Contributor :=
  {| name := name c; commits := commits c;
     pullRequestsOpened := pullRequestsOpened c;
     pullRequestsReviewed := pullRequestsReviewed c;
     commentsWritten := commentsWritten c; bugsFixed := bugsFixed c;
     storyPointsDone := (storyPointsDone c + p)%Z; linesAdded := linesAdded c;
     linesDeleted := linesDeleted c;
     avgPrMergeTimeHours := avgPrMergeTimeHours c;
     longestStreak := longestStreak c; favoriteHour := favoriteHour c |}.

Definition setAvgPrMergeTimeHours (h : Z) (c : Contributor) : Contributor :=
  {| name := name c; commits := commits c;
     pullRequestsOpened := pullRequestsOpened c;
     pullRequestsReviewed := pullRequestsReviewed c;
     commentsWritten := commentsWritten c; bugsFixed := bugsFixed c;
     storyPointsDone := storyPointsDone c; linesAdded := linesAdded c;
     linesDeleted := linesDeleted c;
     avgPrMergeTimeHours := Some h;
     longestStreak := longestStreak c; favoriteHour := favoriteHour c |}.

Definition setLongestStreak (s : nat) (c : Contributor) : Contributor :=
  {| name := name c; commits := commits c;
     pullRequestsOpened := pullRequestsOpened c;
     pullRequestsReviewed := pullRequestsReviewed c;
     commentsWritten := commentsWritten c; bugsFixed := bugsFixed c;
     storyPointsDone := storyPointsDone c; linesAdded := linesAdded c;
     linesDeleted := linesDeleted c;
     avgPrMergeTimeHours := avgPrMergeTimeHours c;
     longestStreak := Some s; favoriteHour := favoriteHour c |}.

Definition setFavoriteHour (h : Z) (c : Contributor) : Contributor :=
  {| name := name c; commits := commits c;
     pullRequestsOpened := pullRequestsOpened c;
     pullRequestsReviewed := pullRequestsReviewed c;
     commentsWritten := commentsWritten c; bugsFixed := bugsFixed c;
     storyPointsDone := storyPointsDone c; linesAdded := linesAdded c;
     linesDeleted := linesDeleted c;
     avgPrMergeTimeHours := avgPrMergeTimeHours c;
     longestStreak := longestStreak c; favoriteHour := Some h |}.

(** *** Comparators of the ranking sorts: [(a, b) => b.f - a.f] *)

Definition descending (f : Contributor -> nat) (a b : Contributor) : Z :=
  (Z.of_nat (f b) - Z.of_nat (f a))%Z.

Definition byCommits := descending commits.
Definition byPullRequestsOpened := descending pullRequestsOpened.
Definition byPullRequestsReviewed := descending pullRequestsReviewed.
Definition byCommentsWritten := descending commentsWritten.
(** [(b.longestStreak || 0) - (a.longestStreak || 0)] *)
Definition byLongestStreak := descending (fun c => default 0 (longestStreak c)).

(** The entries a ranking is mapped to. *)
Definition commitsEntry (c : Contributor) : Top5Entry :=
  {| entry_name := name c; entry_commits := Some (commits c);
     entry_pullRequestsOpened := None; entry_pullRequestsReviewed := None;
     entry_commentsWritten := None |}.

Definition pullRequestsOpenedEntry (c : Contributor) : Top5Entry :=
  {| entry_name := name c; entry_commits := None;
     entry_pullRequestsOpened := Some (pullRequestsOpened c);
     entry_pullRequestsReviewed := None; entry_commentsWritten := None |}.

Definition pullRequestsReviewedEntry (c : Contributor) : Top5Entry :=
  {| entry_name := name c; entry_commits := None;
     entry_pullRequestsOpened := None;
     entry_pullRequestsReviewed := Some (pullRequestsReviewed c);
     entry_commentsWritten := None |}.

Definition commentsWrittenEntry (c : Contributor) : Top5Entry :=
  {| entry_name := name c; entry_commits := None;
     entry_pullRequestsOpened := None; entry_pullRequestsReviewed := None;
     entry_commentsWritten := Some (commentsWritten c) |}.

Definition streakEntry (c : Contributor) : Top5Entry :=
  {| entry_name := name c; entry_commits := Some (default 0 (longestStreak c));
     entry_pullRequestsOpened := None; entry_pullRequestsReviewed := None;
     entry_commentsWritten := None |}.

(** The busiest calendar days: identical in every revision. *)
Definition countDate (m : Js.Map.t nat) (c : AzureDevOpsCommit) : Js.Map.t nat :=
  let d := Js.splitT0 (author_date (author c)) in
  Js.Map.set d (default 0 (Js.Map.get d m) + 1) m.

Definition busiestDays (commits : list AzureDevOpsCommit) : list BusiestDay :=
  let commitsByDate := foldl countDate Js.Map.empty commits in
  map (fun e => {| day_date := fst e; day_commits := snd e |})
      (take 5 (Js.sort (fun a b => (Z.of_nat (snd b) - Z.of_nat (snd a))%Z)
                       (Js.Map.entries commitsByDate))).

(** The two counting filters every revision uses. *)
Definition isCompleted (pr : AzureDevOpsPullRequest) : bool :=
  String.eqb (status pr) "completed".

Definition isDoneBug (wi : AzureDevOpsWorkItem) : bool :=
  String.eqb (System_WorkItemType wi) "Bug" && String.eqb (System_State wi) "Done".

Definition totalStoryPoints (workItems : list AzureDevOpsWorkItem) : Z :=
  foldl (fun acc wi => (acc + Js.orZero (StoryPoints wi))%Z) 0%Z workItems.

(** [dateFrom && dateTo ? Math.floor((to - from) / 14 days) : 0].  The
    quotient is taken on integers; on calendar dates with four-digit
    years the double-precision quotient has the same floor. *)
Definition msPerSprint : Z := (14 * 24 * 60 * 60 * 1000)%Z.

Definition supplied (o : option string) : bool :=
  match o with Some s => Js.truthy s | None => false end.

(** Helpers of [generateHighlights], shared by the revisions. *)

Definition countType (m : Js.Map.t nat) (wi : AzureDevOpsWorkItem) : Js.Map.t nat :=
  let type := Js.orString (Some (System_WorkItemType wi)) "Unknown" in
  Js.Map.set type (default 0 (Js.Map.get type m) + 1) m.

(** [m.get(k) || d] on counters. *)
Definition getOr (m : Js.Map.t nat) (k : string) (d : nat) : nat :=
  match Js.Map.get k m with
  | Some n => if Nat.eqb n 0 then d else n
  | None => d
  end.

(** [if (cond) highlights.push(text)] *)
Definition pushIf (cond : bool) (text : string) (highlights : list string)
    : list string :=
  if cond then highlights ++ [text] else highlights.

Definition bugHighlight (bugsFixed bugs : nat) (highlights : list string)
    : list string :=
  if 0 <? bugsFixed
  then highlights ++ [Js.natToString bugsFixed +:+ " bugs squashed out of "
                        +:+ Js.natToString bugs +:+ " total"]
  else pushIf (0 <? bugs) (Js.natToString bugs +:+ " bugs tracked") highlights.

Definition uniqueContributors (commits : list AzureDevOpsCommit) : nat :=
  Js.StringSet.size (Js.StringSet.ofList (map (fun c => author_name (author c)) commits)).

(** The body of the work-item loop of [aggregateContributorStats]; the
    same text in every revision.  [assignee && contributorMap.has(assignee)]
    guards both updates. *)
Definition forWorkItem (contributorMap : Js.Map.t Contributor)
    (wi : AzureDevOpsWorkItem) : Js.Map.t Contributor :=
  match System_AssignedTo wi with
  | Some assignee =>
      if Js.truthy assignee && Js.Map.has assignee contributorMap then
        let contributorMap :=
          if isDoneBug wi
          then Js.Map.update incBugsFixed assignee contributorMap
          else contributorMap in
        Js.Map.update (addStoryPoints (Js.orZero (StoryPoints wi))) assignee contributorMap
      else contributorMap
  | None => contributorMap
  end.

(** ** [server/services/azure-devops.ts] (the current revision) *)

Record PrMergeStats := {
  avgMergeTimeHours : Z;
  fastestMergeTimeHours : Q;
  mergeTimeByAuthor : Js.Map.t (list Q);
}.

Record StreakData := {
  streak_longestStreak : nat;
  streaksByAuthor : Js.Map.t nat;
}.

Module AzureDevOps.
Section WithRuntime.
Context `{Runtime}.

(** *** calculatePrMergeStats *)

Definition sumQ (l : list Q) : Q := foldl Qplus 0%Q l.
Definition minQ (x : Q) (l : list Q) : Q := foldl Qmin x l.

(** [(closed - created) / (1000 * 60 * 60)]; [None] when a date is
    invalid (the quotient is then [NaN] and fails both tests below). *)
Definition hoursToMerge (pr : AzureDevOpsPullRequest) : option Q :=
  created ← Date_getTime (creationDate pr);
  closed ← closedDate pr ≫= Date_getTime;
  Some (inject_Z (closed - created) / inject_Z (1000 * 60 * 60))%Q.

Definition recordMergeTime (st : list Q * Js.Map.t (list Q))
    (pr : AzureDevOpsPullRequest) : list Q * Js.Map.t (list Q) :=
  let '(mergeTimes, byAuthor) := st in
  if isCompleted pr && supplied (closedDate pr) && Js.truthy (creationDate pr) then
    match hoursToMerge pr with
    | Some h =>
        if negb (Qle_bool h 0) && negb (Qle_bool 8760 h) then
          let who := createdBy pr in
          let byAuthor :=
            if negb (Js.Map.has who byAuthor)
            then Js.Map.set who [] byAuthor else byAuthor in
          (mergeTimes ++ [h], Js.Map.update (fun l => l ++ [h]) who byAuthor)
        else st
    | None => st
    end
  else st.

Definition calculatePrMergeStats (pullRequests : list AzureDevOpsPullRequest)
    : PrMergeStats :=
  let '(mergeTimes, byAuthor) := foldl recordMergeTime ([], Js.Map.empty) pullRequests in
  {| avgMergeTimeHours :=
       match mergeTimes with
       | [] => 0%Z
       | _ => Js.Math_round (sumQ mergeTimes / inject_Z (Z.of_nat (length mergeTimes)))
       end;
     fastestMergeTimeHours :=
       match mergeTimes with
       | [] => 0%Q
       | t :: ts => (inject_Z (Js.Math_round (minQ t ts * 10)) / 10)%Q
       end;
     mergeTimeByAuthor := byAuthor |}.

(** *** calculateActivityPattern *)

Definition dayNames : list string :=
  ["Sunday"; "Monday"; "Tuesday"; "Wednesday"; "Thursday"; "Friday"; "Saturday"].

(** [hourlyDistribution[date.getHours()]++] and the same for the day;
    on an invalid date the index is [NaN] and no bucket changes. *)
Definition tally (st : list nat * list nat) (commit : AzureDevOpsCommit)
    : list nat * list nat :=
  let '(hourly, daily) := st in
  let d := author_date (author commit) in
  (match Date_getHours d with Some h => alter S h hourly | None => hourly end,
   match Date_getDay d with Some w => alter S w daily | None => daily end).

Definition peakOf (busiestHour : Z) : string :=
  if ((5 <=? busiestHour) && (busiestHour <? 12))%Z then "Morning"
  else if ((12 <=? busiestHour) && (busiestHour <? 17))%Z then "Afternoon"
  else if ((17 <=? busiestHour) && (busiestHour <? 21))%Z then "Evening"
  else "Night".

Definition calculateActivityPattern (commits : list AzureDevOpsCommit)
    : ActivityPattern :=
  let '(hourly, daily) := foldl tally (replicate 24 0, replicate 7 0) commits in
  let busiestHour := Js.indexOf (Js.Math_max hourly) hourly in
  let busiestDayIndex := Js.indexOf (Js.Math_max daily) daily in
  {| hourlyDistribution := hourly;
     dailyDistribution := daily;
     busiestHour := busiestHour;
     busiestDay := Js.at_ dayNames busiestDayIndex;
     peakProductivityTime := peakOf busiestHour |}.

(** *** calculateStreaks *)

Definition collectDate (m : Js.Map.t Js.StringSet.t) (commit : AzureDevOpsCommit)
    : Js.Map.t Js.StringSet.t :=
  let who := author_name (author commit) in
  let day := Js.splitT0 (author_date (author commit)) in
  let m := if negb (Js.Map.has who m)
           then Js.Map.set who Js.StringSet.empty m else m in
  Js.Map.update (Js.StringSet.add day) who m.

(** [diffDays === 1] for [diffDays = (curr - prev) / (1000*60*60*24)]. *)
Definition oneDayApart (prev curr : string) : bool :=
  match Date_getTime prev, Date_getTime curr with
  | Some p, Some c => (c - p =? 1000 * 60 * 60 * 24)%Z
  | _, _ => false
  end.

(** The [for] loop over [sortedDates], from index 1 on; [prev] is
    [sortedDates[i - 1]]. *)
Fixpoint walk (prev : string) (rest : list string)
    (currentStreak maxStreak : nat) : nat :=
  match rest with
  | [] => maxStreak
  | curr :: rest' =>
      if oneDayApart prev curr
      then walk curr rest' (S currentStreak) (Nat.max maxStreak (S currentStreak))
      else walk curr rest' 1 maxStreak
  end.

Definition sortedDates (dates : Js.StringSet.t) : list string :=
  Js.sort Js.compareStrings dates.

Definition maxStreakOf (dates : Js.StringSet.t) : nat :=
  match sortedDates dates with
  | [] => 1
  | first :: rest => walk first rest 1 1
  end.

Definition commitsByAuthorAndDate (commits : list AzureDevOpsCommit)
    : Js.Map.t Js.StringSet.t :=
  foldl collectDate Js.Map.empty commits.

Definition calculateStreaks (commits : list AzureDevOpsCommit) : StreakData :=
  let '(longest, streaks) :=
    foldl (fun st e =>
             let maxStreak := maxStreakOf (snd e) in
             (Nat.max (fst st) maxStreak, Js.Map.set (fst e) maxStreak (snd st)))
          (0, Js.Map.empty)
          (Js.Map.entries (commitsByAuthorAndDate commits)) in
  {| streak_longestStreak := longest; streaksByAuthor := streaks |}.

(** *** aggregateCodeChanges *)

Definition aggregateCodeChanges (fileChanges : list FileChange) : CodeChanges :=
  let '(linesAdded, files) :=
    foldl (fun st change =>
             let files := match item_path change with
                          | Some p => if Js.truthy p then Js.StringSet.add p (snd st)
                                      else snd st
                          | None => snd st
                          end in
             let added :=
               if String.eqb (changeType change) "add"
                  || String.eqb (changeType change) "edit"
               then (fst st + Js.orZero (item_contentLength change))%Z
               else fst st in
             (added, files))
          (0%Z, Js.StringSet.empty) fileChanges in
  {| cc_linesAdded := linesAdded; cc_linesDeleted := 0;
     cc_filesChanged := Js.StringSet.size files |}.

(** *** aggregateRepositoryStats *)

Definition newRepositoryStats (n : string) : RepositoryStats :=
  {| repo_name := n; repo_commits := 0; repo_pullRequests := 0;
     repo_contributors := 0 |}.

Definition setRepoContributors (k : nat) (r : RepositoryStats) : RepositoryStats :=
  {| repo_name := repo_name r; repo_commits := repo_commits r;
     repo_pullRequests := repo_pullRequests r; repo_contributors := k |}.

(** The body of the loop over the commits: the author is read and not
    used; every repository name gets an empty set if it has none. *)
Definition trackRepositories (repoStats : Js.Map.t RepositoryStats)
    (contributorsByRepo : Js.Map.t Js.StringSet.t) (commit : AzureDevOpsCommit)
    : Js.Map.t Js.StringSet.t :=
  foldl (fun byRepo repoName =>
           if negb (Js.Map.has repoName byRepo)
           then Js.Map.set repoName Js.StringSet.empty byRepo else byRepo)
        contributorsByRepo (Js.Map.keys repoStats).

Definition byRepoCommits (a b : RepositoryStats) : Z :=
  (Z.of_nat (repo_commits b) - Z.of_nat (repo_commits a))%Z.

Definition repositoryStatsMap (commits : list AzureDevOpsCommit)
    (repositories : list Repository) : Js.Map.t RepositoryStats :=
  let repoStats :=
    foldl (fun m repo =>
             Js.Map.set (repository_name repo)
               (newRepositoryStats (repository_name repo)) m)
          Js.Map.empty repositories in
  let contributorsByRepo :=
    foldl (trackRepositories repoStats) Js.Map.empty commits in
  foldl (fun m e =>
           if Js.Map.has (fst e) m
           then Js.Map.update (setRepoContributors (Js.StringSet.size (snd e))) (fst e) m
           else m)
        repoStats (Js.Map.entries contributorsByRepo).

Definition aggregateRepositoryStats (commits : list AzureDevOpsCommit)
    (pullRequests : list AzureDevOpsPullRequest) (repositories : list Repository)
    : list RepositoryStats :=
  take 10 (Js.sort byRepoCommits (Js.Map.values (repositoryStatsMap commits repositories))).

(** *** aggregateContributorStats *)

Definition newContributor (n : string) : Contributor :=
  {| name := n; commits := 0; pullRequestsOpened := 0;
     pullRequestsReviewed := 0; commentsWritten := 0; bugsFixed := 0;
     storyPointsDone := 0; linesAdded := Some 0%Z; linesDeleted := Some 0%Z;
     avgPrMergeTimeHours := Some 0%Z; longestStreak := Some 0;
     favoriteHour := Some 0%Z |}.

(** The two maps the loops mutate: [contributorMap] and
    [commitHoursByAuthor]. *)
Definition Maps : Type := Js.Map.t Contributor * Js.Map.t (list nat).

(** [if (!contributorMap.has(n)) { contributorMap.set(n, {...});
    commitHoursByAuthor.set(n, new Array(24).fill(0)); }] *)
Definition ensure (n : string) (st : Maps) : Maps :=
  if negb (Js.Map.has n (fst st))
  then (Js.Map.set n (newContributor n) (fst st),
        Js.Map.set n (replicate 24 0) (snd st))
  else st.

Definition forCommit (st : Maps) (commit : AzureDevOpsCommit) : Maps :=
  let n := author_name (author commit) in
  let st := ensure n st in
  let contributorMap := Js.Map.update incCommits n (fst st) in
  let commitHours :=
    match Date_getHours (author_date (author commit)) with
    | Some hour => Js.Map.update (alter S hour) n (snd st)
    | None => snd st
    end in
  (contributorMap, commitHours).

Definition forReviewer (st : Maps) (reviewer : Reviewer) : Maps :=
  let st := ensure (displayName reviewer) st in
  (Js.Map.update incPullRequestsReviewed (displayName reviewer) (fst st), snd st).

Definition forPullRequest (st : Maps) (pr : AzureDevOpsPullRequest) : Maps :=
  let n := createdBy pr in
  let st := ensure n st in
  let st := (Js.Map.update incPullRequestsOpened n (fst st), snd st) in
  foldl forReviewer st (default [] (reviewers pr)).

(** The callback of the final [forEach] over the entries. *)
Definition enrich (prMergeStats : PrMergeStats) (streakData : StreakData)
    (commitHours : Js.Map.t (list nat)) (e : string * Contributor)
    : string * Contributor :=
  let '(n, contributor) := e in
  let contributor :=
    match Js.Map.get n (mergeTimeByAuthor prMergeStats) with
    | Some ((_ :: _) as mergeTimes) =>
        setAvgPrMergeTimeHours
          (Js.Math_round (sumQ mergeTimes / inject_Z (Z.of_nat (length mergeTimes))))
          contributor
    | _ => contributor
    end in
  let contributor :=
    setLongestStreak (default 0 (Js.Map.get n (streaksByAuthor streakData)))
                     contributor in
  let contributor :=
    match Js.Map.get n commitHours with
    | Some hours => setFavoriteHour (Js.indexOf (Js.Math_max hours) hours) contributor
    | None => contributor
    end in
  (n, contributor).

(** The contributor map as it stands when the last loop has run. *)
Definition contributorMap (commits : list AzureDevOpsCommit)
    (pullRequests : list AzureDevOpsPullRequest)
    (workItems : list AzureDevOpsWorkItem)
    (prMergeStats : PrMergeStats) (streakData : StreakData)
    : Js.Map.t Contributor :=
  let st := foldl forCommit (Js.Map.empty, Js.Map.empty) commits in
  let st := foldl forPullRequest st pullRequests in
  let m := foldl forWorkItem (fst st) workItems in
  map (enrich prMergeStats streakData (snd st)) m.

Definition aggregateContributorStats (commits : list AzureDevOpsCommit)
    (pullRequests : list AzureDevOpsPullRequest)
    (workItems : list AzureDevOpsWorkItem)
    (prMergeStats : PrMergeStats) (streakData : StreakData)
    : list Contributor :=
  take 10 (Js.sort byCommits
             (Js.Map.values
                (contributorMap commits pullRequests workItems prMergeStats streakData))).

(** *** aggregateModuleStats *)

(** [(fields["System.AreaPath"] || "General").split("\\").pop() || "General"] *)
Definition moduleNameOf (wi : AzureDevOpsWorkItem) : string :=
  let areaPath := Js.orString (System_AreaPath wi) "General" in
  Js.orString (Js.pop (Js.split "\" areaPath)) "General".

Definition newModule (n : string) : ProjectModule :=
  {| module_name := n; module_commits := 0; module_pullRequests := 0;
     module_storyPointsDone := 0; module_status := "In Progress" |}.

(** [module.storyPointsDone += points; module.pullRequests++] *)
Definition creditModule (points : Z) (m : ProjectModule) : ProjectModule :=
  {| module_name := module_name m; module_commits := module_commits m;
     module_pullRequests := S (module_pullRequests m);
     module_storyPointsDone := (module_storyPointsDone m + points)%Z;
     module_status := module_status m |}.

Definition forModule (moduleMap : Js.Map.t ProjectModule) (wi : AzureDevOpsWorkItem)
    : Js.Map.t ProjectModule :=
  let moduleName := moduleNameOf wi in
  let moduleMap :=
    if negb (Js.Map.has moduleName moduleMap)
    then Js.Map.set moduleName (newModule moduleName) moduleMap else moduleMap in
  Js.Map.update (creditModule (Js.orZero (StoryPoints wi))) moduleName moduleMap.

Definition moduleMap (workItems : list AzureDevOpsWorkItem) : Js.Map.t ProjectModule :=
  foldl forModule Js.Map.empty workItems.

Definition byModulePoints (a b : ProjectModule) : Z :=
  (module_storyPointsDone b - module_storyPointsDone a)%Z.

Definition aggregateModuleStats (workItems : list AzureDevOpsWorkItem)
    : list ProjectModule :=
  take 6 (Js.sort byModulePoints (Js.Map.values (moduleMap workItems))).

(** *** calculateTop5: every ranking sorts a copy of [contributors] *)

Definition calculateTop5 (contributors : list Contributor)
    (commits : list AzureDevOpsCommit) (streakData : StreakData) : Top5 :=
  let sortedByCommits := Js.sort byCommits contributors in
  let sortedByPRsOpened := Js.sort byPullRequestsOpened contributors in
  let sortedByPRsReviewed := Js.sort byPullRequestsReviewed contributors in
  let sortedByComments := Js.sort byCommentsWritten contributors in
  let sortedByStreaks := Js.sort byLongestStreak contributors in
  {| mostCommits := map commitsEntry (take 5 sortedByCommits);
     mostPullRequestsOpened := map pullRequestsOpenedEntry (take 5 sortedByPRsOpened);
     mostPullRequestsReviewed :=
       map pullRequestsReviewedEntry (take 5 sortedByPRsReviewed);
     mostCommentsWritten := map commentsWrittenEntry (take 5 sortedByComments);
     busiestDaysByCommits := busiestDays commits;
     longestStreaks :=
       Some (map streakEntry
               (take 5 (filter (fun c => 0 < default 0 (longestStreak c))
                               sortedByStreaks))) |}.

(** *** generateHighlights *)

Definition peakHighlight (activityPattern : ActivityPattern) : string :=
  "Peak productivity: " +:+ peakProductivityTime activityPattern +:+ " ("
    +:+ Js.numberToString (busiestHour activityPattern) +:+ ":00)".

(** Every candidate sentence, in the order the function pushes them,
    before the final [slice]. *)
Definition candidateHighlights (commits : list AzureDevOpsCommit)
    (pullRequests : list AzureDevOpsPullRequest)
    (workItems : list AzureDevOpsWorkItem) (prComments : nat)
    (codeChanges : CodeChanges) (activityPattern : ActivityPattern)
    : list string :=
  let highlights := [] in
  let highlights :=
    pushIf (0 <? length commits)
      (toLocaleString (Z.of_nat (length commits)) +:+ " commits pushed") highlights in
  let highlights :=
    pushIf (0 <? length pullRequests)
      (Js.natToString (length (filter (fun pr => isCompleted pr) pullRequests))
         +:+ " pull requests merged") highlights in
  let highlights :=
    pushIf (0 <? prComments)
      (toLocaleString (Z.of_nat prComments) +:+ " code review comments") highlights in
  let highlights :=
    pushIf ((0 <? cc_linesAdded codeChanges)%Z || (0 <? cc_linesDeleted codeChanges)%Z)
      (toLocaleString (Z.of_nat (cc_filesChanged codeChanges)) +:+ " files modified")
      highlights in
  let workItemsByType := foldl countType Js.Map.empty workItems in
  let bugs := getOr workItemsByType "Bug" 0 in
  let bugsFixed := length (filter (fun wi => isDoneBug wi) workItems) in
  let highlights := bugHighlight bugsFixed bugs highlights in
  let features :=
    getOr workItemsByType "Feature" (getOr workItemsByType "User Story" 0) in
  let highlights :=
    pushIf (0 <? features) (Js.natToString features +:+ " features delivered")
      highlights in
  let testCases :=
    getOr workItemsByType "Test Case" (getOr workItemsByType "Test Plan" 0) in
  let highlights :=
    pushIf (0 <? testCases) (Js.natToString testCases +:+ " test cases created")
      highlights in
  let srds := getOr workItemsByType "Requirement" (getOr workItemsByType "SRD" 0) in
  let highlights :=
    pushIf (0 <? srds) (Js.natToString srds +:+ " requirements documented")
      highlights in
  let points := totalStoryPoints workItems in
  let highlights :=
    pushIf (0 <? points)%Z (Js.numberToString points +:+ " story points delivered")
      highlights in
  let unique := uniqueContributors commits in
  let highlights :=
    pushIf (0 <? unique) (Js.natToString unique +:+ " team members contributed")
      highlights in
  pushIf (Js.truthy (peakProductivityTime activityPattern))
    (peakHighlight activityPattern) highlights.

Definition generateHighlights (commits : list AzureDevOpsCommit)
    (pullRequests : list AzureDevOpsPullRequest)
    (workItems : list AzureDevOpsWorkItem) (prComments : nat)
    (codeChanges : CodeChanges) (activityPattern : ActivityPattern)
    : list string :=
  take 10 (candidateHighlights commits pullRequests workItems prComments
             codeChanges activityPattern).

(** *** generateMilestones *)

Definition byAuthorDate (a b : AzureDevOpsCommit) : Z :=
  Js.compareTimes (Date_getTime (author_date (author a)))
                  (Date_getTime (author_date (author b))).

Definition byDate (a b : Milestone) : Z :=
  Js.compareTimes (Date_getTime (date a)) (Date_getTime (date b)).

Definition periodStart (d : string) : Milestone :=
  {| date := d; title := "Period Start";
     description := "Beginning of the tracking period"; icon := "rocket" |}.

Definition firstCommit (c : AzureDevOpsCommit) : Milestone :=
  {| date := Js.splitT0 (author_date (author c)); title := "First Commit";
     description := Js.orString (substring 0 50 <$> comment c) "Initial commit";
     icon := "lightbulb" |}.

Definition halfwayPoint (midIndex : nat) (c : AzureDevOpsCommit) : Milestone :=
  {| date := Js.splitT0 (author_date (author c)); title := "Halfway Point";
     description := Js.natToString midIndex +:+ " commits so far";
     icon := "flag" |}.

Definition prsMilestone (d : string) : Milestone :=
  {| date := d; title := "100 PRs Milestone";
     description := "Team collaboration at scale"; icon := "party" |}.

Definition periodEnd (d : string) : Milestone :=
  {| date := d; title := "Period End";
     description := "End of tracking period"; icon := "lock" |}.

(** The milestones drawn from the commits; [sortedCommits[midIndex]]
    exists whenever the list is not empty. *)
Definition commitMilestones (commits : list AzureDevOpsCommit) : list Milestone :=
  match Js.sort byAuthorDate commits with
  | [] => []
  | (first :: _) as sortedCommits =>
      let midIndex := length sortedCommits / 2 in
      [firstCommit first; halfwayPoint midIndex (nth midIndex sortedCommits first)]
  end.

Definition whenSupplied (d : option string) (f : string -> Milestone)
    : list Milestone :=
  match d with
  | Some s => if Js.truthy s then [f s] else []
  | None => []
  end.

(** The list as pushed, before the final sort. *)
Definition pushedMilestones (commits : list AzureDevOpsCommit)
    (pullRequests : list AzureDevOpsPullRequest)
    (dateFrom dateTo : option string) : list Milestone :=
  whenSupplied dateFrom periodStart
    ++ commitMilestones commits
    ++ (if 100 <=? length pullRequests then whenSupplied dateTo prsMilestone else [])
    ++ whenSupplied dateTo periodEnd.

Definition generateMilestones (commits : list AzureDevOpsCommit)
    (pullRequests : list AzureDevOpsPullRequest)
    (workItems : list AzureDevOpsWorkItem)
    (dateFrom dateTo : option string) : list Milestone :=
  Js.sort byDate (pushedMilestones commits pullRequests dateFrom dateTo).

(** *** fetchAzureDevOpsData, from the point where the data is fetched *)

(** The [sprintsCompleted] field; [None] is [NaN] (a supplied bound
    that is not a date). *)
Definition sprintsCompletedOf (dateFrom dateTo : option string) : option Z :=
  match dateFrom, dateTo with
  | Some from, Some to =>
      if Js.truthy from && Js.truthy to then
        match Date_getTime to, Date_getTime from with
        | Some t, Some f => Some ((t - f) / msPerSprint)%Z
        | _, _ => None
        end
      else Some 0%Z
  | _, _ => Some 0%Z
  end.

Definition fetchAzureDevOpsData (dateFrom dateTo : option string)
    (commits : list AzureDevOpsCommit)
    (pullRequests : list AzureDevOpsPullRequest)
    (workItems : list AzureDevOpsWorkItem) (prComments : nat)
    (fileChanges : list FileChange) : ProjectWrappedData :=
  let prMergeStats := calculatePrMergeStats pullRequests in
  let activityPattern := calculateActivityPattern commits in
  let streakData := calculateStreaks commits in
  let codeChanges := aggregateCodeChanges fileChanges in
  let contributorStats :=
    aggregateContributorStats commits pullRequests workItems prMergeStats streakData in
  let top5 := calculateTop5 contributorStats commits streakData in
  let highlights :=
    generateHighlights commits pullRequests workItems prComments codeChanges
      activityPattern in
  let milestones := generateMilestones commits pullRequests workItems dateFrom dateTo in
  {| totalCommits := length commits;
     totalPullRequests := length pullRequests;
     sprintsCompleted := sprintsCompletedOf dateFrom dateTo;
     contributors := contributorStats;
     top5 := top5;
     highlights := highlights;
     milestones := milestones;
     activityPattern := Some activityPattern |}.

End WithRuntime.
End AzureDevOps.

(** ** [unnamed/part_001] (the revision before the enhanced statistics) *)

Module Part001.
Section WithRuntime.
Context `{Runtime}.

(** *** aggregateContributorStats *)

Definition newContributor (n : string) : Contributor :=
  {| name := n; commits := 0; pullRequestsOpened := 0;
     pullRequestsReviewed := 0; commentsWritten := 0; bugsFixed := 0;
     storyPointsDone := 0; linesAdded := None; linesDeleted := None;
     avgPrMergeTimeHours := None; longestStreak := None;
     favoriteHour := None |}.

Definition ensure (n : string) (m : Js.Map.t Contributor) : Js.Map.t Contributor :=
  if negb (Js.Map.has n m) then Js.Map.set n (newContributor n) m else m.

Definition forCommit (m : Js.Map.t Contributor) (commit : AzureDevOpsCommit)
    : Js.Map.t Contributor :=
  let n := author_name (author commit) in
  Js.Map.update incCommits n (ensure n m).

Definition forReviewer (m : Js.Map.t Contributor) (reviewer : Reviewer)
    : Js.Map.t Contributor :=
  Js.Map.update incPullRequestsReviewed (displayName reviewer)
    (ensure (displayName reviewer) m).

Definition forPullRequest (m : Js.Map.t Contributor) (pr : AzureDevOpsPullRequest)
    : Js.Map.t Contributor :=
  let n := createdBy pr in
  let m := Js.Map.update incPullRequestsOpened n (ensure n m) in
  foldl forReviewer m (default [] (reviewers pr)).

Definition contributorMap (commits : list AzureDevOpsCommit)
    (pullRequests : list AzureDevOpsPullRequest)
    (workItems : list AzureDevOpsWorkItem) : Js.Map.t Contributor :=
  let m := foldl forCommit Js.Map.empty commits in
  let m := foldl forPullRequest m pullRequests in
  foldl forWorkItem m workItems.

Definition aggregateContributorStats (commits : list AzureDevOpsCommit)
    (pullRequests : list AzureDevOpsPullRequest)
    (workItems : list AzureDevOpsWorkItem) : list Contributor :=
  take 10 (Js.sort byCommits
             (Js.Map.values (contributorMap commits pullRequests workItems))).

(** *** calculateTop5

    Here every ranking calls [contributors.sort(...)] on the array it
    was given: the array is reordered in place, four times in the order
    of the object literal.  The function is modelled with the array it
    leaves behind as second component. *)
Definition calculateTop5 (contributors : list Contributor)
    (commits : list AzureDevOpsCommit) : Top5 * list Contributor :=
  let days := busiestDays commits in
  let contributors := Js.sort byCommits contributors in
  let ranking1 := map commitsEntry (take 5 contributors) in
  let contributors := Js.sort byPullRequestsOpened contributors in
  let ranking2 := map pullRequestsOpenedEntry (take 5 contributors) in
  let contributors := Js.sort byPullRequestsReviewed contributors in
  let ranking3 := map pullRequestsReviewedEntry (take 5 contributors) in
  let contributors := Js.sort byCommentsWritten contributors in
  let ranking4 := map commentsWrittenEntry (take 5 contributors) in
  ({| mostCommits := ranking1;
      mostPullRequestsOpened := ranking2;
      mostPullRequestsReviewed := ranking3;
      mostCommentsWritten := ranking4;
      busiestDaysByCommits := days;
      longestStreaks := None |},
   contributors).

(** *** generateHighlights *)

Definition candidateHighlights (commits : list AzureDevOpsCommit)
    (pullRequests : list AzureDevOpsPullRequest)
    (workItems : list AzureDevOpsWorkItem) (prComments : nat) : list string :=
  let highlights := [] in
  let highlights :=
    pushIf (0 <? length commits)
      (toLocaleString (Z.of_nat (length commits)) +:+ " commits pushed") highlights in
  let highlights :=
    pushIf (0 <? length pullRequests)
      (Js.natToString (length (filter (fun pr => isCompleted pr) pullRequests))
         +:+ " pull requests merged") highlights in
  let highlights :=
    pushIf (0 <? prComments)
      (Js.natToString prComments +:+ " code review comments") highlights in
  let workItemsByType := foldl countType Js.Map.empty workItems in
  let bugs := getOr workItemsByType "Bug" 0 in
  let bugsFixed := length (filter (fun wi => isDoneBug wi) workItems) in
  let highlights := bugHighlight bugsFixed bugs highlights in
  let features :=
    getOr workItemsByType "Feature"
      (getOr workItemsByType "User Story" 0) in
  let highlights :=
    pushIf (0 <? features)
      (Js.natToString features +:+ " features delivered") highlights in
  let testCases :=
    getOr workItemsByType "Test Case"
      (getOr workItemsByType "Test Plan" 0) in
  let highlights :=
    pushIf (0 <? testCases)
      (Js.natToString testCases +:+ " test cases created") highlights in
  let srds :=
    getOr workItemsByType "Requirement"
      (getOr workItemsByType "SRD" 0) in
  let highlights :=
    pushIf (0 <? srds)
      (Js.natToString srds +:+ " requirements documented") highlights in
  let points := totalStoryPoints workItems in
  let highlights :=
    pushIf (0 <? points)%Z
      (Js.numberToString points +:+ " story points delivered") highlights in
  let unique := uniqueContributors commits in
  pushIf (0 <? unique)
    (Js.natToString unique +:+ " team members contributed") highlights.

Definition generateHighlights (commits : list AzureDevOpsCommit)
    (pullRequests : list AzureDevOpsPullRequest)
    (workItems : list AzureDevOpsWorkItem) (prComments : nat) : list string :=
  take 8 (candidateHighlights commits pullRequests workItems prComments).

(** *** generateMilestones: the text of the current revision *)

Definition generateMilestones (commits : list AzureDevOpsCommit)
    (pullRequests : list AzureDevOpsPullRequest)
    (workItems : list AzureDevOpsWorkItem)
    (dateFrom dateTo : option string) : list Milestone :=
  AzureDevOps.generateMilestones commits pullRequests workItems dateFrom dateTo.

(** *** fetchAzureDevOpsData, from the point where the data is fetched

    [contributorStats] names one array: [calculateTop5] reorders it, and
    the document returned afterwards holds that same array. *)
Definition fetchAzureDevOpsData (dateFrom dateTo : option string)
    (commits : list AzureDevOpsCommit)
    (pullRequests : list AzureDevOpsPullRequest)
    (workItems : list AzureDevOpsWorkItem) (prComments : nat)
    : ProjectWrappedData :=
  let contributorStats := aggregateContributorStats commits pullRequests workItems in
  let '(top5, contributorStats) := calculateTop5 contributorStats commits in
  let highlights := generateHighlights commits pullRequests workItems prComments in
  let milestones := generateMilestones commits pullRequests workItems dateFrom dateTo in
  {| totalCommits := length commits;
     totalPullRequests := length pullRequests;
     sprintsCompleted := AzureDevOps.sprintsCompletedOf dateFrom dateTo;
     contributors := contributorStats;
     top5 := top5;
     highlights := highlights;
     milestones := milestones;
     activityPattern := None |}.

End WithRuntime.
End Part001.

(** ** [unnamed/part_009] (the first revision): its highlights *)

Module Part009.

Definition candidateHighlights (commits : list AzureDevOpsCommit)
    (pullRequests : list AzureDevOpsPullRequest)
    (workItems : list AzureDevOpsWorkItem) `{Runtime} : list string :=
  let highlights := [] in
  let highlights :=
    pushIf (0 <? length commits)
      (toLocaleString (Z.of_nat (length commits)) +:+ " commits pushed") highlights in
  let highlights :=
    pushIf (0 <? length pullRequests)
      (Js.natToString (length (filter (fun pr => isCompleted pr) pullRequests))
         +:+ " pull requests merged") highlights in
  let bugsFixed := length (filter (fun wi => isDoneBug wi) workItems) in
  let highlights :=
    pushIf (0 <? bugsFixed)
      (Js.natToString bugsFixed +:+ " bugs squashed") highlights in
  let points := totalStoryPoints workItems in
  let highlights :=
    pushIf (0 <? points)%Z
      (Js.numberToString points +:+ " story points delivered") highlights in
  let unique := uniqueContributors commits in
  let highlights :=
    pushIf (0 <? unique)
      (Js.natToString unique +:+ " team members contributed") highlights in
  let features :=
    length (filter (fun wi => String.eqb (System_WorkItemType wi) "User Story")
              workItems) in
  pushIf (0 <? features)
    (Js.natToString features +:+ " user stories completed") highlights.

Definition generateHighlights (commits : list AzureDevOpsCommit)
    (pullRequests : list AzureDevOpsPullRequest)
    (workItems : list AzureDevOpsWorkItem) `{Runtime} : list string :=
  take 6 (candidateHighlights commits pullRequests workItems).

End Part009.

(** * Properties *)

(** ** Facts about the runtime model *)

Section MapFacts.
Context {V : Type}.
Implicit Types (m : Js.Map.t V) (k : string) (f : V -> V) (v : V).

Lemma has_true k m : Js.Map.has k m = true <-> is_Some (Js.Map.get k m).
Proof.
  unfold Js.Map.has. destruct (Js.Map.get k m); split; intros Hx; eauto.
  - discriminate.
  - destruct Hx; discriminate.
Qed.

Lemma has_false k m : Js.Map.has k m = false <-> Js.Map.get k m = None.
Proof. unfold Js.Map.has. destruct (Js.Map.get k m); split; congruence. Qed.

Lemma get_update k k' f m :
  Js.Map.get k (Js.Map.update f k' m)
  = if String.eqb k k' then f <$> Js.Map.get k m else Js.Map.get k m.
Proof.
  induction m as [|[k0 v0] m IH]; simpl.
  - by destruct (String.eqb k k').
  - destruct (String.eqb_spec k' k0) as [->|Hne]; simpl.
    + destruct (String.eqb_spec k k0) as [->|Hne']; simpl; [done|].
      by destruct (Js.Map.get k m).
    + destruct (String.eqb_spec k k0) as [->|Hne']; simpl.
      * destruct (String.eqb_spec k0 k'); [congruence|done].
      * apply IH.
Qed.

Lemma has_update k k' f m : Js.Map.has k (Js.Map.update f k' m) = Js.Map.has k m.
Proof.
  unfold Js.Map.has. rewrite get_update.
  destruct (String.eqb k k'), (Js.Map.get k m); done.
Qed.

Lemma keys_update f k m : Js.Map.keys (Js.Map.update f k m) = Js.Map.keys m.
Proof.
  induction m as [|[k0 v0] m IH]; simpl; [done|].
  destruct (String.eqb k k0); simpl; [done|]. f_equal. apply IH.
Qed.

Lemma update_absent f k m : Js.Map.has k m = false -> Js.Map.update f k m = m.
Proof.
  rewrite has_false. induction m as [|[k0 v0] m IH]; simpl; [done|].
  destruct (String.eqb k k0); [done|]. intros Hg. by rewrite IH.
Qed.

Lemma get_snoc k k' v m :
  Js.Map.get k (m ++ [(k', v)])
  = match Js.Map.get k m with
    | Some x => Some x
    | None => if String.eqb k k' then Some v else None
    end.
Proof.
  induction m as [|[k0 v0] m IH]; simpl; [done|].
  destruct (String.eqb k k0); [done|apply IH].
Qed.

Lemma get_set k k' v m :
  Js.Map.get k (Js.Map.set k' v m)
  = if String.eqb k k' then Some v else Js.Map.get k m.
Proof.
  unfold Js.Map.set. destruct (Js.Map.has k' m) eqn:Hh.
  - rewrite get_update. destruct (String.eqb_spec k k') as [->|]; [|done].
    apply has_true in Hh as [x ->]. done.
  - rewrite get_snoc. apply has_false in Hh.
    destruct (String.eqb_spec k k') as [->|]; [by rewrite Hh|].
    by destruct (Js.Map.get k m).
Qed.

Lemma has_set k k' v m :
  Js.Map.has k (Js.Map.set k' v m) = String.eqb k k' || Js.Map.has k m.
Proof. unfold Js.Map.has. rewrite get_set. by destruct (String.eqb k k'). Qed.

Lemma keys_set_new k v m :
  Js.Map.has k m = false -> Js.Map.keys (Js.Map.set k v m) = Js.Map.keys m ++ [k].
Proof. intros Hh. unfold Js.Map.set, Js.Map.keys. rewrite Hh. by rewrite map_app. Qed.

Lemma keys_set_old k v m :
  Js.Map.has k m = true -> Js.Map.keys (Js.Map.set k v m) = Js.Map.keys m.
Proof. intros Hh. unfold Js.Map.set. rewrite Hh. apply keys_update. Qed.

Lemma has_In_keys k m : Js.Map.has k m = true <-> In k (Js.Map.keys m).
Proof.
  rewrite has_true. induction m as [|[k0 v0] m IH]; simpl.
  - split; [intros [? ?]; discriminate|tauto].
  - destruct (String.eqb_spec k k0) as [->|Hne].
    + split; eauto.
    + rewrite IH. split; [tauto|]. intros [?|?]; [congruence|done].
Qed.

(** Every object stored in the map satisfies [P]. *)
Lemma values_update (P : V -> Prop) f k m :
  (forall v, P v -> P (f v)) ->
  Forall P (Js.Map.values m) -> Forall P (Js.Map.values (Js.Map.update f k m)).
Proof.
  intros Hf. induction m as [|[k0 v0] m IH]; simpl; [done|].
  intros Hm. apply Forall_cons in Hm as [H0 Hm].
  destruct (String.eqb k k0); simpl; constructor; auto.
Qed.

Lemma values_set (P : V -> Prop) k v m :
  P v -> Forall P (Js.Map.values m) -> Forall P (Js.Map.values (Js.Map.set k v m)).
Proof.
  intros Hv Hm. unfold Js.Map.set. destruct (Js.Map.has k m).
  - by apply values_update.
  - unfold Js.Map.values. rewrite map_app. apply Forall_app. split; [done|].
    by constructor.
Qed.

(** The sum of a counter over the objects of the map. *)
Definition total (mu : V -> nat) (m : Js.Map.t V) : nat :=
  list_sum (map mu (Js.Map.values m)).

Lemma total_update_same mu f k m :
  (forall v, mu (f v) = mu v) -> total mu (Js.Map.update f k m) = total mu m.
Proof.
  intros Hf. unfold total, Js.Map.values.
  induction m as [|[k0 v0] m IH]; [done|]. simpl.
  destruct (String.eqb k k0); simpl; [by rewrite Hf|]. f_equal. apply IH.
Qed.

Lemma total_update_succ mu f k m :
  (forall v, mu (f v) = S (mu v)) -> Js.Map.has k m = true ->
  total mu (Js.Map.update f k m) = S (total mu m).
Proof.
  intros Hf. unfold total, Js.Map.has, Js.Map.values.
  induction m as [|[k0 v0] m IH]; [done|]. simpl.
  destruct (String.eqb k k0); simpl; [by rewrite Hf|].
  intros Hh. apply IH in Hh. simpl in Hh. lia.
Qed.

Lemma total_set_new mu k v m :
  Js.Map.has k m = false -> total mu (Js.Map.set k v m) = total mu m + mu v.
Proof.
  intros Hh. unfold Js.Map.set, total, Js.Map.values. rewrite Hh.
  rewrite !map_app, list_sum_app. simpl. lia.
Qed.
End MapFacts.

Section SortFacts.
Context {A : Type} (cmp : A -> A -> Z).

(** [x] may stand before [y] in a sorted array. *)
Definition inOrder (x y : A) : Prop := (cmp x y <= 0)%Z.

(** The comparator is consistent on the elements satisfying [P]. *)
Definition consistentOn (P : A -> Prop) : Prop :=
  forall a b, P a -> P b -> (0 < cmp a b)%Z -> (cmp b a <= 0)%Z.

Lemma insert_perm x l : Permutation (Js.insert cmp x l) (x :: l).
Proof.
  induction l as [|y l IH]; simpl; [done|].
  destruct (0 <? cmp x y)%Z; [|done].
  rewrite IH. apply perm_swap.
Qed.

Lemma sort_perm l : Permutation (Js.sort cmp l) l.
Proof.
  induction l as [|x l IH]; simpl; [done|].
  rewrite insert_perm. by constructor.
Qed.

Lemma length_sort l : length (Js.sort cmp l) = length l.
Proof. apply Permutation_length, sort_perm. Qed.

Lemma Forall_sort (P : A -> Prop) l : Forall P l -> Forall P (Js.sort cmp l).
Proof. intros Hl. by rewrite sort_perm. Qed.

Lemma In_sort x l : In x (Js.sort cmp l) <-> In x l.
Proof.
  split; apply Permutation_in; [apply sort_perm|].
  symmetry. apply sort_perm.
Qed.

Lemma insert_sorted (P : A -> Prop) x l :
  consistentOn P -> P x -> Forall P l ->
  Sorted inOrder l -> Sorted inOrder (Js.insert cmp x l).
Proof.
  intros Hc Hx. induction l as [|y l IH]; simpl; intros HP Hs.
  - repeat constructor.
  - apply Forall_cons in HP as [Hy HP].
    destruct (0 <? cmp x y)%Z eqn:Hlt.
    + apply Z.ltb_lt in Hlt. apply Sorted_inv in Hs as [Hs Hhd].
      constructor; [by apply IH|].
      destruct l as [|z l]; simpl.
      * constructor. by apply Hc.
      * destruct (0 <? cmp x z)%Z; constructor.
        -- by inversion Hhd.
        -- by apply Hc.
    + apply Z.ltb_ge in Hlt. constructor; [done|]. by constructor.
Qed.

Lemma sort_sorted (P : A -> Prop) l :
  consistentOn P -> Forall P l -> Sorted inOrder (Js.sort cmp l).
Proof.
  intros Hc. induction l as [|x l IH]; simpl; intros HP; [constructor|].
  apply Forall_cons in HP as [Hx HP].
  apply (insert_sorted P); auto using Forall_sort.
Qed.

(** A sorted array is left as it is. *)
Lemma sort_sorted_id l : Sorted inOrder l -> Js.sort cmp l = l.
Proof.
  induction l as [|x l IH]; simpl; [done|]. intros Hs.
  apply Sorted_inv in Hs as [Hs Hhd]. rewrite IH by done.
  destruct Hhd as [|y l Hxy]; simpl; [done|].
  unfold inOrder in Hxy. apply Z.ltb_ge in Hxy. by rewrite Hxy.
Qed.
End SortFacts.

Lemma Sorted_take {A} (R : A -> A -> Prop) n l : Sorted R l -> Sorted R (take n l).
Proof.
  revert n. induction l as [|x l IH]; intros [|n] Hs; simpl; try constructor.
  - apply IH. by apply Sorted_inv in Hs as [? ?].
  - apply Sorted_inv in Hs as [Hs Hhd].
    destruct Hhd; destruct n; simpl; by constructor.
Qed.

Lemma Sorted_weaken {A} (R S : A -> A -> Prop) l :
  (forall a b, R a b -> S a b) -> Sorted R l -> Sorted S l.
Proof.
  intros HRS. induction 1 as [|x l Hs IH Hhd]; constructor; [done|].
  destruct Hhd; constructor. by apply HRS.
Qed.

Lemma descending_consistent (f : Contributor -> nat) :
  consistentOn (descending f) (fun _ => True).
Proof. unfold consistentOn, descending. lia. Qed.

Lemma descending_inOrder (f : Contributor -> nat) a b :
  inOrder (descending f) a b <-> f b <= f a.
Proof. unfold inOrder, descending. lia. Qed.

Lemma sorted_descending (f : Contributor -> nat) l :
  Sorted (inOrder (descending f)) (Js.sort (descending f) l).
Proof. apply (sort_sorted _ (fun _ => True)); [apply descending_consistent|]. by apply Forall_true. Qed.

(** ** The aggregate contributor map *)

(** Counters a step leaves alone or moves by one. *)
Create HintDb counters.

Lemma commits_incCommits c : commits (incCommits c) = S (commits c).
Proof. done. Qed.
Lemma commits_incPullRequestsOpened c : commits (incPullRequestsOpened c) = commits c.
Proof. done. Qed.
Lemma commits_incPullRequestsReviewed c : commits (incPullRequestsReviewed c) = commits c.
Proof. done. Qed.
Lemma commits_incBugsFixed c : commits (incBugsFixed c) = commits c.
Proof. done. Qed.
Lemma commits_addStoryPoints p c : commits (addStoryPoints p c) = commits c.
Proof. done. Qed.
#[local] Hint Resolve commits_incCommits commits_incPullRequestsOpened
  commits_incPullRequestsReviewed commits_incBugsFixed commits_addStoryPoints : counters.

Lemma total_forWorkItem (mu : Contributor -> nat) m wi :
  (forall c, mu (incBugsFixed c) = mu c) ->
  (forall p c, mu (addStoryPoints p c) = mu c) ->
  total mu (forWorkItem m wi) = total mu m.
Proof.
  intros Hb Hp. unfold forWorkItem.
  destruct (System_AssignedTo wi) as [a|]; [|done].
  destruct (Js.truthy a && Js.Map.has a m); [|done].
  rewrite total_update_same by auto.
  destruct (isDoneBug wi); [|done]. by rewrite total_update_same.
Qed.

Lemma total_foldl_forWorkItem (mu : Contributor -> nat) wis m :
  (forall c, mu (incBugsFixed c) = mu c) ->
  (forall p c, mu (addStoryPoints p c) = mu c) ->
  total mu (foldl forWorkItem m wis) = total mu m.
Proof.
  intros Hb Hp. revert m. induction wis as [|wi wis IH]; intros m; simpl; [done|].
  rewrite IH. by apply total_forWorkItem.
Qed.

Section CommitCounts.
Context `{Runtime}.

(** The current revision, on the first of its two maps. *)
Lemma enhanced_ensure_has n st :
  Js.Map.has n (fst (AzureDevOps.ensure n st)) = true.
Proof.
  unfold AzureDevOps.ensure. destruct (Js.Map.has n (fst st)) eqn:Hh; simpl; [done|].
  by rewrite has_set, String.eqb_refl.
Qed.

Lemma enhanced_ensure_total n st :
  total commits (fst (AzureDevOps.ensure n st)) = total commits (fst st).
Proof.
  unfold AzureDevOps.ensure. destruct (Js.Map.has n (fst st)) eqn:Hh; simpl; [done|].
  rewrite total_set_new by done. simpl. lia.
Qed.

Lemma enhanced_forCommit_total st c :
  total commits (fst (AzureDevOps.forCommit st c)) = S (total commits (fst st)).
Proof.
  unfold AzureDevOps.forCommit. simpl.
  rewrite (total_update_succ commits) by auto using enhanced_ensure_has with counters.
  by rewrite enhanced_ensure_total.
Qed.

Lemma enhanced_forReviewer_total st r :
  total commits (fst (AzureDevOps.forReviewer st r)) = total commits (fst st).
Proof.
  unfold AzureDevOps.forReviewer. simpl.
  rewrite total_update_same by auto with counters. apply enhanced_ensure_total.
Qed.

Lemma enhanced_forPullRequest_total st pr :
  total commits (fst (AzureDevOps.forPullRequest st pr)) = total commits (fst st).
Proof.
  unfold AzureDevOps.forPullRequest.
  generalize (default [] (reviewers pr)). intros rs.
  transitivity (total commits
    (fst (Js.Map.update incPullRequestsOpened (createdBy pr)
            (fst (AzureDevOps.ensure (createdBy pr) st)),
          snd (AzureDevOps.ensure (createdBy pr) st)))).
  - generalize (Js.Map.update incPullRequestsOpened (createdBy pr)
                  (fst (AzureDevOps.ensure (createdBy pr) st)),
                snd (AzureDevOps.ensure (createdBy pr) st)).
    induction rs as [|r rs IH]; intros st'; simpl; [done|].
    rewrite IH. apply enhanced_forReviewer_total.
  - simpl. rewrite total_update_same by auto with counters.
    apply enhanced_ensure_total.
Qed.

Lemma enhanced_commit_loop cs st :
  total commits (fst (foldl AzureDevOps.forCommit st cs))
  = total commits (fst st) + length cs.
Proof.
  revert st. induction cs as [|c cs IH]; intros st; simpl; [lia|].
  rewrite IH, enhanced_forCommit_total. lia.
Qed.

Lemma enhanced_pullRequest_loop prs st :
  total commits (fst (foldl AzureDevOps.forPullRequest st prs))
  = total commits (fst st).
Proof.
  revert st. induction prs as [|pr prs IH]; intros st; simpl; [done|].
  rewrite IH. apply enhanced_forPullRequest_total.
Qed.

Lemma enrich_fst stats streaks hours e :
  fst (AzureDevOps.enrich stats streaks hours e) = fst e.
Proof. destruct e. unfold AzureDevOps.enrich. done. Qed.

(** [enrich] writes the three derived fields and nothing else. *)
Lemma enrich_counters stats streaks hours e :
  let c := snd e in
  let c' := snd (AzureDevOps.enrich stats streaks hours e) in
  name c' = name c /\ commits c' = commits c
  /\ pullRequestsOpened c' = pullRequestsOpened c
  /\ pullRequestsReviewed c' = pullRequestsReviewed c
  /\ commentsWritten c' = commentsWritten c
  /\ bugsFixed c' = bugsFixed c /\ storyPointsDone c' = storyPointsDone c.
Proof.
  destruct e as [n c]. unfold AzureDevOps.enrich. simpl.
  destruct (Js.Map.get n (mergeTimeByAuthor stats)) as [[|? ?]|];
    destruct (Js.Map.get n hours); simpl; repeat split.
Qed.

Lemma enrich_total (mu : Contributor -> nat) stats streaks hours m :
  (forall e, mu (snd (AzureDevOps.enrich stats streaks hours e)) = mu (snd e)) ->
  total mu (map (AzureDevOps.enrich stats streaks hours) m) = total mu m.
Proof.
  intros Hmu. unfold total, Js.Map.values. rewrite !map_map.
  f_equal. apply map_ext. intros e. apply Hmu.
Qed.

(** The earlier revision. *)
Lemma basic_ensure_has n m : Js.Map.has n (Part001.ensure n m) = true.
Proof.
  unfold Part001.ensure. destruct (Js.Map.has n m) eqn:Hh; simpl; [done|].
  by rewrite has_set, String.eqb_refl.
Qed.

Lemma basic_ensure_total n m :
  total commits (Part001.ensure n m) = total commits m.
Proof.
  unfold Part001.ensure. destruct (Js.Map.has n m) eqn:Hh; simpl; [done|].
  rewrite total_set_new by done. simpl. lia.
Qed.

Lemma basic_commit_loop cs m :
  total commits (foldl Part001.forCommit m cs) = total commits m + length cs.
Proof.
  revert m. induction cs as [|c cs IH]; intros m; simpl; [lia|].
  rewrite IH. unfold Part001.forCommit.
  rewrite (total_update_succ commits) by auto using basic_ensure_has with counters.
  rewrite basic_ensure_total. lia.
Qed.

Lemma basic_reviewer_loop rs m :
  total commits (foldl Part001.forReviewer m rs) = total commits m.
Proof.
  revert m. induction rs as [|r rs IH]; intros m; simpl; [done|].
  rewrite IH. unfold Part001.forReviewer.
  rewrite total_update_same by auto with counters. apply basic_ensure_total.
Qed.

Lemma basic_pullRequest_loop prs m :
  total commits (foldl Part001.forPullRequest m prs) = total commits m.
Proof.
  revert m. induction prs as [|pr prs IH]; intros m; simpl; [done|].
  rewrite IH. unfold Part001.forPullRequest. rewrite basic_reviewer_loop.
  rewrite total_update_same by auto with counters. apply basic_ensure_total.
Qed.
End CommitCounts.

(** C1.  For every commit list, pull-request list and work-item list, the
    commit counts of the contributors in the map that
    [aggregateContributorStats] builds add up to the number of commits:
    each commit adds one to one author's count and no later step touches
    a commit count.  Shown for the current revision of the service
    (whatever merge-time and streak data it is handed) and for the
    revision before it. *)
Theorem commit_counts_sum_to_commit_list_length :
  forall (rt : Runtime) (cs : list AzureDevOpsCommit)
         (prs : list AzureDevOpsPullRequest) (wis : list AzureDevOpsWorkItem)
         (stats : PrMergeStats) (streaks : StreakData),
    list_sum (map commits (Js.Map.values
                             (AzureDevOps.contributorMap cs prs wis stats streaks)))
    = length cs
    /\ list_sum (map commits (Js.Map.values (Part001.contributorMap cs prs wis)))
       = length cs.
Proof.
  intros rt cs prs wis stats streaks. split.
  - change (total commits (AzureDevOps.contributorMap cs prs wis stats streaks)
            = length cs).
    unfold AzureDevOps.contributorMap.
    rewrite enrich_total by (intros e; apply enrich_counters).
    rewrite total_foldl_forWorkItem by auto with counters.
    rewrite enhanced_pullRequest_loop, enhanced_commit_loop. done.
  - change (total commits (Part001.contributorMap cs prs wis) = length cs).
    unfold Part001.contributorMap.
    rewrite total_foldl_forWorkItem by auto with counters.
    rewrite basic_pullRequest_loop, basic_commit_loop. done.
Qed.

(** ** Comments written *)

Definition noComments (c : Contributor) : Prop := commentsWritten c = 0.

Lemma noComments_forWorkItem m wi :
  Forall noComments (Js.Map.values m) ->
  Forall noComments (Js.Map.values (forWorkItem m wi)).
Proof.
  intros Hm. unfold forWorkItem.
  destruct (System_AssignedTo wi) as [a|]; [|done].
  destruct (Js.truthy a && Js.Map.has a m); [|done].
  apply values_update; [done|].
  destruct (isDoneBug wi); [|done]. by apply values_update.
Qed.

Lemma noComments_workItem_loop wis m :
  Forall noComments (Js.Map.values m) ->
  Forall noComments (Js.Map.values (foldl forWorkItem m wis)).
Proof.
  revert m. induction wis as [|wi wis IH]; intros m Hm; simpl; [done|].
  by apply IH, noComments_forWorkItem.
Qed.

Section CommentsWritten.
Context `{Runtime}.

Lemma noComments_ensure n st :
  Forall noComments (Js.Map.values (fst st)) ->
  Forall noComments (Js.Map.values (fst (AzureDevOps.ensure n st))).
Proof.
  intros Hst. unfold AzureDevOps.ensure.
  destruct (Js.Map.has n (fst st)); simpl; [done|]. by apply values_set.
Qed.

Lemma noComments_forCommit st c :
  Forall noComments (Js.Map.values (fst st)) ->
  Forall noComments (Js.Map.values (fst (AzureDevOps.forCommit st c))).
Proof.
  intros Hst. unfold AzureDevOps.forCommit. simpl.
  apply values_update; [done|]. by apply noComments_ensure.
Qed.

Lemma noComments_forReviewer st r :
  Forall noComments (Js.Map.values (fst st)) ->
  Forall noComments (Js.Map.values (fst (AzureDevOps.forReviewer st r))).
Proof.
  intros Hst. unfold AzureDevOps.forReviewer. simpl.
  apply values_update; [done|]. by apply noComments_ensure.
Qed.

Lemma noComments_reviewer_loop rs st :
  Forall noComments (Js.Map.values (fst st)) ->
  Forall noComments (Js.Map.values (fst (foldl AzureDevOps.forReviewer st rs))).
Proof.
  revert st. induction rs as [|r rs IH]; intros st Hst; simpl; [done|].
  by apply IH, noComments_forReviewer.
Qed.

Lemma noComments_forPullRequest st pr :
  Forall noComments (Js.Map.values (fst st)) ->
  Forall noComments (Js.Map.values (fst (AzureDevOps.forPullRequest st pr))).
Proof.
  intros Hst. unfold AzureDevOps.forPullRequest.
  apply noComments_reviewer_loop. simpl.
  apply values_update; [done|]. by apply noComments_ensure.
Qed.

Lemma noComments_contributorMap cs prs wis stats streaks :
  Forall noComments
    (Js.Map.values (AzureDevOps.contributorMap cs prs wis stats streaks)).
Proof.
  unfold AzureDevOps.contributorMap.
  assert (Hloops : forall st,
    Forall noComments (Js.Map.values (fst st)) ->
    Forall noComments
      (Js.Map.values
         (fst (foldl AzureDevOps.forPullRequest (foldl AzureDevOps.forCommit st cs) prs)))).
  { intros st Hst.
    assert (Hc : Forall noComments
                   (Js.Map.values (fst (foldl AzureDevOps.forCommit st cs)))).
    { revert st Hst. induction cs as [|c cs IH]; intros st Hst; simpl; [done|].
      by apply IH, noComments_forCommit. }
    revert Hc. generalize (foldl AzureDevOps.forCommit st cs).
    induction prs as [|pr prs IH]; intros st' Hst'; simpl; [done|].
    by apply IH, noComments_forPullRequest. }
  specialize (Hloops (Js.Map.empty, Js.Map.empty) (Forall_nil_2 _)).
  apply (noComments_workItem_loop wis) in Hloops.
  revert Hloops.
  generalize (foldl forWorkItem
    (fst (foldl AzureDevOps.forPullRequest
            (foldl AzureDevOps.forCommit (Js.Map.empty, Js.Map.empty) cs) prs)) wis).
  intros m Hm. unfold Js.Map.values in *. rewrite map_map.
  rewrite List.Forall_forall in Hm. apply List.Forall_forall. intros c Hc.
  apply in_map_iff in Hc as [e [<- He]].
  unfold noComments.
  destruct (enrich_counters stats streaks
              (snd (foldl AzureDevOps.forPullRequest
                      (foldl AzureDevOps.forCommit (Js.Map.empty, Js.Map.empty) cs) prs))
              e) as (_ & _ & _ & _ & -> & _).
  apply Hm, in_map_iff. eauto.
Qed.
End CommentsWritten.

(** C9.  Every contributor record that [aggregateContributorStats]
    produces has [commentsWritten] equal to 0: the field is set to 0 when
    the record is created and no step of the pipeline writes to it.  This
    holds for every record of the map and so for the list returned; as a
    consequence every entry of the [mostCommentsWritten] ranking that
    [calculateTop5] derives from that list carries the count 0. *)
Theorem comments_written_stays_zero :
  forall (rt : Runtime) (cs : list AzureDevOpsCommit)
         (prs : list AzureDevOpsPullRequest) (wis : list AzureDevOpsWorkItem)
         (stats : PrMergeStats) (streaks : StreakData),
    let contributorStats :=
      AzureDevOps.aggregateContributorStats cs prs wis stats streaks in
    Forall (fun c => commentsWritten c = 0)
      (Js.Map.values (AzureDevOps.contributorMap cs prs wis stats streaks))
    /\ Forall (fun c => commentsWritten c = 0) contributorStats
    /\ Forall (fun e => entry_commentsWritten e = Some 0)
         (mostCommentsWritten (AzureDevOps.calculateTop5 contributorStats cs streaks)).
Proof.
  intros rt cs prs wis stats streaks contributorStats.
  pose proof (noComments_contributorMap cs prs wis stats streaks) as Hmap.
  assert (Hstats : Forall noComments contributorStats).
  { unfold contributorStats, AzureDevOps.aggregateContributorStats.
    by apply Forall_take, Forall_sort. }
  repeat split; [done..|].
  unfold AzureDevOps.calculateTop5. simpl.
  apply List.Forall_forall. intros e He. apply in_map_iff in He as [c [<- Hc]].
  simpl. f_equal.
  assert (Hall : Forall noComments (take 5 (Js.sort byCommentsWritten contributorStats)))
    by by apply Forall_take, Forall_sort.
  rewrite List.Forall_forall in Hall. by apply Hall.
Qed.

(** ** Work items *)

Lemma isDoneBug_true wi :
  isDoneBug wi = true <-> System_WorkItemType wi = "Bug" /\ System_State wi = "Done".
Proof.
  unfold isDoneBug. rewrite andb_true_iff, !String.eqb_eq. done.
Qed.

Lemma truthy_true s : Js.truthy s = true <-> s <> "".
Proof.
  unfold Js.truthy. destruct (String.eqb_spec s ""); simpl; split; congruence.
Qed.

Lemma keys_forWorkItem m wi : Js.Map.keys (forWorkItem m wi) = Js.Map.keys m.
Proof.
  unfold forWorkItem. destruct (System_AssignedTo wi) as [a|]; [|done].
  destruct (Js.truthy a && Js.Map.has a m); [|done].
  rewrite keys_update. destruct (isDoneBug wi); [|done]. apply keys_update.
Qed.

Lemma get_forWorkItem_other m wi a k :
  System_AssignedTo wi = Some a -> k <> a ->
  Js.Map.get k (forWorkItem m wi) = Js.Map.get k m.
Proof.
  intros Ha Hk. unfold forWorkItem. rewrite Ha.
  apply String.eqb_neq in Hk.
  destruct (Js.truthy a && Js.Map.has a m); [|done].
  rewrite get_update, Hk. destruct (isDoneBug wi); [|done].
  by rewrite get_update, Hk.
Qed.

(** The contributor whose display name is the empty string: one commit
    by an author named [""] makes it a key of the map, and a fixed bug
    of five story points assigned to [""] is then skipped by the guard
    [assignee && ...], the empty string being falsy. *)
Definition anonymousCommit : AzureDevOpsCommit :=
  {| commitId := "c0ffee";
     author := {| author_name := ""; author_email := "nobody@example.org";
                  author_date := "2024-03-01T10:00:00Z" |};
     comment := Some "wip" |}.

Definition anonymousBug : AzureDevOpsWorkItem :=
  {| id := 7; System_Title := "Crash on start"; System_WorkItemType := "Bug";
     System_State := "Done"; System_AssignedTo := Some ""; StoryPoints := Some 5%Z;
     System_CreatedDate := "2024-03-02T08:00:00Z"; System_AreaPath := None |}.

(** C3, as stated, fails at the empty display name: the assignee [""] is
    a key of the contributor map (it appeared as a commit author) and the
    item is a "Bug" in state "Done" carrying five story points, yet
    processing it leaves the map as it was: neither [bugsFixed] nor
    [storyPointsDone] moves. *)
Lemma work_item_of_empty_named_contributor_is_skipped :
  let m := Part001.contributorMap [anonymousCommit] [] [] in
  System_AssignedTo anonymousBug = Some ""
  /\ Js.Map.has "" m = true
  /\ isDoneBug anonymousBug = true
  /\ StoryPoints anonymousBug = Some 5%Z
  /\ forWorkItem m anonymousBug = m
  /\ bugsFixed <$> Js.Map.get "" (forWorkItem m anonymousBug) = Some 0
  /\ storyPointsDone <$> Js.Map.get "" (forWorkItem m anonymousBug) = Some 0%Z.
Proof. repeat split. Qed.

(** C3, amended.  A work item whose assignee is absent, is the empty
    string, or is not a key of the contributor map leaves the map
    unchanged.  For a work item whose assignee is a non-empty name that
    is a key of the map, the record under that name has [bugsFixed]
    incremented exactly when the type is "Bug" and the state is "Done",
    and has the story-point estimate (0 when absent) added to
    [storyPointsDone] whatever the type and state; its other counters,
    the other records and the order of the keys stay as they were. *)
Theorem work_item_updates_only_a_known_named_assignee :
  forall (m : Js.Map.t Contributor) (wi : AzureDevOpsWorkItem),
    ((System_AssignedTo wi = None
      \/ System_AssignedTo wi = Some ""
      \/ exists a, System_AssignedTo wi = Some a /\ Js.Map.has a m = false) ->
     forWorkItem m wi = m)
    /\ (forall a c,
          System_AssignedTo wi = Some a -> a <> "" -> Js.Map.get a m = Some c ->
          exists c',
            Js.Map.get a (forWorkItem m wi) = Some c'
            /\ (System_WorkItemType wi = "Bug" /\ System_State wi = "Done" ->
                bugsFixed c' = S (bugsFixed c))
            /\ (~ (System_WorkItemType wi = "Bug" /\ System_State wi = "Done") ->
                bugsFixed c' = bugsFixed c)
            /\ storyPointsDone c' = (storyPointsDone c + default 0 (StoryPoints wi))%Z
            /\ name c' = name c /\ commits c' = commits c
            /\ pullRequestsOpened c' = pullRequestsOpened c
            /\ pullRequestsReviewed c' = pullRequestsReviewed c
            /\ commentsWritten c' = commentsWritten c
            /\ Js.Map.keys (forWorkItem m wi) = Js.Map.keys m
            /\ forall k, k <> a -> Js.Map.get k (forWorkItem m wi) = Js.Map.get k m).
Proof.
  intros m wi. split.
  - unfold forWorkItem. intros [Hnone|[Hempty|[a [Ha Hh]]]].
    + by rewrite Hnone.
    + by rewrite Hempty.
    + rewrite Ha, Hh. by rewrite andb_false_r.
  - intros a c Ha Hne Hget.
    assert (Hhas : Js.Map.has a m = true) by (apply has_true; eauto).
    apply truthy_true in Hne.
    assert (Hstep : Js.Map.get a (forWorkItem m wi)
                    = Some (addStoryPoints (Js.orZero (StoryPoints wi))
                              (if isDoneBug wi then incBugsFixed c else c))).
    { unfold forWorkItem. rewrite Ha, Hne, Hhas. simpl.
      rewrite get_update, String.eqb_refl.
      destruct (isDoneBug wi).
      - by rewrite get_update, String.eqb_refl, Hget.
      - by rewrite Hget. }
    eexists. split; [exact Hstep|].
    pose proof (isDoneBug_true wi) as Hbug.
    destruct (isDoneBug wi); simpl; repeat split;
      try done; try (by intros; apply keys_forWorkItem);
      try (by intros; eapply get_forWorkItem_other).
    + intros Hno. destruct Hno. by apply Hbug.
    + intros Hyes. apply Hbug in Hyes. discriminate.
Qed.

(** The amended statement at work: Ana has one commit; a fixed bug of
    three points assigned to her is counted, and an item assigned to a
    stranger is not. *)
Lemma work_item_updates_only_a_known_named_assignee_witness :
  let ana := {| commitId := "a1";
                author := {| author_name := "Ana"; author_email := "ana@example.org";
                             author_date := "2024-03-01T10:00:00Z" |};
                comment := Some "init" |} in
  let bug := {| id := 1; System_Title := "Fix"; System_WorkItemType := "Bug";
                System_State := "Done"; System_AssignedTo := Some "Ana";
                StoryPoints := Some 3%Z;
                System_CreatedDate := "2024-03-02T08:00:00Z";
                System_AreaPath := None |} in
  let m := Part001.contributorMap [ana] [] [] in
  exists c', Js.Map.get "Ana" (forWorkItem m bug) = Some c'
             /\ bugsFixed c' = 1 /\ storyPointsDone c' = 3%Z.
Proof.
  intros ana bug m.
  destruct (work_item_updates_only_a_known_named_assignee m bug) as [_ Hknown].
  destruct (Hknown "Ana" (incCommits (Part001.newContributor "Ana")))
    as (c' & Hget & Hbug & _ & Hpoints & _); [reflexivity|discriminate|reflexivity|].
  exists c'. split; [exact Hget|]. split.
  - apply Hbug. split; reflexivity.
  - exact Hpoints.
Defined.

(** ** Rankings *)

Section Rankings.
Context `{Runtime}.

(** Sorting the ten best by commits once more changes nothing. *)
Lemma sort_top10_again (all : list Contributor) :
  Js.sort byCommits (take 10 (Js.sort byCommits all))
  = take 10 (Js.sort byCommits all).
Proof. apply sort_sorted_id, Sorted_take, sorted_descending. Qed.

Lemma mostCommits_of_top10 (all : list Contributor)
    (cs : list AzureDevOpsCommit) (streaks : StreakData) :
  mostCommits (AzureDevOps.calculateTop5 (take 10 (Js.sort byCommits all)) cs streaks)
  = map commitsEntry (take 5 (Js.sort byCommits all)).
Proof.
  unfold AzureDevOps.calculateTop5. simpl.
  rewrite sort_top10_again, take_take. done.
Qed.
End Rankings.

(** C2.  For every input, the "most commits" ranking that [calculateTop5]
    produces in the pipeline is made of the first five entries of the
    full contributor list (all the records of the map) sorted descending
    by commit count, hence a subsequence of it, and its length is the
    minimum of 5 and the number of contributors; this although
    [calculateTop5] is handed the list already cut to the best ten. *)
Theorem most_commits_is_top_of_sorted_contributors :
  forall (rt : Runtime) (dateFrom dateTo : option string)
         (cs : list AzureDevOpsCommit) (prs : list AzureDevOpsPullRequest)
         (wis : list AzureDevOpsWorkItem) (prComments : nat)
         (fileChanges : list FileChange),
    let all :=
      Js.Map.values
        (AzureDevOps.contributorMap cs prs wis
           (AzureDevOps.calculatePrMergeStats prs) (AzureDevOps.calculateStreaks cs)) in
    let ranked := Js.sort byCommits all in
    let ranking :=
      mostCommits
        (top5 (AzureDevOps.fetchAzureDevOpsData dateFrom dateTo cs prs wis
                 prComments fileChanges)) in
    Permutation ranked all
    /\ Sorted (fun a b => commits b <= commits a) ranked
    /\ ranking = map commitsEntry (take 5 ranked)
    /\ sublist ranking (map commitsEntry ranked)
    /\ length ranking = Nat.min 5 (length all).
Proof.
  intros rt dateFrom dateTo cs prs wis prComments fileChanges all ranked ranking.
  assert (Hranking : ranking = map commitsEntry (take 5 ranked)).
  { unfold ranking, AzureDevOps.fetchAzureDevOpsData. cbn [top5].
    unfold AzureDevOps.aggregateContributorStats. apply mostCommits_of_top10. }
  split; [apply sort_perm|]. split.
  { eapply Sorted_weaken; [|apply sorted_descending].
    intros a b. apply descending_inOrder. }
  split; [done|]. split.
  - rewrite Hranking. apply (fmap_sublist commitsEntry), sublist_take.
  - rewrite Hranking, length_map, length_take. unfold ranked.
    by rewrite length_sort.
Qed.

(** The current revision sorts copies: the contributor list of its
    summary is the list [aggregateContributorStats] returned, the ten
    best by commit count in descending order. *)
Lemma current_summary_contributors_are_top10 :
  forall (rt : Runtime) (dateFrom dateTo : option string)
         (cs : list AzureDevOpsCommit) (prs : list AzureDevOpsPullRequest)
         (wis : list AzureDevOpsWorkItem) (prComments : nat)
         (fileChanges : list FileChange),
    let all :=
      Js.Map.values
        (AzureDevOps.contributorMap cs prs wis
           (AzureDevOps.calculatePrMergeStats prs) (AzureDevOps.calculateStreaks cs)) in
    let listed :=
      contributors (AzureDevOps.fetchAzureDevOpsData dateFrom dateTo cs prs wis
                      prComments fileChanges) in
    listed = take 10 (Js.sort byCommits all)
    /\ Sorted (fun a b => commits b <= commits a) listed.
Proof.
  intros. split; [done|]. subst listed. cbn [AzureDevOps.fetchAzureDevOpsData contributors].
  apply Sorted_take. eapply Sorted_weaken; [|apply sorted_descending].
  intros a b. apply descending_inOrder.
Qed.

(** Two contributors: Ana with two commits, Bo with one commit and one
    pull request. *)
Definition commitBy (who when : string) : AzureDevOpsCommit :=
  {| commitId := "0000000";
     author := {| author_name := who; author_email := who +:+ "@example.org";
                  author_date := when |};
     comment := Some "work" |}.

Definition pullRequestBy (who : string) : AzureDevOpsPullRequest :=
  {| pullRequestId := 1; pr_title := "Change"; status := "completed";
     createdBy := who; closedDate := Some "2024-03-03T10:00:00Z";
     creationDate := "2024-03-02T10:00:00Z"; reviewers := None |}.

Definition twoContributors : list AzureDevOpsCommit :=
  [commitBy "Ana" "2024-03-01T10:00:00Z"; commitBy "Ana" "2024-03-02T10:00:00Z";
   commitBy "Bo" "2024-03-02T11:00:00Z"].

(** C7 on the earlier revision ([unnamed/part_001], and [part_009] with
    the same text): [calculateTop5] sorts the array it is given in
    place, last by pull requests reviewed and comments written, so the
    contributor list of the summary is no longer in descending order of
    commits.  [aggregateContributorStats] returns Ana (2 commits) before
    Bo (1 commit); the summary lists Bo before Ana. *)
Lemma earlier_revision_reorders_summary_contributors :
  let returned := Part001.aggregateContributorStats twoContributors [pullRequestBy "Bo"] [] in
  let listed :=
    contributors (Part001.fetchAzureDevOpsData None None twoContributors
                    [pullRequestBy "Bo"] [] 0) in
  map (fun c => (name c, commits c)) returned = [("Ana", 2); ("Bo", 1)]
  /\ map (fun c => (name c, commits c)) listed = [("Bo", 1); ("Ana", 2)]
  /\ ~ Sorted (fun a b => commits b <= commits a) listed
  /\ listed <> returned.
Proof.
  repeat split.
  - intros Hs. vm_compute in Hs. apply Sorted_inv in Hs as [_ Hhd].
    inversion Hhd; subst. simpl in *. lia.
  - discriminate.
Qed.

(** ** Streaks *)

Section Streaks.
Context `{Runtime}.

(** [b] is the calendar day after [a]: their UTC midnights are exactly
    one day (86,400,000 ms) apart. *)
Definition nextDay (a b : string) : Prop := AzureDevOps.oneDayApart a b = true.

(** In the words of the specification: a run of calendar-consecutive
    days is a stretch of adjacent entries of the sorted list of distinct
    dates, each one day after the one before it; the longest streak is
    the length of a longest such stretch. *)
Definition consecutiveDays (seg : list string) : Prop :=
  forall i a b, seg !! i = Some a -> seg !! S i = Some b -> nextDay a b.

Definition isRun (sorted seg : list string) : Prop :=
  seg <> [] /\ (exists pre post, sorted = pre ++ seg ++ post) /\ consecutiveDays seg.

Definition longestRun (sorted : list string) (n : nat) : Prop :=
  (exists seg, isRun sorted seg /\ length seg = n)
  /\ (forall seg, isRun sorted seg -> length seg <= n).

(** Two measures used to state what the loop has computed so far: the
    length of the run that starts at [x], and the longest run that
    starts anywhere in [x :: l]. *)
Fixpoint chainLength (x : string) (l : list string) : nat :=
  match l with
  | [] => 1
  | y :: l' => if AzureDevOps.oneDayApart x y then S (chainLength y l') else 1
  end.

Fixpoint longestChain (x : string) (l : list string) : nat :=
  match l with
  | [] => 1
  | y :: l' => Nat.max (chainLength x l) (longestChain y l')
  end.

Lemma chainLength_pos x l : 1 <= chainLength x l.
Proof. destruct l; simpl; [lia|]. destruct (AzureDevOps.oneDayApart x s); lia. Qed.

Lemma chainLength_le_longest x l : chainLength x l <= longestChain x l.
Proof. destruct l; simpl; lia. Qed.

Lemma chainLength_le_length x l : chainLength x l <= S (length l).
Proof.
  revert x. induction l as [|y l IH]; intros x; simpl; [lia|].
  destruct (AzureDevOps.oneDayApart x y); [|lia]. specialize (IH y). lia.
Qed.

Lemma consecutiveDays_nil : consecutiveDays [].
Proof. intros i a b Ha. by destruct i. Qed.

Lemma consecutiveDays_one x : consecutiveDays [x].
Proof. intros i a b Ha Hb. by destruct i. Qed.

Lemma consecutiveDays_cons x y l :
  consecutiveDays (x :: y :: l) <-> nextDay x y /\ consecutiveDays (y :: l).
Proof.
  split.
  - intros Hc. split; [by apply (Hc 0)|].
    intros i a b Ha Hb. by apply (Hc (S i)).
  - intros [Hxy Hc] [|i] a b Ha Hb; simpl in *.
    + by simplify_eq.
    + by apply (Hc i).
Qed.

(** The loop, in terms of the two measures. *)
Lemma walk_measures rest prev cur mx :
  1 <= cur -> cur <= mx ->
  AzureDevOps.walk prev rest cur mx
  = Nat.max mx (Nat.max (cur + chainLength prev rest - 1) (longestChain prev rest)).
Proof.
  revert prev cur mx. induction rest as [|curr rest IH]; intros prev cur mx H1 H2.
  - simpl. lia.
  - cbn [AzureDevOps.walk chainLength longestChain].
    pose proof (chainLength_pos curr rest).
    pose proof (chainLength_le_longest curr rest).
    destruct (AzureDevOps.oneDayApart prev curr).
    + rewrite IH by lia. lia.
    + rewrite IH by lia. lia.
Qed.

(** A run at the very start of [x :: l] is no longer than the run that
    starts at [x]; and that run is there. *)
Lemma run_at_start_bound l x seg post :
  x :: l = seg ++ post -> consecutiveDays seg -> length seg <= chainLength x l.
Proof.
  revert x seg. induction l as [|y l IH]; intros x seg Heq Hc.
  - destruct seg as [|s0 [|s1 seg]]; simpl in *; try lia. discriminate.
  - destruct seg as [|s0 [|s1 seg]]; simpl in *.
    + lia.
    + destruct (AzureDevOps.oneDayApart x y); lia.
    + injection Heq as -> -> Heq.
      apply consecutiveDays_cons in Hc as [Hxy Hc].
      unfold nextDay in Hxy. rewrite Hxy.
      specialize (IH s1 (s1 :: seg)). simpl in IH.
      apply le_n_S, IH; [by f_equal|done].
Qed.

Lemma run_at_start x l : consecutiveDays (take (chainLength x l) (x :: l)).
Proof.
  revert x. induction l as [|y l IH]; intros x.
  - apply consecutiveDays_one.
  - cbn [chainLength]. destruct (AzureDevOps.oneDayApart x y) eqn:Hxy.
    + specialize (IH y). pose proof (chainLength_pos y l).
      destruct (chainLength y l) as [|n] eqn:Hn; [lia|].
      cbn [take] in *. apply consecutiveDays_cons. done.
    + apply consecutiveDays_one.
Qed.

Lemma longestChain_is_longestRun x l : longestRun (x :: l) (longestChain x l).
Proof.
  revert x. induction l as [|y l IH]; intros x.
  - split.
    + exists [x]. split; [|done]. split; [done|]. split.
      * by exists [], [].
      * apply consecutiveDays_one.
    + intros seg (Hne & (pre & post & Heq) & Hc).
      apply (f_equal length) in Heq. rewrite !length_app in Heq. simpl in *. lia.
  - destruct (IH y) as [(seg & (Hne & (pre & post & Heq) & Hc) & Hlen) Hmax].
    split.
    + cbn [longestChain].
      destruct (Nat.max_spec (chainLength x (y :: l)) (longestChain y l))
        as [[Hlt ->]|[Hle ->]].
      * exists seg. split; [|done]. split; [done|]. split; [|done].
        exists (x :: pre), post. simpl. by rewrite Heq.
      * exists (take (chainLength x (y :: l)) (x :: y :: l)).
        pose proof (chainLength_pos x (y :: l)).
        pose proof (chainLength_le_length x (y :: l)).
        split; [|rewrite length_take; simpl in *; lia].
        split; [|split].
        -- destruct (chainLength x (y :: l)); [lia|done].
        -- exists [], (drop (chainLength x (y :: l)) (x :: y :: l)).
           simpl. by rewrite take_drop.
        -- apply run_at_start.
    + intros seg' (Hne' & (pre' & post' & Heq') & Hc').
      cbn [longestChain]. destruct pre' as [|p pre'].
      * simpl in Heq'. pose proof (run_at_start_bound _ _ _ _ Heq' Hc'). lia.
      * simpl in Heq'. injection Heq' as -> Heq'.
        assert (length seg' <= longestChain y l); [|lia].
        apply Hmax. split; [done|]. split; [|done]. by exists pre', post'.
Qed.

(** What one contributor's loop returns. *)
Lemma maxStreakOf_is_longestRun dates :
  dates <> [] -> longestRun (AzureDevOps.sortedDates dates) (AzureDevOps.maxStreakOf dates).
Proof.
  intros Hne. unfold AzureDevOps.maxStreakOf.
  destruct (AzureDevOps.sortedDates dates) as [|first rest] eqn:Hs.
  - apply (f_equal length) in Hs. unfold AzureDevOps.sortedDates in Hs.
    rewrite length_sort in Hs. by destruct dates.
  - rewrite walk_measures by lia.
    pose proof (chainLength_pos first rest).
    pose proof (chainLength_le_longest first rest).
    replace (Nat.max 1 (Nat.max (1 + chainLength first rest - 1) (longestChain first rest)))
      with (longestChain first rest) by lia.
    apply longestChain_is_longestRun.
Qed.
End Streaks.

(** *** The dates collected for one contributor *)

Definition dayOf (c : AzureDevOpsCommit) : string :=
  Js.splitT0 (author_date (author c)).

Definition isBy (who : string) (c : AzureDevOpsCommit) : bool :=
  String.eqb (author_name (author c)) who.

(** The date strings of the commits of [who], one per commit, in the
    order of the commit list. *)
Definition commitDays (who : string) (cs : list AzureDevOpsCommit) : list string :=
  map dayOf (List.filter (isBy who) cs).

Definition addAll (s : Js.StringSet.t) (ds : list string) : Js.StringSet.t :=
  foldl (fun s x => Js.StringSet.add x s) s ds.

Lemma StringSet_has_In x s : Js.StringSet.has x s = true <-> In x s.
Proof.
  unfold Js.StringSet.has. rewrite existsb_exists. split.
  - intros (y & Hy & Heq). apply String.eqb_eq in Heq. by subst.
  - intros Hx. exists x. by rewrite String.eqb_refl.
Qed.

Lemma In_add x y s : In x (Js.StringSet.add y s) <-> x = y \/ In x s.
Proof.
  unfold Js.StringSet.add. destruct (Js.StringSet.has y s) eqn:Hh.
  - apply StringSet_has_In in Hh. split; [tauto|]. intros [->|?]; done.
  - rewrite in_app_iff. simpl. split.
    + intros [?|[<-|[]]]; tauto.
    + intros [->|?]; tauto.
Qed.

Lemma NoDup_add y s : NoDup s -> NoDup (Js.StringSet.add y s).
Proof.
  intros Hs. unfold Js.StringSet.add. destruct (Js.StringSet.has y s) eqn:Hh; [done|].
  apply NoDup_app. split; [done|]. split; [|apply NoDup_singleton].
  intros x Hx Hy. apply list_elem_of_In in Hx. apply list_elem_of_In in Hy.
  destruct Hy as [<-|[]]. apply StringSet_has_In in Hx. congruence.
Qed.

Lemma In_addAll x ds s : In x (addAll s ds) <-> In x s \/ In x ds.
Proof.
  revert s. induction ds as [|d ds IH]; intros s; simpl; [tauto|].
  rewrite IH, In_add. split; [intros [[->|?]|?]|intros [?|[->|?]]]; tauto.
Qed.

Lemma NoDup_addAll ds s : NoDup s -> NoDup (addAll s ds).
Proof.
  revert s. induction ds as [|d ds IH]; intros s Hs; simpl; [done|].
  by apply IH, NoDup_add.
Qed.

Lemma addAll_nonempty ds s : s <> [] \/ ds <> [] -> addAll s ds <> [].
Proof.
  intros Hne Heq.
  assert (Hnone : forall x, ~ In x (addAll s ds)) by (rewrite Heq; simpl; tauto).
  destruct Hne as [Hs|Hd].
  - destruct s as [|x s]; [done|]. apply (Hnone x), In_addAll. simpl. tauto.
  - destruct ds as [|x ds]; [done|]. apply (Hnone x), In_addAll. simpl. tauto.
Qed.

Section StreaksByAuthor.
Context `{Runtime}.

Lemma get_collectDate who m c :
  Js.Map.get who (AzureDevOps.collectDate m c)
  = if isBy who c
    then Some (Js.StringSet.add (dayOf c) (default Js.StringSet.empty (Js.Map.get who m)))
    else Js.Map.get who m.
Proof.
  unfold AzureDevOps.collectDate, isBy, dayOf.
  set (a := author_name (author c)). rewrite get_update.
  rewrite (String.eqb_sym a who).
  destruct (Js.Map.has a m) eqn:Hh; simpl.
  - destruct (String.eqb_spec who a) as [->|]; [|done].
    apply has_true in Hh as [s ->]. done.
  - rewrite get_set. destruct (String.eqb_spec who a) as [->|]; [|done].
    apply has_false in Hh. by rewrite Hh.
Qed.

Lemma get_collected who cs m :
  Js.Map.get who (foldl AzureDevOps.collectDate m cs)
  = match Js.Map.get who m with
    | Some s => Some (addAll s (commitDays who cs))
    | None => if existsb (isBy who) cs
              then Some (addAll Js.StringSet.empty (commitDays who cs))
              else None
    end.
Proof.
  revert m. induction cs as [|c cs IH]; intros m; simpl.
  - by destruct (Js.Map.get who m).
  - rewrite IH, get_collectDate. unfold commitDays. simpl.
    destruct (isBy who c); simpl; [|done].
    by destruct (Js.Map.get who m).
Qed.

Lemma keys_collectDate m c :
  NoDup (Js.Map.keys m) -> NoDup (Js.Map.keys (AzureDevOps.collectDate m c)).
Proof.
  intros Hm. unfold AzureDevOps.collectDate. rewrite keys_update.
  destruct (Js.Map.has (author_name (author c)) m) eqn:Hh; simpl; [done|].
  rewrite keys_set_new by done.
  apply NoDup_app. split; [done|]. split; [|apply NoDup_singleton].
  intros x Hx Hy. apply list_elem_of_In in Hx. apply list_elem_of_In in Hy.
  destruct Hy as [<-|[]]. apply has_In_keys in Hx. congruence.
Qed.

Lemma keys_collected cs m :
  NoDup (Js.Map.keys m) -> NoDup (Js.Map.keys (foldl AzureDevOps.collectDate m cs)).
Proof.
  revert m. induction cs as [|c cs IH]; intros m Hm; simpl; [done|].
  by apply IH, keys_collectDate.
Qed.

(** The [forEach] that fills [streaksByAuthor]. *)
Lemma get_streaks who (es : list (string * Js.StringSet.t)) (st : nat * Js.Map.t nat) :
  NoDup (map fst es) ->
  Js.Map.get who
    (snd (foldl (fun st e =>
                   let maxStreak := AzureDevOps.maxStreakOf (snd e) in
                   (Nat.max (fst st) maxStreak, Js.Map.set (fst e) maxStreak (snd st)))
                st es))
  = match Js.Map.get who es with
    | Some dates => Some (AzureDevOps.maxStreakOf dates)
    | None => Js.Map.get who (snd st)
    end.
Proof.
  revert st. induction es as [|[k d] es IH]; intros st Hnd; simpl; [done|].
  apply NoDup_cons in Hnd as [Hk Hnd]. rewrite IH by done. simpl.
  rewrite get_set. destruct (String.eqb_spec who k) as [->|Hne]; [|done].
  assert (Hnone : Js.Map.get k es = None).
  { apply has_false. destruct (Js.Map.has k es) eqn:Hh; [|done].
    apply has_In_keys in Hh. destruct Hk. by apply list_elem_of_In. }
  by rewrite Hnone.
Qed.

Lemma streak_of_contributor who cs :
  existsb (isBy who) cs = true ->
  Js.Map.get who (streaksByAuthor (AzureDevOps.calculateStreaks cs))
  = Some (AzureDevOps.maxStreakOf (Js.StringSet.ofList (commitDays who cs))).
Proof.
  intros Hwho. unfold AzureDevOps.calculateStreaks.
  match goal with
  | |- context [foldl ?f ?a ?l] =>
      pose proof (get_streaks who l a) as Hget; destruct (foldl f a l) as [longest streaks]
  end.
  simpl in *. rewrite Hget.
  - unfold Js.Map.entries, AzureDevOps.commitsByAuthorAndDate.
    rewrite get_collected. simpl. by rewrite Hwho.
  - apply (keys_collected cs Js.Map.empty). constructor.
Qed.
Lemma no_streak_without_commits who cs :
  existsb (isBy who) cs = false ->
  Js.Map.get who (streaksByAuthor (AzureDevOps.calculateStreaks cs)) = None.
Proof.
  intros Hwho. unfold AzureDevOps.calculateStreaks.
  match goal with
  | |- context [foldl ?f ?a ?l] =>
      pose proof (get_streaks who l a) as Hget; destruct (foldl f a l) as [longest streaks]
  end.
  simpl in *. rewrite Hget.
  - unfold Js.Map.entries, AzureDevOps.commitsByAuthorAndDate.
    rewrite get_collected. simpl. by rewrite Hwho.
  - apply (keys_collected cs Js.Map.empty). constructor.
Qed.
End StreaksByAuthor.

Lemma compareStrings_consistent : consistentOn Js.compareStrings (fun _ => True).
Proof.
  intros a b _ _. unfold Js.compareStrings. rewrite (String.compare_antisym b a).
  destruct (String.compare a b); simpl; lia.
Qed.

Lemma compareStrings_inOrder a b :
  inOrder Js.compareStrings a b <-> String.compare a b <> Gt.
Proof.
  unfold inOrder, Js.compareStrings.
  destruct (String.compare a b); split; try lia; try congruence.
Qed.

(** The two examples of the specification.  Ana commits on 28 and 29
    February and 1 March 2024 (twice on the 29th, and not in date order)
    while Bo commits on 1, 2 and 4 March. *)
Definition streakCommits : list AzureDevOpsCommit :=
  [commitBy "Ana" "2024-02-29T09:15:00Z"; commitBy "Bo" "2024-03-04T08:00:00Z";
   commitBy "Ana" "2024-03-01T23:10:00Z"; commitBy "Bo" "2024-03-01T12:00:00Z";
   commitBy "Ana" "2024-02-28T07:45:00Z"; commitBy "Ana" "2024-02-29T18:30:00Z";
   commitBy "Bo" "2024-03-02T16:20:00Z"].

(** C4.  For every contributor with a commit, [calculateStreaks] records
    the length of the longest run of calendar-consecutive days among the
    dates of that contributor's commits: the dates are collected without
    repetition (several commits on a day count once), sorted ascending,
    and the number recorded is the length of a longest stretch of
    adjacent sorted dates that are each exactly one day after the one
    before.  A name without a commit has no entry (and the contributor
    record then gets 0).  In particular commits on exactly three
    consecutive dates give 3, and commits on days 1, 2 and 4 give 2. *)
Theorem longest_streak_is_longest_run_of_consecutive_days :
  (forall (rt : Runtime) (cs : list AzureDevOpsCommit) (who : string),
      In who (map (fun c => author_name (author c)) cs) ->
      let sorted := AzureDevOps.sortedDates (Js.StringSet.ofList (commitDays who cs)) in
      NoDup sorted
      /\ (forall d, In d sorted <->
                    exists c, In c cs /\ author_name (author c) = who
                              /\ Js.splitT0 (author_date (author c)) = d)
      /\ Sorted (fun a b => String.compare a b <> Gt) sorted
      /\ exists n,
          Js.Map.get who (streaksByAuthor (AzureDevOps.calculateStreaks cs)) = Some n
          /\ longestRun sorted n)
  /\ (forall (rt : Runtime) (cs : list AzureDevOpsCommit) (who : string),
         ~ In who (map (fun c => author_name (author c)) cs) ->
         Js.Map.get who (streaksByAuthor (AzureDevOps.calculateStreaks cs)) = None)
  /\ Js.Map.get "Ana" (streaksByAuthor (AzureDevOps.calculateStreaks streakCommits))
     = Some 3
  /\ Js.Map.get "Bo" (streaksByAuthor (AzureDevOps.calculateStreaks streakCommits))
     = Some 2.
Proof.
  split; [|split; [|split; reflexivity]]; cycle 1.
  { intros rt cs who Hwho. apply no_streak_without_commits.
    destruct (existsb (isBy who) cs) eqn:Hex; [|done]. destruct Hwho.
    apply existsb_exists in Hex as (c & Hin & Hby). apply in_map_iff.
    exists c. split; [|done]. by apply String.eqb_eq. }
  intros rt cs who Hwho sorted.
  assert (Hex : existsb (isBy who) cs = true).
  { apply existsb_exists. apply in_map_iff in Hwho as (c & Hc & Hin).
    exists c. split; [done|]. unfold isBy. rewrite Hc. apply String.eqb_refl. }
  assert (Hne : Js.StringSet.ofList (commitDays who cs) <> []).
  { apply addAll_nonempty. right. unfold commitDays.
    apply existsb_exists in Hex as (c & Hin & Hby).
    assert (Hf : In c (List.filter (isBy who) cs)) by (apply filter_In; done).
    destruct (List.filter (isBy who) cs); [done|discriminate]. }
  split; [|split; [|split]].
  - unfold sorted, AzureDevOps.sortedDates. rewrite sort_perm.
    apply NoDup_addAll. constructor.
  - intros d. unfold sorted, AzureDevOps.sortedDates.
    rewrite In_sort. unfold Js.StringSet.ofList.
    change (In d (addAll Js.StringSet.empty (commitDays who cs)) <->
            exists c, In c cs /\ author_name (author c) = who
                      /\ Js.splitT0 (author_date (author c)) = d).
    rewrite In_addAll. unfold commitDays. rewrite in_map_iff. split.
    + intros [[]|(c & Hd & Hc)]. apply filter_In in Hc as [Hc Hby].
      exists c. split; [done|]. split; [|done]. by apply String.eqb_eq.
    + intros (c & Hc & Hn & Hd). right. exists c. split; [done|].
      apply filter_In. split; [done|]. by apply String.eqb_eq.
  - eapply Sorted_weaken; [|apply (sort_sorted _ (fun _ => True))].
    + intros a b. apply compareStrings_inOrder.
    + apply compareStrings_consistent.
    + by apply Forall_true.
  - eexists. split; [by apply streak_of_contributor|].
    by apply maxStreakOf_is_longestRun.
Qed.

(** The general statement applied to Ana in the example. *)
Lemma longest_streak_is_longest_run_of_consecutive_days_witness :
  exists n,
    Js.Map.get "Ana" (streaksByAuthor (AzureDevOps.calculateStreaks streakCommits)) = Some n
    /\ longestRun
         (AzureDevOps.sortedDates (Js.StringSet.ofList (commitDays "Ana" streakCommits)))
         n.
Proof.
  destruct longest_streak_is_longest_run_of_consecutive_days as [Hgeneral _].
  destruct (Hgeneral IsoUtc streakCommits "Ana") as (_ & _ & _ & Hn).
  - simpl. tauto.
  - exact Hn.
Defined.

(** ** Highlights *)

Lemma pushIf_false text highlights : pushIf false text highlights = highlights.
Proof. done. Qed.

Lemma pushIf_true text highlights : pushIf true text highlights = highlights ++ [text].
Proof. done. Qed.

Lemma pushIf_le cond text highlights n :
  length highlights <= n -> length (pushIf cond text highlights) <= S n.
Proof.
  intros Hn. unfold pushIf. destruct cond; [|lia].
  rewrite length_app. simpl. lia.
Qed.

Lemma bugHighlight_le fixed bugs highlights n :
  length highlights <= n -> length (bugHighlight fixed bugs highlights) <= S n.
Proof.
  intros Hn. unfold bugHighlight. destruct (0 <? fixed).
  - rewrite length_app. simpl. lia.
  - by apply pushIf_le.
Qed.

(** Each push adds at most one sentence. *)
Ltac count_pushes :=
  repeat first [apply pushIf_le | apply bugHighlight_le]; simpl; lia.

(** A period in which every candidate sentence of the current revision
    applies: one commit, one merged pull request, review comments, file
    changes, a fixed bug, a feature, a test case, a requirement and
    story points. *)
Definition workItemOf (type state : string) (points : option Z) : AzureDevOpsWorkItem :=
  {| id := 1; System_Title := "Item"; System_WorkItemType := type;
     System_State := state; System_AssignedTo := None; StoryPoints := points;
     System_CreatedDate := "2024-03-01T08:00:00Z"; System_AreaPath := None |}.

Definition busyItems : list AzureDevOpsWorkItem :=
  [workItemOf "Bug" "Done" (Some 2%Z); workItemOf "Feature" "Active" (Some 5%Z);
   workItemOf "Test Case" "Design" None; workItemOf "Requirement" "Done" None;
   workItemOf "User Story" "Done" (Some 3%Z)].

Definition busyCommits : list AzureDevOpsCommit :=
  [commitBy "Ana" "2024-03-01T10:00:00Z"].

Definition busyChanges : CodeChanges :=
  {| cc_linesAdded := 120; cc_linesDeleted := 0; cc_filesChanged := 4 |}.

(** C5, as stated, fails for the current revision: its
    [generateHighlights] ends in [slice(0, 10)], and on a period in which
    all eleven candidate sentences apply it returns ten highlights, more
    than eight. *)
Lemma current_revision_returns_ten_highlights :
  let hs :=
    AzureDevOps.generateHighlights busyCommits [pullRequestBy "Ana"] busyItems 3
      busyChanges (AzureDevOps.calculateActivityPattern busyCommits) in
  hs = ["1 commits pushed"; "1 pull requests merged"; "3 code review comments";
        "4 files modified"; "1 bugs squashed out of 1 total"; "1 features delivered";
        "1 test cases created"; "1 requirements documented";
        "10 story points delivered"; "1 team members contributed"]
  /\ length hs = 10
  /\ ~ length hs <= 8.
Proof. repeat split. vm_compute. lia. Qed.

(** C5, amended.  For every input, the list returned by
    [generateHighlights] has at most 10 entries in the current revision
    of the service, at most 8 in the revision before it
    ([unnamed/part_001]) and at most 6 in the first revision
    ([unnamed/part_009]). *)
Theorem highlights_are_capped :
  forall (rt : Runtime) (cs : list AzureDevOpsCommit)
         (prs : list AzureDevOpsPullRequest) (wis : list AzureDevOpsWorkItem)
         (prComments : nat) (codeChanges : CodeChanges) (pattern : ActivityPattern),
    length (AzureDevOps.generateHighlights cs prs wis prComments codeChanges pattern) <= 10
    /\ length (Part001.generateHighlights cs prs wis prComments) <= 8
    /\ length (Part009.generateHighlights cs prs wis) <= 6.
Proof.
  intros. unfold AzureDevOps.generateHighlights, Part001.generateHighlights,
    Part009.generateHighlights.
  rewrite !length_take. lia.
Qed.

(** The three caps are reached, and only the last one is never felt:
    the current revision has eleven candidate sentences for ten places,
    the one before it nine for eight, the first one six for six. *)
Lemma highlight_caps_are_reached :
  length (AzureDevOps.candidateHighlights busyCommits [pullRequestBy "Ana"] busyItems 3
            busyChanges (AzureDevOps.calculateActivityPattern busyCommits)) = 11
  /\ length (Part001.candidateHighlights busyCommits [pullRequestBy "Ana"] busyItems 3) = 9
  /\ length (Part001.generateHighlights busyCommits [pullRequestBy "Ana"] busyItems 3) = 8
  /\ length (Part009.generateHighlights busyCommits [pullRequestBy "Ana"] busyItems) = 6
  /\ (forall (rt : Runtime) cs prs wis,
        length (Part009.candidateHighlights cs prs wis) <= 6).
Proof.
  repeat split. intros. unfold Part009.candidateHighlights. cbv zeta. count_pushes.
Qed.

(** ** The empty commit list *)

Section NoCommits.
Context `{Runtime}.

Lemma no_commits_candidates prs wis prComments codeChanges :
  exists earlier,
    AzureDevOps.candidateHighlights [] prs wis prComments codeChanges
      (AzureDevOps.calculateActivityPattern [])
    = earlier ++ ["Peak productivity: Night (0:00)"]
    /\ length earlier <= 8.
Proof.
  unfold AzureDevOps.candidateHighlights. cbv zeta.
  change (0 <? length (@nil AzureDevOpsCommit)) with false.
  change (0 <? uniqueContributors []) with false.
  change (Js.truthy (peakProductivityTime (AzureDevOps.calculateActivityPattern [])))
    with true.
  change (AzureDevOps.peakHighlight (AzureDevOps.calculateActivityPattern []))
    with "Peak productivity: Night (0:00)".
  rewrite !pushIf_false, pushIf_true.
  eexists. split; [reflexivity|]. count_pushes.
Qed.
End NoCommits.

(** C10.  On the empty commit list [calculateActivityPattern] returns
    all-zero histograms, so the scan for the maximum stops at index 0:
    the busiest hour is 0, the busiest day "Sunday" and the peak
    productivity time "Night".  With that pattern and no commits the
    current revision's [generateHighlights] still emits the sentence
    "Peak productivity: Night (0:00)", as its last highlight, whatever
    the pull requests, work items, comment count and code changes. *)
Theorem no_commits_still_report_a_peak :
  forall (rt : Runtime) (prs : list AzureDevOpsPullRequest)
         (wis : list AzureDevOpsWorkItem) (prComments : nat)
         (codeChanges : CodeChanges),
    let pattern := AzureDevOps.calculateActivityPattern [] in
    let hs := AzureDevOps.generateHighlights [] prs wis prComments codeChanges pattern in
    hourlyDistribution pattern = replicate 24 0
    /\ dailyDistribution pattern = replicate 7 0
    /\ busiestHour pattern = 0%Z
    /\ busiestDay pattern = Some "Sunday"
    /\ peakProductivityTime pattern = "Night"
    /\ In "Peak productivity: Night (0:00)" hs
    /\ last hs = Some "Peak productivity: Night (0:00)".
Proof.
  intros rt prs wis prComments codeChanges pattern hs.
  repeat (split; [reflexivity|]).
  destruct (no_commits_candidates prs wis prComments codeChanges)
    as (earlier & Heq & Hlen).
  assert (Hhs : hs = earlier ++ ["Peak productivity: Night (0:00)"]).
  { unfold hs, AzureDevOps.generateHighlights, pattern. rewrite Heq.
    apply take_ge. rewrite length_app. simpl. lia. }
  rewrite Hhs. split.
  - apply in_app_iff. right. by left.
  - apply last_snoc.
Qed.

(** ** Sprints *)

(** C8.  [sprintsCompleted] is the floor of the length of the supplied
    date range divided by 14 days, the whole number of 14-day periods in
    the range; it is 0 when no bound, or only one, is supplied; a range
    of exactly 28 days gives 2, as does the range from 2024-01-01 to
    2024-01-29 on the reference host. *)
Theorem sprints_completed_counts_whole_fortnights :
  forall (cs : list AzureDevOpsCommit) (prs : list AzureDevOpsPullRequest)
         (wis : list AzureDevOpsWorkItem) (prComments : nat)
         (fileChanges : list FileChange),
    (forall (rt : Runtime) (dateFrom dateTo : option string),
        let sprints :=
          sprintsCompleted
            (AzureDevOps.fetchAzureDevOpsData dateFrom dateTo cs prs wis prComments
               fileChanges) in
        (forall from to start finish,
            dateFrom = Some from -> dateTo = Some to -> from <> "" -> to <> "" ->
            Date_getTime from = Some start -> Date_getTime to = Some finish ->
            sprints = Some ((finish - start) / (14 * 86400000))%Z
            /\ (forall n, sprints = Some n <->
                          (n * (14 * 86400000) <= finish - start
                           < (n + 1) * (14 * 86400000))%Z)
            /\ ((finish - start = 28 * 86400000)%Z -> sprints = Some 2%Z))
        /\ (supplied dateFrom && supplied dateTo = false -> sprints = Some 0%Z))
    /\ (forall rt : Runtime,
          sprintsCompleted
            (AzureDevOps.fetchAzureDevOpsData None None cs prs wis prComments fileChanges)
          = Some 0%Z)
    /\ sprintsCompleted
         (@AzureDevOps.fetchAzureDevOpsData IsoUtc (Some "2024-01-01") (Some "2024-01-29")
            cs prs wis prComments fileChanges) = Some 2%Z.
Proof.
  intros cs prs wis prComments fileChanges.
  split; [|split; reflexivity].
  intros rt dateFrom dateTo sprints. split.
  - intros from to start finish -> -> Hfrom Hto Hstart Hfinish.
    assert (Hvalue : sprints = Some ((finish - start) / (14 * 86400000))%Z).
    { unfold sprints. cbn [AzureDevOps.fetchAzureDevOpsData sprintsCompleted].
      unfold AzureDevOps.sprintsCompletedOf.
      apply truthy_true in Hfrom. apply truthy_true in Hto.
      rewrite Hfrom, Hto, Hstart, Hfinish. done. }
    split; [done|]. split.
    + intros n. rewrite Hvalue. split.
      * intros [= <-].
        pose proof (Z.div_mod (finish - start) (14 * 86400000) ltac:(lia)).
        pose proof (Z.mod_pos_bound (finish - start) (14 * 86400000) ltac:(lia)).
        lia.
      * intros Hn. f_equal. symmetry.
        apply (Z.div_unique _ _ n (finish - start - n * (14 * 86400000))); lia.
    + intros H28. rewrite Hvalue, H28. done.
  - unfold sprints. cbn [AzureDevOps.fetchAzureDevOpsData sprintsCompleted].
    unfold AzureDevOps.sprintsCompletedOf, supplied.
    destruct dateFrom as [from|], dateTo as [to|]; try done.
    intros ->. done.
Qed.

(** The general statement on the reference host, for the first four
    weeks of 2024. *)
Lemma sprints_completed_counts_whole_fortnights_witness :
  sprintsCompleted
    (AzureDevOps.fetchAzureDevOpsData (Some "2024-01-01") (Some "2024-01-29")
       [] [] [] 0 [])
  = Some ((1706486400000 - 1704067200000) / (14 * 86400000))%Z.
Proof.
  destruct (sprints_completed_counts_whole_fortnights [] [] [] 0 []) as [Hgeneral _].
  destruct (Hgeneral IsoUtc (Some "2024-01-01") (Some "2024-01-29")) as [Hrange _].
  destruct (Hrange "2024-01-01" "2024-01-29" 1704067200000%Z 1706486400000%Z)
    as [Hvalue _];
    [reflexivity|reflexivity|discriminate|discriminate|reflexivity|reflexivity|].
  exact Hvalue.
Defined.

(** ** Milestones *)

Section Milestones.
Context `{Runtime}.

(** The date of [a] is a date and so is that of [b], and [a]'s is not
    the later one (resp. is the earlier one). *)
Definition notAfter (a b : Milestone) : Prop :=
  exists ta tb, Date_getTime (date a) = Some ta /\ Date_getTime (date b) = Some tb
                /\ (ta <= tb)%Z.

Definition strictlyBefore (a b : Milestone) : Prop :=
  exists ta tb, Date_getTime (date a) = Some ta /\ Date_getTime (date b) = Some tb
                /\ (ta < tb)%Z.

Definition dated (m : Milestone) : Prop := is_Some (Date_getTime (date m)).

Lemma byDate_consistent : consistentOn AzureDevOps.byDate dated.
Proof.
  intros a b [ta Ha] [tb Hb]. unfold AzureDevOps.byDate. rewrite Ha, Hb. simpl. lia.
Qed.

Lemma byDate_notAfter a b :
  dated a -> dated b -> inOrder AzureDevOps.byDate a b -> notAfter a b.
Proof.
  intros [ta Ha] [tb Hb]. unfold inOrder, AzureDevOps.byDate. rewrite Ha, Hb. simpl.
  intros Hle. exists ta, tb. repeat split; [done..|lia].
Qed.

Lemma Sorted_on {A} (P : A -> Prop) (R S : A -> A -> Prop) l :
  (forall a b, P a -> P b -> R a b -> S a b) ->
  Forall P l -> Sorted R l -> Sorted S l.
Proof.
  intros HRS HP. induction 1 as [|x l Hs IH Hhd]; constructor.
  - apply IH. by apply Forall_cons in HP as [? ?].
  - apply Forall_cons in HP as [Hx HP].
    destruct Hhd as [|y l Hxy]; constructor.
    apply Forall_cons in HP as [Hy HP]. by apply HRS.
Qed.

Lemma dated_whenSupplied d f :
  (forall s, d = Some s -> is_Some (Date_getTime s)) ->
  (forall s, date (f s) = s) ->
  Forall dated (AzureDevOps.whenSupplied d f).
Proof.
  intros Hd Hf. unfold AzureDevOps.whenSupplied. destruct d as [s|]; [|constructor].
  destruct (Js.truthy s); repeat constructor. unfold dated. rewrite Hf. by apply Hd.
Qed.

Lemma dated_commitMilestones cs :
  (forall c, In c cs -> is_Some (Date_getTime (dayOf c))) ->
  Forall dated (AzureDevOps.commitMilestones cs).
Proof.
  intros Hcs. unfold AzureDevOps.commitMilestones.
  destruct (Js.sort AzureDevOps.byAuthorDate cs) as [|first rest] eqn:Hs;
    [constructor|].
  assert (Hin : forall c, In c (first :: rest) -> In c cs).
  { intros c Hc. rewrite <- Hs in Hc. by apply In_sort in Hc. }
  repeat constructor.
  - apply Hcs, Hin. by left.
  - apply Hcs, Hin.
    destruct (nth_in_or_default (length (first :: rest) / 2) (first :: rest) first)
      as [Hn| ->]; [done|by left].
Qed.

Lemma milestones_sorted cs prs wis dateFrom dateTo :
  (forall d, dateFrom = Some d -> is_Some (Date_getTime d)) ->
  (forall d, dateTo = Some d -> is_Some (Date_getTime d)) ->
  (forall c, In c cs -> is_Some (Date_getTime (dayOf c))) ->
  Sorted notAfter (AzureDevOps.generateMilestones cs prs wis dateFrom dateTo).
Proof.
  intros Hfrom Hto Hcs. unfold AzureDevOps.generateMilestones.
  assert (Hdated : Forall dated (AzureDevOps.pushedMilestones cs prs dateFrom dateTo)).
  { unfold AzureDevOps.pushedMilestones. repeat apply Forall_app_2.
    - by apply dated_whenSupplied.
    - by apply dated_commitMilestones.
    - destruct (100 <=? length prs); [|constructor]. by apply dated_whenSupplied.
    - by apply dated_whenSupplied. }
  apply (Sorted_on dated (inOrder AzureDevOps.byDate)).
  - apply byDate_notAfter.
  - by apply Forall_sort.
  - by apply (sort_sorted _ dated); [apply byDate_consistent|].
Qed.
End Milestones.

(** Three commits dated 2024-02-01, 2024-06-01 and 2024-11-01, by anyone
    and with any message. *)
Definition commitOn (when : string) (hash who mail : string) (message : option string)
    : AzureDevOpsCommit :=
  {| commitId := hash;
     author := {| author_name := who; author_email := mail; author_date := when |};
     comment := message |}.

(** C6.  The list [generateMilestones] returns is sorted ascending by
    date whenever the supplied bounds and the commit dates are dates.
    In particular, for the range 2024-01-01 to 2024-12-31, three commits
    dated 2024-02-01, 2024-06-01 and 2024-11-01 (in any order in the
    commit list) and fewer than 100 pull requests, the list is "Period
    Start" on 2024-01-01, "First Commit" on 2024-02-01, "Halfway Point"
    on 2024-06-01 and "Period End" on 2024-12-31: it starts with the
    period start, ends with the period end and is strictly ascending by
    date throughout. *)
Theorem milestones_are_sorted_by_date :
  (forall (rt : Runtime) (cs : list AzureDevOpsCommit)
          (prs : list AzureDevOpsPullRequest) (wis : list AzureDevOpsWorkItem)
          (dateFrom dateTo : option string),
      (forall d, dateFrom = Some d -> is_Some (Date_getTime d)) ->
      (forall d, dateTo = Some d -> is_Some (Date_getTime d)) ->
      (forall c, In c cs ->
                 is_Some (Date_getTime (Js.splitT0 (author_date (author c))))) ->
      Sorted notAfter (AzureDevOps.generateMilestones cs prs wis dateFrom dateTo))
  /\ (forall (h1 h2 h3 w1 w2 w3 e1 e2 e3 : string) (m1 m2 m3 : option string)
             (cs : list AzureDevOpsCommit) (prs : list AzureDevOpsPullRequest)
             (wis : list AzureDevOpsWorkItem),
         Permutation cs [commitOn "2024-02-01T09:30:00Z" h1 w1 e1 m1;
                         commitOn "2024-06-01T14:00:00Z" h2 w2 e2 m2;
                         commitOn "2024-11-01T17:45:00Z" h3 w3 e3 m3] ->
         length prs < 100 ->
         let ms :=
           @AzureDevOps.generateMilestones IsoUtc cs prs wis
             (Some "2024-01-01") (Some "2024-12-31") in
         map (fun m => (title m, date m)) ms
         = [("Period Start", "2024-01-01"); ("First Commit", "2024-02-01");
            ("Halfway Point", "2024-06-01"); ("Period End", "2024-12-31")]
         /\ head ms = Some (AzureDevOps.periodStart "2024-01-01")
         /\ last ms = Some (AzureDevOps.periodEnd "2024-12-31")
         /\ Sorted (@strictlyBefore IsoUtc) ms).
Proof.
  split.
  - intros rt cs prs wis dateFrom dateTo Hfrom Hto Hcs.
    by apply milestones_sorted.
  - intros h1 h2 h3 w1 w2 w3 e1 e2 e3 m1 m2 m3 cs prs wis Hperm Hprs ms.
    assert (Hfew : (100 <=? length prs) = false) by (apply Nat.leb_gt; lia).
    subst ms. unfold AzureDevOps.generateMilestones, AzureDevOps.pushedMilestones.
    rewrite Hfew.
    apply Permutation_sym, permutations_Permutation, list_elem_of_In in Hperm.
    vm_compute in Hperm.
    repeat (destruct Hperm as [<-|Hperm]); [..|destruct Hperm];
      match goal with
      | |- context [Js.sort AzureDevOps.byDate ?l] =>
          let sorted := eval vm_compute in (Js.sort AzureDevOps.byDate l) in
          change (Js.sort AzureDevOps.byDate l) with sorted
      end;
      (repeat (split; [reflexivity|]));
      repeat constructor; unfold strictlyBefore; cbn [date];
      eexists _, _; (split; [reflexivity|split; [reflexivity|vm_compute; reflexivity]]).
Qed.

(** The general statement at the example of the specification. *)
Lemma milestones_are_sorted_by_date_witness :
  Sorted (@notAfter IsoUtc)
    (AzureDevOps.generateMilestones
       [commitBy "Ana" "2024-11-01T17:45:00Z"; commitBy "Bo" "2024-02-01T09:30:00Z";
        commitBy "Ana" "2024-06-01T14:00:00Z"]
       [] [] (Some "2024-01-01") (Some "2024-12-31")).
Proof.
  destruct milestones_are_sorted_by_date as [Hgeneral _].
  apply Hgeneral.
  - intros d [= <-]. by eexists.
  - intros d [= <-]. by eexists.
  - intros c [<-|[<-|[<-|[]]]]; by eexists.
Defined.

(** * Further properties of the service *)

(** ** The get-or-create idiom on a map *)

Section GetOrCreate.
Context {V : Type}.
Implicit Types (m : Js.Map.t V) (k n : string) (f : V -> V) (fresh : string -> V).

(** [if (!m.has(k)) m.set(k, fresh(k))], then [m.get(k)!] is updated. *)
Definition getOrCreate fresh k m : Js.Map.t V :=
  if negb (Js.Map.has k m) then Js.Map.set k (fresh k) m else m.

Definition bump fresh f k m : Js.Map.t V :=
  Js.Map.update f k (getOrCreate fresh k m).

Lemma get_getOrCreate fresh n k m :
  Js.Map.get n (getOrCreate fresh k m)
  = match Js.Map.get n m with
    | Some v => Some v
    | None => if String.eqb n k then Some (fresh k) else None
    end.
Proof.
  unfold getOrCreate. destruct (Js.Map.has k m) eqn:Hh; simpl.
  - destruct (Js.Map.get n m) eqn:Hn; [done|].
    destruct (String.eqb_spec n k) as [->|]; [|done].
    apply has_true in Hh as [v Hv]. congruence.
  - rewrite get_set. apply has_false in Hh.
    destruct (String.eqb_spec n k) as [->|]; [by rewrite Hh|].
    by destruct (Js.Map.get n m).
Qed.

Lemma has_getOrCreate fresh k m : Js.Map.has k (getOrCreate fresh k m) = true.
Proof.
  unfold getOrCreate. destruct (Js.Map.has k m) eqn:Hh; simpl; [done|].
  by rewrite has_set, String.eqb_refl.
Qed.

Lemma get_bump fresh f n k m :
  Js.Map.get n (bump fresh f k m)
  = if String.eqb n k then Some (f (default (fresh k) (Js.Map.get k m)))
    else Js.Map.get n m.
Proof.
  unfold bump. rewrite get_update, get_getOrCreate.
  destruct (String.eqb_spec n k) as [->|]; [|by destruct (Js.Map.get n m)].
  by destruct (Js.Map.get k m).
Qed.

Lemma has_bump fresh f n k m :
  Js.Map.has n (bump fresh f k m) = String.eqb n k || Js.Map.has n m.
Proof. unfold Js.Map.has. rewrite get_bump. by destruct (String.eqb n k). Qed.

Lemma StringSet_has_keys k m : Js.StringSet.has k (Js.Map.keys m) = Js.Map.has k m.
Proof.
  destruct (Js.Map.has k m) eqn:Hh.
  - apply StringSet_has_In. by apply has_In_keys.
  - destruct (Js.StringSet.has k (Js.Map.keys m)) eqn:Hs; [|done].
    apply StringSet_has_In, has_In_keys in Hs. congruence.
Qed.

(** The keys grow like a set of strings: in order of first appearance. *)
Lemma keys_bump fresh f k m :
  Js.Map.keys (bump fresh f k m) = Js.StringSet.add k (Js.Map.keys m).
Proof.
  unfold bump, getOrCreate, Js.StringSet.add. rewrite keys_update, StringSet_has_keys.
  destruct (Js.Map.has k m) eqn:Hh; simpl; [done|]. by apply keys_set_new.
Qed.

(** A quantity read off the object stored under [n]; 0 without one. *)
Definition measure (mu : V -> Z) n m : Z := from_option mu 0%Z (Js.Map.get n m).

Lemma measure_bump (mu : V -> Z) (d : Z) fresh f n k m :
  (forall v, mu (f v) = (mu v + d)%Z) -> mu (fresh k) = 0%Z ->
  measure mu n (bump fresh f k m)
  = (measure mu n m + if String.eqb n k then d else 0)%Z.
Proof.
  intros Hf Hfresh. unfold measure. rewrite get_bump.
  destruct (String.eqb_spec n k) as [->|]; [|lia].
  destruct (Js.Map.get k m); simpl; rewrite Hf; [done|]. by rewrite Hfresh.
Qed.

Lemma measure_update (mu : V -> Z) (d : Z) f n k m :
  (forall v, mu (f v) = (mu v + d)%Z) -> Js.Map.has k m = true ->
  measure mu n (Js.Map.update f k m)
  = (measure mu n m + if String.eqb n k then d else 0)%Z.
Proof.
  intros Hf Hh. unfold measure. rewrite get_update.
  destruct (String.eqb_spec n k) as [->|]; [|lia].
  apply has_true in Hh as [v ->]. simpl. by rewrite Hf.
Qed.

(** The sum of a quantity over all objects of the map. *)
Definition totalZ (mu : V -> Z) m : Z :=
  foldr Z.add 0%Z (map mu (Js.Map.values m)).

Lemma totalZ_update (mu : V -> Z) (d : Z) f k m :
  (forall v, mu (f v) = (mu v + d)%Z) -> Js.Map.has k m = true ->
  totalZ mu (Js.Map.update f k m) = (totalZ mu m + d)%Z.
Proof.
  intros Hf. unfold totalZ, Js.Map.has, Js.Map.values.
  induction m as [|[k0 v0] m IH]; [done|]. simpl.
  destruct (String.eqb k k0); simpl; [rewrite Hf; lia|].
  intros Hh. apply IH in Hh. simpl in Hh. lia.
Qed.

Lemma totalZ_getOrCreate (mu : V -> Z) fresh k m :
  mu (fresh k) = 0%Z -> totalZ mu (getOrCreate fresh k m) = totalZ mu m.
Proof.
  intros Hfresh. unfold getOrCreate. destruct (Js.Map.has k m) eqn:Hh; simpl; [done|].
  unfold Js.Map.set, totalZ, Js.Map.values. rewrite Hh, !map_app, foldr_app. simpl.
  by rewrite Hfresh.
Qed.

Lemma totalZ_bump (mu : V -> Z) (d : Z) fresh f k m :
  (forall v, mu (f v) = (mu v + d)%Z) -> mu (fresh k) = 0%Z ->
  totalZ mu (bump fresh f k m) = (totalZ mu m + d)%Z.
Proof.
  intros Hf Hfresh. unfold bump.
  rewrite (totalZ_update mu d) by auto using has_getOrCreate.
  by rewrite totalZ_getOrCreate.
Qed.

(** A property of every entry (key and object). *)
Lemma entries_bump (P : string -> V -> Prop) fresh f k m :
  (forall v, P k v -> P k (f v)) -> P k (fresh k) ->
  Forall (fun e => P (fst e) (snd e)) m ->
  Forall (fun e => P (fst e) (snd e)) (bump fresh f k m).
Proof.
  intros Hf Hfresh Hm.
  assert (Hc : Forall (fun e => P (fst e) (snd e)) (getOrCreate fresh k m)).
  { unfold getOrCreate. destruct (Js.Map.has k m) eqn:Hh; simpl; [done|].
    unfold Js.Map.set. rewrite Hh. apply Forall_app. split; [done|]. by constructor. }
  unfold bump. revert Hc. generalize (getOrCreate fresh k m). clear Hm. intros m' Hm'.
  induction m' as [|[k0 v0] m' IH]; simpl; [done|].
  apply Forall_cons in Hm' as [H0 Hm'].
  destruct (String.eqb_spec k k0) as [->|]; constructor; simpl in *; auto.
Qed.

Lemma get_map_entries (g : string * V -> string * V) n m :
  (forall e, fst (g e) = fst e) ->
  Js.Map.get n (map g m) = (fun v => snd (g (n, v))) <$> Js.Map.get n m.
Proof.
  intros Hg. induction m as [|[k0 v0] m IH]; simpl; [done|].
  pose proof (Hg (k0, v0)) as Hk. destruct (g (k0, v0)) as [k1 v1] eqn:Hgk.
  simpl in Hk. subst k1.
  destruct (String.eqb_spec n k0) as [->|]; [|done]. simpl. by rewrite Hgk.
Qed.

Lemma keys_map_entries (g : string * V -> string * V) m :
  (forall e, fst (g e) = fst e) -> Js.Map.keys (map g m) = Js.Map.keys m.
Proof.
  intros Hg. unfold Js.Map.keys. rewrite map_map. apply map_ext. intros e. apply Hg.
Qed.
End GetOrCreate.

(** ** The contributor map, name by name *)

(** What the first two loops of [aggregateContributorStats] do to the
    contributor map, flattened into one sequence: a commit by someone, a
    pull request opened by someone, a review by someone. *)
Inductive Event :=
  | Committed (who : string)
  | OpenedPr (who : string)
  | ReviewedPr (who : string).

Definition eventName (e : Event) : string :=
  match e with Committed n | OpenedPr n | ReviewedPr n => n end.

Definition eventUpdate (e : Event) : Contributor -> Contributor :=
  match e with
  | Committed _ => incCommits
  | OpenedPr _ => incPullRequestsOpened
  | ReviewedPr _ => incPullRequestsReviewed
  end.

Definition prEvents (pr : AzureDevOpsPullRequest) : list Event :=
  OpenedPr (createdBy pr)
    :: map (fun r => ReviewedPr (displayName r)) (default [] (reviewers pr)).

Definition events (cs : list AzureDevOpsCommit) (prs : list AzureDevOpsPullRequest)
    : list Event :=
  map (fun c => Committed (author_name (author c))) cs ++ flat_map prEvents prs.

Definition recordEvent (fresh : string -> Contributor) (m : Js.Map.t Contributor)
    (e : Event) : Js.Map.t Contributor :=
  bump fresh (eventUpdate e) (eventName e) m.

(** The counts the records are compared with. *)
Definition commitsBy (n : string) (cs : list AzureDevOpsCommit) : nat :=
  length (List.filter (isBy n) cs).

Definition openedBy (n : string) (prs : list AzureDevOpsPullRequest) : nat :=
  length (List.filter (fun pr => String.eqb (createdBy pr) n) prs).

Definition reviewsBy (n : string) (prs : list AzureDevOpsPullRequest) : nat :=
  list_sum (map (fun pr =>
                   length (List.filter (fun r => String.eqb (displayName r) n)
                             (default [] (reviewers pr))))
                prs).

Definition assignedTo (n : string) (wi : AzureDevOpsWorkItem) : bool :=
  match System_AssignedTo wi with
  | Some a => String.eqb a n
  | None => false
  end.

Definition bugsFixedBy (n : string) (wis : list AzureDevOpsWorkItem) : nat :=
  length (List.filter (fun wi => assignedTo n wi && isDoneBug wi) wis).

Definition pointsOf (n : string) (wis : list AzureDevOpsWorkItem) : Z :=
  foldr Z.add 0%Z
    (map (fun wi => Js.orZero (StoryPoints wi)) (List.filter (assignedTo n) wis)).

(** Names in the order the loops meet them. *)
Definition namesMet (cs : list AzureDevOpsCommit) (prs : list AzureDevOpsPullRequest)
    : list string :=
  map (fun c => author_name (author c)) cs
    ++ flat_map (fun pr => createdBy pr
                             :: map displayName (default [] (reviewers pr))) prs.

Lemma namesMet_events cs prs : map eventName (events cs prs) = namesMet cs prs.
Proof.
  unfold events, namesMet. rewrite map_app, map_map. f_equal.
  induction prs as [|pr prs IH]; simpl; [done|].
  rewrite map_app, map_map, IH. done.
Qed.

Section EventLoops.
Context `{Runtime}.

Lemma basic_loops_are_events cs prs m :
  foldl Part001.forPullRequest (foldl Part001.forCommit m cs) prs
  = foldl (recordEvent Part001.newContributor) m (events cs prs).
Proof.
  unfold events. rewrite foldl_app.
  assert (Hc : forall m, foldl Part001.forCommit m cs
                         = foldl (recordEvent Part001.newContributor) m
                             (map (fun c => Committed (author_name (author c))) cs)).
  { induction cs as [|c cs IH]; intros m'; simpl; [done|]. by rewrite IH. }
  rewrite Hc. generalize (foldl (recordEvent Part001.newContributor) m
                            (map (fun c => Committed (author_name (author c))) cs)).
  induction prs as [|pr prs IH]; intros m'; simpl; [done|].
  rewrite foldl_app, <- IH. f_equal.
  unfold Part001.forPullRequest, prEvents. cbn [foldl].
  change (Js.Map.update incPullRequestsOpened (createdBy pr)
            (Part001.ensure (createdBy pr) m'))
    with (recordEvent Part001.newContributor m' (OpenedPr (createdBy pr))).
  generalize (recordEvent Part001.newContributor m' (OpenedPr (createdBy pr))).
  generalize (default [] (reviewers pr)).
  intros rs. induction rs as [|r rs IHr]; intros m''; simpl; [done|]. by rewrite IHr.
Qed.

Lemma enhanced_ensure_fst n st :
  fst (AzureDevOps.ensure n st) = getOrCreate AzureDevOps.newContributor n (fst st).
Proof.
  unfold AzureDevOps.ensure, getOrCreate. by destruct (Js.Map.has n (fst st)).
Qed.

Lemma enhanced_loops_are_events cs prs st :
  fst (foldl AzureDevOps.forPullRequest (foldl AzureDevOps.forCommit st cs) prs)
  = foldl (recordEvent AzureDevOps.newContributor) (fst st) (events cs prs).
Proof.
  unfold events. rewrite foldl_app.
  assert (Hc : forall st, fst (foldl AzureDevOps.forCommit st cs)
                          = foldl (recordEvent AzureDevOps.newContributor) (fst st)
                              (map (fun c => Committed (author_name (author c))) cs)).
  { induction cs as [|c cs IH]; intros st'; simpl; [done|]. rewrite IH. f_equal.
    unfold AzureDevOps.forCommit. simpl. by rewrite enhanced_ensure_fst. }
  rewrite <- Hc. generalize (foldl AzureDevOps.forCommit st cs).
  assert (Hr : forall rs st, fst (foldl AzureDevOps.forReviewer st rs)
                             = foldl (recordEvent AzureDevOps.newContributor) (fst st)
                                 (map (fun r => ReviewedPr (displayName r)) rs)).
  { induction rs as [|r rs IH]; intros st'; simpl; [done|]. rewrite IH. f_equal.
    unfold AzureDevOps.forReviewer. simpl. by rewrite enhanced_ensure_fst. }
  induction prs as [|pr prs IH]; intros st'; simpl; [done|].
  rewrite foldl_app, IH. f_equal.
  unfold AzureDevOps.forPullRequest, prEvents. simpl. rewrite Hr. simpl.
  by rewrite enhanced_ensure_fst.
Qed.
End EventLoops.

Section EventFacts.
Context (fresh : string -> Contributor).

Lemma keys_events evs m :
  Js.Map.keys (foldl (recordEvent fresh) m evs)
  = addAll (Js.Map.keys m) (map eventName evs).
Proof.
  revert m. induction evs as [|e evs IH]; intros m; simpl; [done|].
  rewrite IH. unfold recordEvent. by rewrite keys_bump.
Qed.

Lemma measure_events (mu : Contributor -> Z) (delta : Event -> Z) n evs m :
  (forall e v, mu (eventUpdate e v) = (mu v + delta e)%Z) ->
  (forall k, mu (fresh k) = 0%Z) ->
  measure mu n (foldl (recordEvent fresh) m evs)
  = (measure mu n m
     + foldr Z.add 0
         (map (fun e => if String.eqb n (eventName e) then delta e else 0) evs))%Z.
Proof.
  intros Hmu Hfresh. revert m.
  induction evs as [|e evs IH]; intros m; simpl; [lia|].
  rewrite IH. unfold recordEvent.
  rewrite (measure_bump mu (delta e)) by auto. lia.
Qed.

Lemma entries_events (P : string -> Contributor -> Prop) evs m :
  (forall e k v, P k v -> P k (eventUpdate e v)) -> (forall k, P k (fresh k)) ->
  Forall (fun e => P (fst e) (snd e)) m ->
  Forall (fun e => P (fst e) (snd e)) (foldl (recordEvent fresh) m evs).
Proof.
  intros Hupd Hfresh. revert m.
  induction evs as [|e evs IH]; intros m Hm; simpl; [done|].
  apply IH. unfold recordEvent. apply entries_bump; auto.
Qed.
End EventFacts.

(** Sums over the events, in terms of the input lists. *)
Lemma sum_committed n cs prs :
  foldr Z.add 0%Z
    (map (fun e => if String.eqb n (eventName e)
                   then match e with Committed _ => 1 | _ => 0 end else 0)
         (events cs prs))%Z
  = Z.of_nat (commitsBy n cs).
Proof.
  unfold events, commitsBy. rewrite map_app, foldr_app.
  assert (Hprs : foldr Z.add 0%Z
            (map (fun e => if String.eqb n (eventName e)
                           then match e with Committed _ => 1 | _ => 0 end else 0)
                 (flat_map prEvents prs))%Z = 0%Z).
  { induction prs as [|pr prs IH]; simpl; [done|].
    rewrite map_app, foldr_app, IH.
    destruct (String.eqb n (createdBy pr)); simpl;
      induction (default [] (reviewers pr)) as [|r rs IHr]; simpl; try done;
      destruct (String.eqb n (displayName r)); simpl; lia. }
  rewrite Hprs. induction cs as [|c cs IH]; simpl; [done|].
  unfold isBy at 1. rewrite (String.eqb_sym (author_name (author c)) n).
  destruct (String.eqb n (author_name (author c))); simpl; lia.
Qed.

Lemma sum_opened n cs prs :
  foldr Z.add 0%Z
    (map (fun e => if String.eqb n (eventName e)
                   then match e with OpenedPr _ => 1 | _ => 0 end else 0)
         (events cs prs))%Z
  = Z.of_nat (openedBy n prs).
Proof.
  unfold events, openedBy. rewrite map_app, foldr_app.
  assert (Hprs : foldr Z.add 0%Z
            (map (fun e => if String.eqb n (eventName e)
                           then match e with OpenedPr _ => 1 | _ => 0 end else 0)
                 (flat_map prEvents prs))%Z
          = Z.of_nat (length (List.filter (fun pr => String.eqb (createdBy pr) n) prs))).
  { induction prs as [|pr prs IH]; simpl; [done|].
    rewrite map_app, foldr_app, IH.
    assert (Hrs : forall z, foldr Z.add z
              (map (fun e => if String.eqb n (eventName e)
                             then match e with OpenedPr _ => 1 | _ => 0 end else 0)
                   (map (fun r => ReviewedPr (displayName r))
                        (default [] (reviewers pr))))%Z = z).
    { intros z. induction (default [] (reviewers pr)) as [|r rs IHr]; simpl; [done|].
      rewrite IHr. destruct (String.eqb n (displayName r)); lia. }
    rewrite Hrs, (String.eqb_sym (createdBy pr) n).
    destruct (String.eqb n (createdBy pr)); simpl; lia. }
  rewrite Hprs.
  induction cs as [|c cs IH]; simpl; [done|].
  destruct (String.eqb n (author_name (author c))); simpl; lia.
Qed.

Lemma sum_reviewed n cs prs :
  foldr Z.add 0%Z
    (map (fun e => if String.eqb n (eventName e)
                   then match e with ReviewedPr _ => 1 | _ => 0 end else 0)
         (events cs prs))%Z
  = Z.of_nat (reviewsBy n prs).
Proof.
  unfold events, reviewsBy. rewrite map_app, foldr_app.
  assert (Hprs : foldr Z.add 0%Z
            (map (fun e => if String.eqb n (eventName e)
                           then match e with ReviewedPr _ => 1 | _ => 0 end else 0)
                 (flat_map prEvents prs))%Z
          = Z.of_nat (list_sum (map (fun pr =>
                        length (List.filter (fun r => String.eqb (displayName r) n)
                                  (default [] (reviewers pr)))) prs))).
  { induction prs as [|pr prs IH]; simpl; [done|].
    rewrite map_app, foldr_app, IH.
    assert (Hrs : forall z, foldr Z.add z
              (map (fun e => if String.eqb n (eventName e)
                             then match e with ReviewedPr _ => 1 | _ => 0 end else 0)
                   (map (fun r => ReviewedPr (displayName r))
                        (default [] (reviewers pr))))%Z
            = (Z.of_nat (length (List.filter (fun r => String.eqb (displayName r) n)
                                   (default [] (reviewers pr)))) + z)%Z).
    { intros z. induction (default [] (reviewers pr)) as [|r rs IHr]; simpl; [done|].
      rewrite IHr, (String.eqb_sym (displayName r) n).
      destruct (String.eqb n (displayName r)); simpl; lia. }
    rewrite Hrs. destruct (String.eqb n (createdBy pr)); lia. }
  rewrite Hprs.
  induction cs as [|c cs IH]; simpl; [done|].
  destruct (String.eqb n (author_name (author c))); simpl; lia.
Qed.

Lemma has_forWorkItem n m wi : Js.Map.has n (forWorkItem m wi) = Js.Map.has n m.
Proof.
  unfold forWorkItem. destruct (System_AssignedTo wi) as [a|]; [|done].
  destruct (Js.truthy a && Js.Map.has a m); [|done].
  rewrite has_update. destruct (isDoneBug wi); [|done]. by rewrite has_update.
Qed.

Lemma has_workItem_loop n wis m :
  Js.Map.has n (foldl forWorkItem m wis) = Js.Map.has n m.
Proof.
  revert m. induction wis as [|wi wis IH]; intros m; simpl; [done|].
  by rewrite IH, has_forWorkItem.
Qed.

(** The work item [wi] is credited to [n] in the map [m]. *)
Definition creditedTo (n : string) (m : Js.Map.t Contributor)
    (wi : AzureDevOpsWorkItem) : bool :=
  assignedTo n wi && Js.truthy n && Js.Map.has n m.

Lemma measure_forWorkItem (mu : Contributor -> Z) (db : Z) (dp : Z -> Z) n m wi :
  (forall v, mu (incBugsFixed v) = (mu v + db)%Z) ->
  (forall p v, mu (addStoryPoints p v) = (mu v + dp p)%Z) ->
  measure mu n (forWorkItem m wi)
  = (measure mu n m
     + if creditedTo n m wi
       then (if isDoneBug wi then db else 0) + dp (Js.orZero (StoryPoints wi))
       else 0)%Z.
Proof.
  intros Hb Hp. unfold forWorkItem, creditedTo, assignedTo.
  destruct (System_AssignedTo wi) as [a|]; simpl; [|lia].
  destruct (String.eqb_spec a n) as [->|Hne]; simpl.
  - destruct (Js.truthy n), (Js.Map.has n m) eqn:Hh; simpl; try lia.
    rewrite (measure_update mu (dp (Js.orZero (StoryPoints wi)))), String.eqb_refl.
    + destruct (isDoneBug wi); [|lia].
      rewrite (measure_update mu db), String.eqb_refl by done. lia.
    + done.
    + destruct (isDoneBug wi); [by rewrite has_update|done].
  - assert (Hna : String.eqb n a = false) by (apply String.eqb_neq; congruence).
    destruct (Js.truthy a && Js.Map.has a m) eqn:Hg; [|lia].
    apply andb_true_iff in Hg as [_ Hh].
    rewrite (measure_update mu (dp (Js.orZero (StoryPoints wi)))), Hna.
    + destruct (isDoneBug wi); [|lia].
      rewrite (measure_update mu db), Hna by done. lia.
    + done.
    + destruct (isDoneBug wi); [by rewrite has_update|done].
Qed.

Lemma measure_workItem_loop (mu : Contributor -> Z) (db : Z) (dp : Z -> Z) n wis m :
  (forall v, mu (incBugsFixed v) = (mu v + db)%Z) ->
  (forall p v, mu (addStoryPoints p v) = (mu v + dp p)%Z) ->
  measure mu n (foldl forWorkItem m wis)
  = (measure mu n m
     + foldr Z.add 0
         (map (fun wi => if creditedTo n m wi
                         then (if isDoneBug wi then db else 0)
                              + dp (Js.orZero (StoryPoints wi))
                         else 0) wis))%Z.
Proof.
  intros Hb Hp. revert m. induction wis as [|wi wis IH]; intros m; simpl; [lia|].
  rewrite IH, (measure_forWorkItem mu db dp) by done.
  assert (Heq : forall wi', creditedTo n (forWorkItem m wi) wi' = creditedTo n m wi').
  { intros wi'. unfold creditedTo. by rewrite has_forWorkItem. }
  rewrite (map_ext _ _ (fun wi' => f_equal
             (fun b : bool => if b then ((if isDoneBug wi' then db else 0)
                                         + dp (Js.orZero (StoryPoints wi')))%Z else 0%Z)
             (Heq wi'))).
  lia.
Qed.

Lemma sum_bugsFixedBy n wis :
  foldr Z.add 0%Z
    (map (fun wi => if assignedTo n wi then (if isDoneBug wi then 1 else 0) + 0 else 0) wis)%Z
  = Z.of_nat (bugsFixedBy n wis).
Proof.
  unfold bugsFixedBy. induction wis as [|wi wis IH]; simpl; [done|].
  rewrite IH. destruct (assignedTo n wi), (isDoneBug wi); simpl; lia.
Qed.

Lemma sum_pointsOf n wis :
  foldr Z.add 0%Z
    (map (fun wi => if assignedTo n wi
                    then (if isDoneBug wi then 0 else 0) + Js.orZero (StoryPoints wi)
                    else 0) wis)%Z
  = pointsOf n wis.
Proof.
  unfold pointsOf. induction wis as [|wi wis IH]; simpl; [done|].
  rewrite IH. destruct (assignedTo n wi), (isDoneBug wi); simpl; lia.
Qed.

(** The record under [n] counts the activity of [n]: commits authored,
    pull requests opened, reviews given, and, unless [n] is empty, bugs
    fixed and story points of the work items assigned to [n]. *)
Definition countsActivityOf (cs : list AzureDevOpsCommit)
    (prs : list AzureDevOpsPullRequest) (wis : list AzureDevOpsWorkItem)
    (n : string) (c : Contributor) : Prop :=
  name c = n
  /\ commits c = commitsBy n cs
  /\ pullRequestsOpened c = openedBy n prs
  /\ pullRequestsReviewed c = reviewsBy n prs
  /\ commentsWritten c = 0
  /\ bugsFixed c = (if Js.truthy n then bugsFixedBy n wis else 0)
  /\ storyPointsDone c = (if Js.truthy n then pointsOf n wis else 0%Z).

Section NameByName.
Context (fresh : string -> Contributor).
Context (fresh_name : forall k, name (fresh k) = k).
Context (fresh_zero : forall k,
  commits (fresh k) = 0 /\ pullRequestsOpened (fresh k) = 0
  /\ pullRequestsReviewed (fresh k) = 0 /\ commentsWritten (fresh k) = 0
  /\ bugsFixed (fresh k) = 0 /\ storyPointsDone (fresh k) = 0%Z).

Definition loops (cs : list AzureDevOpsCommit) (prs : list AzureDevOpsPullRequest)
    (wis : list AzureDevOpsWorkItem) : Js.Map.t Contributor :=
  foldl forWorkItem (foldl (recordEvent fresh) Js.Map.empty (events cs prs)) wis.

Lemma keys_loops cs prs wis :
  Js.Map.keys (loops cs prs wis) = Js.StringSet.ofList (namesMet cs prs).
Proof.
  unfold loops.
  assert (Hw : forall m, Js.Map.keys (foldl forWorkItem m wis) = Js.Map.keys m).
  { induction wis as [|wi wis IH]; intros m; simpl; [done|].
    by rewrite IH, keys_forWorkItem. }
  rewrite Hw, keys_events, namesMet_events. done.
Qed.

Lemma loops_names cs prs wis :
  Forall (fun e => name (snd e) = fst e) (loops cs prs wis).
Proof using fresh_name.
  unfold loops.
  assert (Hev : Forall (fun e => name (snd e) = fst e)
                  (foldl (recordEvent fresh) Js.Map.empty (events cs prs))).
  { apply (entries_events fresh (fun k v => name v = k)); [|done|constructor].
    by intros [?|?|?] k v. }
  revert Hev. generalize (foldl (recordEvent fresh) Js.Map.empty (events cs prs)).
  induction wis as [|wi wis' IH]; intros m Hev; simpl; [done|].
  apply IH. unfold forWorkItem.
  destruct (System_AssignedTo wi) as [a|]; [|done].
  destruct (Js.truthy a && Js.Map.has a m); [|done].
  assert (Hupd : forall f m', (forall v, name (f v) = name v) ->
            Forall (fun e => name (snd e) = fst e) m' ->
            Forall (fun e => name (snd e) = fst e) (Js.Map.update f a m')).
  { intros f m' Hf. induction m' as [|[k0 v0] m' IH']; simpl; [done|].
    intros Hm'. apply Forall_cons in Hm' as [H0 Hm'].
    destruct (String.eqb a k0); constructor; simpl in *; auto.
    by rewrite Hf. }
  apply Hupd; [done|]. destruct (isDoneBug wi); [|done]. by apply Hupd.
Qed.

Lemma loops_count cs prs wis n c :
  Js.Map.get n (loops cs prs wis) = Some c -> countsActivityOf cs prs wis n c.
Proof using fresh_name fresh_zero.
  intros Hget.
  assert (Hhas : Js.Map.has n (foldl (recordEvent fresh) Js.Map.empty (events cs prs))
                 = true).
  { rewrite <- (has_workItem_loop n wis). apply has_true. eauto. }
  assert (Hm : forall mu, measure mu n (loops cs prs wis) = mu c).
  { intros mu. unfold measure. by rewrite Hget. }
  assert (Hevents : forall mu delta,
    (forall e v, mu (eventUpdate e v) = (mu v + delta e)%Z) ->
    (forall k, mu (fresh k) = 0%Z) ->
    measure mu n (foldl (recordEvent fresh) Js.Map.empty (events cs prs))
    = foldr Z.add 0%Z
        (map (fun e => if String.eqb n (eventName e) then delta e else 0%Z)
             (events cs prs))).
  { intros mu delta H1 H2. rewrite (measure_events fresh mu delta) by done.
    unfold measure. simpl. lia. }
  assert (Hcredit : forall wi,
    creditedTo n (foldl (recordEvent fresh) Js.Map.empty (events cs prs)) wi
    = assignedTo n wi && Js.truthy n).
  { intros wi. unfold creditedTo. rewrite Hhas. by rewrite andb_true_r. }
  unfold countsActivityOf. split; [|split; [|split; [|split; [|split; [|split]]]]].
  - (* the name *)
    pose proof (loops_names cs prs wis) as Hall.
    clear -Hall Hget. induction (loops cs prs wis) as [|[k0 v0] m IH]; [done|].
    apply Forall_cons in Hall as [H0 Hall]. simpl in *.
    destruct (String.eqb_spec n k0) as [->|]; [|by apply IH]. by simplify_eq.
  - (* commits *)
    apply Nat2Z.inj. rewrite <- (Hm (fun v => Z.of_nat (commits v))). unfold loops.
    rewrite (measure_workItem_loop _ 0 (fun _ => 0)%Z) by (intros; simpl; lia).
    rewrite (Hevents _ (fun e => match e with Committed _ => 1 | _ => 0 end)%Z).
    + rewrite sum_committed.
      assert (Hz : forall l : list AzureDevOpsWorkItem, foldr Z.add 0%Z
                (map (fun wi => if creditedTo n
                         (foldl (recordEvent fresh) Js.Map.empty (events cs prs)) wi
                       then ((if isDoneBug wi then 0 else 0) + 0)%Z else 0%Z) l) = 0%Z).
      { induction l as [|wi l IH]; simpl; [done|]. rewrite IH.
        by destruct (creditedTo _ _ _), (isDoneBug wi). }
      rewrite Hz. lia.
    + intros [?|?|?] v; simpl; lia.
    + intros k. by destruct (fresh_zero k) as (-> & _).
  - (* pull requests opened *)
    apply Nat2Z.inj. rewrite <- (Hm (fun v => Z.of_nat (pullRequestsOpened v))).
    unfold loops.
    rewrite (measure_workItem_loop _ 0 (fun _ => 0)%Z) by (intros; simpl; lia).
    rewrite (Hevents _ (fun e => match e with OpenedPr _ => 1 | _ => 0 end)%Z).
    + rewrite sum_opened.
      assert (Hz : forall l : list AzureDevOpsWorkItem, foldr Z.add 0%Z
                (map (fun wi => if creditedTo n
                         (foldl (recordEvent fresh) Js.Map.empty (events cs prs)) wi
                       then ((if isDoneBug wi then 0 else 0) + 0)%Z else 0%Z) l) = 0%Z).
      { induction l as [|wi l IH]; simpl; [done|]. rewrite IH.
        by destruct (creditedTo _ _ _), (isDoneBug wi). }
      rewrite Hz. lia.
    + intros [?|?|?] v; simpl; lia.
    + intros k. by destruct (fresh_zero k) as (_ & -> & _).
  - (* pull requests reviewed *)
    apply Nat2Z.inj. rewrite <- (Hm (fun v => Z.of_nat (pullRequestsReviewed v))).
    unfold loops.
    rewrite (measure_workItem_loop _ 0 (fun _ => 0)%Z) by (intros; simpl; lia).
    rewrite (Hevents _ (fun e => match e with ReviewedPr _ => 1 | _ => 0 end)%Z).
    + rewrite sum_reviewed.
      assert (Hz : forall l : list AzureDevOpsWorkItem, foldr Z.add 0%Z
                (map (fun wi => if creditedTo n
                         (foldl (recordEvent fresh) Js.Map.empty (events cs prs)) wi
                       then ((if isDoneBug wi then 0 else 0) + 0)%Z else 0%Z) l) = 0%Z).
      { induction l as [|wi l IH]; simpl; [done|]. rewrite IH.
        by destruct (creditedTo _ _ _), (isDoneBug wi). }
      rewrite Hz. lia.
    + intros [?|?|?] v; simpl; lia.
    + intros k. by destruct (fresh_zero k) as (_ & _ & -> & _).
  - (* comments written *)
    apply Nat2Z.inj. rewrite <- (Hm (fun v => Z.of_nat (commentsWritten v))).
    unfold loops.
    rewrite (measure_workItem_loop _ 0 (fun _ => 0)%Z) by (intros; simpl; lia).
    rewrite (Hevents _ (fun _ => 0)%Z).
    + assert (Hz : forall l : list AzureDevOpsWorkItem, foldr Z.add 0%Z
                (map (fun wi => if creditedTo n
                         (foldl (recordEvent fresh) Js.Map.empty (events cs prs)) wi
                       then ((if isDoneBug wi then 0 else 0) + 0)%Z else 0%Z) l) = 0%Z).
      { induction l as [|wi l IH]; simpl; [done|]. rewrite IH.
        by destruct (creditedTo _ _ _), (isDoneBug wi). }
      rewrite Hz.
      assert (Hz' : forall l : list Event, foldr Z.add 0%Z
                (map (fun e => if String.eqb n (eventName e) then 0%Z else 0%Z) l) = 0%Z).
      { induction l as [|e l IH]; simpl; [done|]. rewrite IH.
        by destruct (String.eqb n (eventName e)). }
      rewrite Hz'. lia.
    + intros [?|?|?] v; simpl; lia.
    + intros k. by destruct (fresh_zero k) as (_ & _ & _ & -> & _).
  - (* bugs fixed *)
    apply Nat2Z.inj. rewrite <- (Hm (fun v => Z.of_nat (bugsFixed v))). unfold loops.
    rewrite (measure_workItem_loop _ 1 (fun _ => 0)%Z) by (intros; simpl; lia).
    rewrite (Hevents _ (fun _ => 0)%Z).
    + assert (Hz' : forall l : list Event, foldr Z.add 0%Z
                (map (fun e => if String.eqb n (eventName e) then 0%Z else 0%Z) l) = 0%Z).
      { induction l as [|e l IH]; simpl; [done|]. rewrite IH.
        by destruct (String.eqb n (eventName e)). }
      rewrite Hz'.
      rewrite (map_ext _ _ (fun wi => f_equal
                 (fun b : bool => if b then ((if isDoneBug wi then 1 else 0) + 0)%Z
                                  else 0%Z) (Hcredit wi))).
      destruct (Js.truthy n).
      * rewrite (map_ext _ (fun wi => if assignedTo n wi
                                     then ((if isDoneBug wi then 1 else 0) + 0)%Z else 0%Z)).
        -- rewrite sum_bugsFixedBy. lia.
        -- intros wi. by rewrite andb_true_r.
      * assert (Hz : forall l : list AzureDevOpsWorkItem, foldr Z.add 0%Z
                  (map (fun wi => if assignedTo n wi && false
                         then ((if isDoneBug wi then 1 else 0) + 0)%Z else 0%Z) l) = 0%Z).
        { induction l as [|wi l IH]; simpl; [done|]. rewrite IH.
          by rewrite andb_false_r. }
        rewrite Hz. lia.
    + intros [?|?|?] v; simpl; lia.
    + intros k. by destruct (fresh_zero k) as (_ & _ & _ & _ & -> & _).
  - (* story points *)
    rewrite <- (Hm storyPointsDone). unfold loops.
    rewrite (measure_workItem_loop _ 0 (fun p => p)) by (intros; simpl; lia).
    rewrite (Hevents _ (fun _ => 0)%Z).
    + assert (Hz' : forall l : list Event, foldr Z.add 0%Z
                (map (fun e => if String.eqb n (eventName e) then 0%Z else 0%Z) l) = 0%Z).
      { induction l as [|e l IH]; simpl; [done|]. rewrite IH.
        by destruct (String.eqb n (eventName e)). }
      rewrite Hz'.
      rewrite (map_ext _ _ (fun wi => f_equal
                 (fun b : bool => if b then ((if isDoneBug wi then 0 else 0)
                                             + Js.orZero (StoryPoints wi))%Z
                                  else 0%Z) (Hcredit wi))).
      destruct (Js.truthy n).
      * rewrite (map_ext _ (fun wi => if assignedTo n wi
                                     then ((if isDoneBug wi then 0 else 0)
                                           + Js.orZero (StoryPoints wi))%Z else 0%Z)).
        -- rewrite sum_pointsOf. lia.
        -- intros wi. by rewrite andb_true_r.
      * assert (Hz : forall l : list AzureDevOpsWorkItem, foldr Z.add 0%Z
                  (map (fun wi => if assignedTo n wi && false
                         then ((if isDoneBug wi then 0 else 0)
                               + Js.orZero (StoryPoints wi))%Z else 0%Z) l) = 0%Z).
        { induction l as [|wi l IH]; simpl; [done|]. rewrite IH.
          by rewrite andb_false_r. }
        rewrite Hz. lia.
    + intros [?|?|?] v; simpl; lia.
    + intros k. by destruct (fresh_zero k) as (_ & _ & _ & _ & _ & ->).
Qed.
End NameByName.

Section ContributorMaps.
Context `{Runtime}.

Lemma basic_map_is_loops cs prs wis :
  Part001.contributorMap cs prs wis = loops Part001.newContributor cs prs wis.
Proof. unfold Part001.contributorMap, loops. by rewrite basic_loops_are_events. Qed.

Lemma enhanced_map_is_loops cs prs wis stats streaks :
  exists hours,
    AzureDevOps.contributorMap cs prs wis stats streaks
    = map (AzureDevOps.enrich stats streaks hours)
          (loops AzureDevOps.newContributor cs prs wis).
Proof.
  unfold AzureDevOps.contributorMap, loops. eexists.
  by rewrite enhanced_loops_are_events.
Qed.

Lemma get_enriched stats streaks hours n m c :
  Js.Map.get n (map (AzureDevOps.enrich stats streaks hours) m) = Some c ->
  exists c0, Js.Map.get n m = Some c0
             /\ c = snd (AzureDevOps.enrich stats streaks hours (n, c0)).
Proof.
  rewrite get_map_entries by apply enrich_fst.
  destruct (Js.Map.get n m) as [c0|]; [|done]. intros [= <-]. eauto.
Qed.
End ContributorMaps.

Lemma enhanced_record_counts `{Runtime} cs prs wis stats streaks n c :
  Js.Map.get n (AzureDevOps.contributorMap cs prs wis stats streaks) = Some c ->
  countsActivityOf cs prs wis n c.
Proof.
  destruct (enhanced_map_is_loops cs prs wis stats streaks) as [hours ->].
  intros Hget. apply get_enriched in Hget as (c0 & Hget & ->).
  apply (loops_count AzureDevOps.newContributor) in Hget; [|done|done].
  destruct (enrich_counters stats streaks hours (n, c0))
    as (Hn & Hc & Ho & Hr & Hw & Hb & Hp).
  unfold countsActivityOf in *. simpl in *.
  rewrite Hn, Hc, Ho, Hr, Hw, Hb, Hp. exact Hget.
Qed.

Lemma enhanced_keys `{Runtime} cs prs wis stats streaks :
  Js.Map.keys (AzureDevOps.contributorMap cs prs wis stats streaks)
  = Js.StringSet.ofList (namesMet cs prs).
Proof.
  destruct (enhanced_map_is_loops cs prs wis stats streaks) as [hours ->].
  rewrite keys_map_entries by apply enrich_fst. apply keys_loops.
Qed.

(** X1.  In the contributor map of [aggregateContributorStats] the
    record stored under a name counts that name's own activity: its
    [commits] is the number of commits whose author has that name, its
    [pullRequestsOpened] the number of pull requests created by it, its
    [pullRequestsReviewed] the number of reviewer entries bearing it, and,
    for a non-empty name, [bugsFixed] is the number of "Bug"/"Done" work
    items assigned to it and [storyPointsDone] the sum of the estimates
    of all work items assigned to it (both stay 0 for the empty name).
    The record's [name] is its key. *)
Theorem contributor_record_counts_own_activity :
  forall (rt : Runtime) (cs : list AzureDevOpsCommit)
         (prs : list AzureDevOpsPullRequest) (wis : list AzureDevOpsWorkItem)
         (stats : PrMergeStats) (streaks : StreakData) (n : string) (c : Contributor),
    (Js.Map.get n (AzureDevOps.contributorMap cs prs wis stats streaks) = Some c ->
     countsActivityOf cs prs wis n c)
    /\ (Js.Map.get n (Part001.contributorMap cs prs wis) = Some c ->
        countsActivityOf cs prs wis n c).
Proof.
  intros rt cs prs wis stats streaks n c. split.
  - apply enhanced_record_counts.
  - rewrite basic_map_is_loops. by apply loops_count.
Qed.

Lemma contributor_record_counts_own_activity_witness :
  exists c,
    Js.Map.get "Bo" (Part001.contributorMap twoContributors [pullRequestBy "Bo"] [])
    = Some c
    /\ countsActivityOf twoContributors [pullRequestBy "Bo"] [] "Bo" c.
Proof.
  eexists. split; [reflexivity|].
  apply (contributor_record_counts_own_activity IsoUtc twoContributors
           [pullRequestBy "Bo"] []
           {| avgMergeTimeHours := 0; fastestMergeTimeHours := 0;
              mergeTimeByAuthor := [] |}
           {| streak_longestStreak := 0; streaksByAuthor := [] |}).
  reflexivity.
Defined.

Lemma StringSet_has_ofList n l :
  Js.StringSet.has n (Js.StringSet.ofList l) = Js.StringSet.has n l.
Proof.
  destruct (Js.StringSet.has n l) eqn:Hl.
  - apply StringSet_has_In. apply StringSet_has_In in Hl.
    apply (In_addAll n l Js.StringSet.empty). by right.
  - destruct (Js.StringSet.has n (Js.StringSet.ofList l)) eqn:Ho; [|done].
    apply StringSet_has_In, (In_addAll n l Js.StringSet.empty) in Ho as [[]|Ho].
    apply StringSet_has_In in Ho. congruence.
Qed.

(** X2.  The keys of the contributor map are the names met by the commit
    loop and the pull-request loop, without repetition and in order of
    first appearance: commit authors first, then for each pull request
    its author followed by its reviewers.  The work items play no part:
    a person who only has work items assigned gets no entry. *)
Theorem contributor_map_keys_are_names_met :
  forall (rt : Runtime) (cs : list AzureDevOpsCommit)
         (prs : list AzureDevOpsPullRequest) (wis : list AzureDevOpsWorkItem)
         (stats : PrMergeStats) (streaks : StreakData),
    let keys := Js.Map.keys (AzureDevOps.contributorMap cs prs wis stats streaks) in
    keys = Js.StringSet.ofList (namesMet cs prs)
    /\ Js.Map.keys (Part001.contributorMap cs prs wis) = keys
    /\ NoDup keys
    /\ (forall n, In n keys <-> In n (namesMet cs prs))
    /\ keys = Js.Map.keys (AzureDevOps.contributorMap cs prs [] stats streaks).
Proof.
  intros rt cs prs wis stats streaks keys.
  unfold keys. rewrite !enhanced_keys. repeat split.
  - rewrite basic_map_is_loops. apply keys_loops.
  - apply NoDup_addAll. constructor.
  - intros Hn. by apply (In_addAll n (namesMet cs prs) Js.StringSet.empty) in Hn as [[]|Hn].
  - intros Hn. apply (In_addAll n (namesMet cs prs) Js.StringSet.empty). by right.
Qed.

(** ** Totals over the contributor map *)

Lemma totalZ_events fresh (mu : Contributor -> Z) (delta : Event -> Z) evs m :
  (forall e v, mu (eventUpdate e v) = (mu v + delta e)%Z) ->
  (forall k, mu (fresh k) = 0%Z) ->
  totalZ mu (foldl (recordEvent fresh) m evs)
  = (totalZ mu m + foldr Z.add 0 (map delta evs))%Z.
Proof.
  intros Hmu Hfresh. revert m.
  induction evs as [|e evs IH]; intros m; simpl; [lia|].
  rewrite IH. unfold recordEvent. rewrite (totalZ_bump mu (delta e)) by auto. lia.
Qed.

(** The guard of the work-item loop. *)
Definition credited (m : Js.Map.t Contributor) (wi : AzureDevOpsWorkItem) : bool :=
  match System_AssignedTo wi with
  | Some a => Js.truthy a && Js.Map.has a m
  | None => false
  end.

Lemma totalZ_forWorkItem (mu : Contributor -> Z) (db : Z) (dp : Z -> Z) m wi :
  (forall v, mu (incBugsFixed v) = (mu v + db)%Z) ->
  (forall p v, mu (addStoryPoints p v) = (mu v + dp p)%Z) ->
  totalZ mu (forWorkItem m wi)
  = (totalZ mu m
     + if credited m wi
       then (if isDoneBug wi then db else 0) + dp (Js.orZero (StoryPoints wi))
       else 0)%Z.
Proof.
  intros Hb Hp. unfold forWorkItem, credited.
  destruct (System_AssignedTo wi) as [a|]; [|lia].
  destruct (Js.truthy a && Js.Map.has a m) eqn:Hg; [|lia].
  apply andb_true_iff in Hg as [_ Hh].
  rewrite (totalZ_update mu (dp (Js.orZero (StoryPoints wi)))).
  - destruct (isDoneBug wi); [|lia]. rewrite (totalZ_update mu db) by done. lia.
  - done.
  - destruct (isDoneBug wi); [by rewrite has_update|done].
Qed.

Lemma totalZ_workItem_loop (mu : Contributor -> Z) (db : Z) (dp : Z -> Z) wis m :
  (forall v, mu (incBugsFixed v) = (mu v + db)%Z) ->
  (forall p v, mu (addStoryPoints p v) = (mu v + dp p)%Z) ->
  totalZ mu (foldl forWorkItem m wis)
  = (totalZ mu m
     + foldr Z.add 0
         (map (fun wi => if credited m wi
                         then (if isDoneBug wi then db else 0)
                              + dp (Js.orZero (StoryPoints wi))
                         else 0) wis))%Z.
Proof.
  intros Hb Hp. revert m. induction wis as [|wi wis IH]; intros m; simpl; [lia|].
  rewrite IH, (totalZ_forWorkItem mu db dp) by done.
  assert (Heq : forall wi', credited (forWorkItem m wi) wi' = credited m wi').
  { intros wi'. unfold credited. destruct (System_AssignedTo wi'); [|done].
    by rewrite has_forWorkItem. }
  rewrite (map_ext _ _ (fun wi' => f_equal
             (fun b : bool => if b then ((if isDoneBug wi' then db else 0)
                                         + dp (Js.orZero (StoryPoints wi')))%Z else 0%Z)
             (Heq wi'))).
  lia.
Qed.

Lemma totalZ_enriched `{Runtime} (mu : Contributor -> Z) stats streaks hours m :
  (forall e, mu (snd (AzureDevOps.enrich stats streaks hours e)) = mu (snd e)) ->
  totalZ mu (map (AzureDevOps.enrich stats streaks hours) m) = totalZ mu m.
Proof.
  intros Hmu. unfold totalZ, Js.Map.values. rewrite !map_map.
  f_equal. apply map_ext. intros e. apply Hmu.
Qed.

Lemma totalZ_of_nat {V} (f : V -> nat) (m : Js.Map.t V) :
  totalZ (fun v => Z.of_nat (f v)) m = Z.of_nat (list_sum (map f (Js.Map.values m))).
Proof.
  unfold totalZ. induction (Js.Map.values m) as [|v l IH]; simpl; [done|].
  rewrite IH. lia.
Qed.

Lemma sum_zero {A} (l : list A) : foldr Z.add 0%Z (map (fun _ => 0%Z) l) = 0%Z.
Proof. induction l as [|x l IH]; simpl; [done|]. by rewrite IH. Qed.

(** A work item counts for some contributor: it is assigned to a
    non-empty name that the commit and pull-request loops have met. *)
Definition countsForSomeone (cs : list AzureDevOpsCommit)
    (prs : list AzureDevOpsPullRequest) (wi : AzureDevOpsWorkItem) : bool :=
  match System_AssignedTo wi with
  | Some a => Js.truthy a && Js.StringSet.has a (namesMet cs prs)
  | None => false
  end.

Lemma credited_loops fresh cs prs wi :
  credited (foldl (recordEvent fresh) Js.Map.empty (events cs prs)) wi
  = countsForSomeone cs prs wi.
Proof.
  unfold credited, countsForSomeone. destruct (System_AssignedTo wi) as [a|]; [|done].
  f_equal. rewrite <- StringSet_has_keys, keys_events, namesMet_events.
  apply StringSet_has_ofList.
Qed.

Lemma sum_all_opened cs prs :
  foldr Z.add 0%Z
    (map (fun e => match e with OpenedPr _ => 1 | _ => 0 end) (events cs prs))%Z
  = Z.of_nat (length prs).
Proof.
  unfold events. rewrite map_app, foldr_app.
  assert (Hprs : foldr Z.add 0%Z
            (map (fun e => match e with OpenedPr _ => 1 | _ => 0 end)
                 (flat_map prEvents prs))%Z = Z.of_nat (length prs)).
  { induction prs as [|pr prs' IH]; simpl; [done|].
    rewrite map_app, foldr_app, IH.
    assert (Hrs : forall z (rs : list Reviewer), foldr Z.add z
              (map (fun e => match e with OpenedPr _ => 1 | _ => 0 end)
                   (map (fun r => ReviewedPr (displayName r)) rs))%Z = z).
    { intros z rs. induction rs as [|r rs IHr]; simpl; [done|]. by rewrite IHr. }
    rewrite Hrs. lia. }
  rewrite Hprs. induction cs as [|c cs' IH]; simpl; lia.
Qed.

Lemma sum_all_reviewed cs prs :
  foldr Z.add 0%Z
    (map (fun e => match e with ReviewedPr _ => 1 | _ => 0 end) (events cs prs))%Z
  = Z.of_nat (list_sum (map (fun pr => length (default [] (reviewers pr))) prs)).
Proof.
  unfold events. rewrite map_app, foldr_app.
  assert (Hprs : foldr Z.add 0%Z
            (map (fun e => match e with ReviewedPr _ => 1 | _ => 0 end)
                 (flat_map prEvents prs))%Z
          = Z.of_nat (list_sum (map (fun pr => length (default [] (reviewers pr))) prs))).
  { induction prs as [|pr prs' IH]; simpl; [done|].
    rewrite map_app, foldr_app, IH.
    assert (Hrs : forall z (rs : list Reviewer), foldr Z.add z
              (map (fun e => match e with ReviewedPr _ => 1 | _ => 0 end)
                   (map (fun r => ReviewedPr (displayName r)) rs))%Z
            = (Z.of_nat (length rs) + z)%Z).
    { intros z rs. induction rs as [|r rs IHr]; simpl; [done|]. rewrite IHr. lia. }
    rewrite Hrs. lia. }
  rewrite Hprs. induction cs as [|c cs' IH]; simpl; lia.
Qed.

Lemma sum_uncredited (m : Js.Map.t Contributor) (l : list AzureDevOpsWorkItem) :
  foldr Z.add 0%Z
    (map (fun wi => if credited m wi
                    then ((if isDoneBug wi then 0 else 0) + 0)%Z else 0%Z) l) = 0%Z.
Proof.
  induction l as [|wi l IH]; simpl; [done|]. rewrite IH.
  by destruct (credited m wi), (isDoneBug wi).
Qed.

Section Totals.
Context (fresh : string -> Contributor).
Context (fresh_zero : forall k,
  commits (fresh k) = 0 /\ pullRequestsOpened (fresh k) = 0
  /\ pullRequestsReviewed (fresh k) = 0 /\ commentsWritten (fresh k) = 0
  /\ bugsFixed (fresh k) = 0 /\ storyPointsDone (fresh k) = 0%Z).

Lemma loops_total_opened cs prs wis :
  totalZ (fun v => Z.of_nat (pullRequestsOpened v)) (loops fresh cs prs wis)
  = Z.of_nat (length prs).
Proof using fresh_zero.
  unfold loops.
  rewrite (totalZ_workItem_loop _ 0 (fun _ => 0)%Z) by (intros; simpl; lia).
  rewrite (totalZ_events fresh _ (fun e => match e with OpenedPr _ => 1 | _ => 0 end)%Z).
  - rewrite sum_uncredited, sum_all_opened. unfold totalZ. simpl. lia.
  - intros [?|?|?] v; simpl; lia.
  - intros k. by destruct (fresh_zero k) as (_ & -> & _).
Qed.

Lemma loops_total_reviewed cs prs wis :
  totalZ (fun v => Z.of_nat (pullRequestsReviewed v)) (loops fresh cs prs wis)
  = Z.of_nat (list_sum (map (fun pr => length (default [] (reviewers pr))) prs)).
Proof using fresh_zero.
  unfold loops.
  rewrite (totalZ_workItem_loop _ 0 (fun _ => 0)%Z) by (intros; simpl; lia).
  rewrite (totalZ_events fresh _ (fun e => match e with ReviewedPr _ => 1 | _ => 0 end)%Z).
  - rewrite sum_uncredited, sum_all_reviewed. unfold totalZ. simpl. lia.
  - intros [?|?|?] v; simpl; lia.
  - intros k. by destruct (fresh_zero k) as (_ & _ & -> & _).
Qed.

Lemma loops_total_bugs cs prs wis :
  totalZ (fun v => Z.of_nat (bugsFixed v)) (loops fresh cs prs wis)
  = Z.of_nat (length (List.filter
                        (fun wi => isDoneBug wi && countsForSomeone cs prs wi) wis)).
Proof using fresh_zero.
  unfold loops.
  rewrite (totalZ_workItem_loop _ 1 (fun _ => 0)%Z) by (intros; simpl; lia).
  rewrite (totalZ_events fresh _ (fun _ => 0)%Z).
  - rewrite sum_zero. unfold totalZ at 1. simpl.
    induction wis as [|wi wis' IH]; simpl; [done|].
    rewrite credited_loops in *.
    destruct (countsForSomeone cs prs wi), (isDoneBug wi); simpl; lia.
  - intros [?|?|?] v; simpl; lia.
  - intros k. by destruct (fresh_zero k) as (_ & _ & _ & _ & -> & _).
Qed.

Lemma loops_total_points cs prs wis :
  totalZ storyPointsDone (loops fresh cs prs wis)
  = foldr Z.add 0%Z
      (map (fun wi => Js.orZero (StoryPoints wi))
           (List.filter (countsForSomeone cs prs) wis)).
Proof using fresh_zero.
  unfold loops.
  rewrite (totalZ_workItem_loop _ 0 (fun p => p)) by (intros; simpl; lia).
  rewrite (totalZ_events fresh _ (fun _ => 0)%Z).
  - rewrite sum_zero. unfold totalZ at 1. simpl.
    induction wis as [|wi wis' IH]; simpl; [done|].
    rewrite credited_loops in *.
    destruct (countsForSomeone cs prs wi), (isDoneBug wi); simpl; lia.
  - intros [?|?|?] v; simpl; lia.
  - intros k. by destruct (fresh_zero k) as (_ & _ & _ & _ & _ & ->).
Qed.
End Totals.

Lemma filter_length_le {A} (f g : A -> bool) (l : list A) :
  length (List.filter (fun x => f x && g x) l) <= length (List.filter f l).
Proof.
  induction l as [|x l IH]; simpl; [done|].
  destruct (f x), (g x); simpl; lia.
Qed.

Lemma enhanced_fresh_zero k :
  commits (AzureDevOps.newContributor k) = 0
  /\ pullRequestsOpened (AzureDevOps.newContributor k) = 0
  /\ pullRequestsReviewed (AzureDevOps.newContributor k) = 0
  /\ commentsWritten (AzureDevOps.newContributor k) = 0
  /\ bugsFixed (AzureDevOps.newContributor k) = 0
  /\ storyPointsDone (AzureDevOps.newContributor k) = 0%Z.
Proof. done. Qed.

Lemma basic_fresh_zero k :
  commits (Part001.newContributor k) = 0
  /\ pullRequestsOpened (Part001.newContributor k) = 0
  /\ pullRequestsReviewed (Part001.newContributor k) = 0
  /\ commentsWritten (Part001.newContributor k) = 0
  /\ bugsFixed (Part001.newContributor k) = 0
  /\ storyPointsDone (Part001.newContributor k) = 0%Z.
Proof. done. Qed.

(** X3.  Over the whole contributor map, the [pullRequestsOpened] counts
    add up to the number of pull requests, and the
    [pullRequestsReviewed] counts add up to the total number of reviewer
    entries, the figure the summary reports as [totalReviews]. *)
Theorem pull_request_counts_add_up :
  forall (rt : Runtime) (cs : list AzureDevOpsCommit)
         (prs : list AzureDevOpsPullRequest) (wis : list AzureDevOpsWorkItem)
         (stats : PrMergeStats) (streaks : StreakData),
    let current := Js.Map.values (AzureDevOps.contributorMap cs prs wis stats streaks) in
    let earlier := Js.Map.values (Part001.contributorMap cs prs wis) in
    let totalReviews := list_sum (map (fun pr => length (default [] (reviewers pr))) prs) in
    list_sum (map pullRequestsOpened current) = length prs
    /\ list_sum (map pullRequestsReviewed current) = totalReviews
    /\ list_sum (map pullRequestsOpened earlier) = length prs
    /\ list_sum (map pullRequestsReviewed earlier) = totalReviews.
Proof.
  intros rt cs prs wis stats streaks current earlier totalReviews.
  unfold current, earlier.
  destruct (enhanced_map_is_loops cs prs wis stats streaks) as [hours ->].
  rewrite basic_map_is_loops.
  repeat split; apply Nat2Z.inj; rewrite <- totalZ_of_nat.
  - rewrite totalZ_enriched.
    + by apply loops_total_opened, enhanced_fresh_zero.
    + intros e. f_equal. apply enrich_counters.
  - rewrite totalZ_enriched.
    + by apply loops_total_reviewed, enhanced_fresh_zero.
    + intros e. f_equal. apply enrich_counters.
  - by apply loops_total_opened, basic_fresh_zero.
  - by apply loops_total_reviewed, basic_fresh_zero.
Qed.

(** X4.  Bugs and story points reach a contributor only through work
    items assigned to a non-empty name that the commit and pull-request
    loops have met.  So the [bugsFixed] counts of the map add up to the
    number of such "Bug"/"Done" items, which is at most the number of
    all "Bug"/"Done" items (the summary's [totalBugsFixed]); and the
    [storyPointsDone] of the map add up to the estimates of such items
    only. *)
Theorem bugs_and_points_count_only_credited_items :
  forall (rt : Runtime) (cs : list AzureDevOpsCommit)
         (prs : list AzureDevOpsPullRequest) (wis : list AzureDevOpsWorkItem)
         (stats : PrMergeStats) (streaks : StreakData),
    let current := Js.Map.values (AzureDevOps.contributorMap cs prs wis stats streaks) in
    let totalBugsFixed := length (List.filter isDoneBug wis) in
    list_sum (map bugsFixed current)
    = length (List.filter (fun wi => isDoneBug wi && countsForSomeone cs prs wi) wis)
    /\ list_sum (map bugsFixed current) <= totalBugsFixed
    /\ foldr Z.add 0%Z (map storyPointsDone current)
       = foldr Z.add 0%Z
           (map (fun wi => Js.orZero (StoryPoints wi))
                (List.filter (countsForSomeone cs prs) wis)).
Proof.
  intros rt cs prs wis stats streaks current totalBugsFixed.
  assert (Hbugs : list_sum (map bugsFixed current)
    = length (List.filter (fun wi => isDoneBug wi && countsForSomeone cs prs wi) wis)).
  { unfold current.
    destruct (enhanced_map_is_loops cs prs wis stats streaks) as [hours ->].
    apply Nat2Z.inj. rewrite <- totalZ_of_nat, totalZ_enriched.
    - by apply loops_total_bugs, enhanced_fresh_zero.
    - intros e. f_equal. apply enrich_counters. }
  split; [done|]. split.
  - rewrite Hbugs. apply filter_length_le.
  - unfold current.
    destruct (enhanced_map_is_loops cs prs wis stats streaks) as [hours ->].
    change (totalZ storyPointsDone
              (map (AzureDevOps.enrich stats streaks hours)
                   (loops AzureDevOps.newContributor cs prs wis))
            = foldr Z.add 0%Z
                (map (fun wi => Js.orZero (StoryPoints wi))
                     (List.filter (countsForSomeone cs prs) wis))).
    rewrite totalZ_enriched.
    + by apply loops_total_points, enhanced_fresh_zero.
    + intros e. apply enrich_counters.
Qed.

(** ** The contributors of the summary *)

Lemma get_of_In {V} (m : Js.Map.t V) k v :
  NoDup (Js.Map.keys m) -> In (k, v) m -> Js.Map.get k m = Some v.
Proof.
  induction m as [|[k0 v0] m IH]; simpl; [done|].
  intros Hnd [Heq|Hin].
  - injection Heq as -> ->. by rewrite String.eqb_refl.
  - apply NoDup_cons in Hnd as [Hk0 Hnd].
    destruct (String.eqb_spec k k0) as [->|]; [|by apply IH].
    destruct Hk0. apply list_elem_of_In. unfold Js.Map.keys.
    apply in_map_iff. by exists (k0, v).
Qed.

Lemma In_values {V} (m : Js.Map.t V) v :
  In v (Js.Map.values m) -> exists k, In (k, v) m.
Proof.
  unfold Js.Map.values. intros Hv. apply in_map_iff in Hv as ([k v'] & <- & Hin).
  by exists k.
Qed.

Lemma In_take {A} (x : A) n l : In x (take n l) -> In x l.
Proof.
  intros Hx. rewrite <- (take_drop n l). apply in_app_iff. by left.
Qed.

Lemma list_sum_take_le (l : list nat) n : list_sum (take n l) <= list_sum l.
Proof.
  revert n. induction l as [|x l IH]; intros [|n]; simpl; try lia.
  specialize (IH n). lia.
Qed.

Lemma length_addAll_le ds s : length (addAll s ds) <= length s + length ds.
Proof.
  revert s. induction ds as [|d ds IH]; intros s; simpl; [lia|].
  specialize (IH (Js.StringSet.add d s)). unfold Js.StringSet.add in *.
  destruct (Js.StringSet.has d s); [lia|]. rewrite length_app in IH. simpl in IH. lia.
Qed.

Lemma StronglySorted_split {A} (R : A -> A -> Prop) (l1 l2 : list A) a b :
  StronglySorted R (l1 ++ l2) -> In a l1 -> In b l2 -> R a b.
Proof.
  induction l1 as [|x l1 IH]; simpl; [done|].
  intros Hs [->|Ha] Hb.
  - apply StronglySorted_inv in Hs as [_ Hall].
    rewrite List.Forall_forall in Hall. apply Hall, in_app_iff. by right.
  - apply StronglySorted_inv in Hs as [Hs _]. by apply IH.
Qed.

Section SummaryContributors.
Context `{Runtime}.

Lemma enhanced_total_commits cs prs wis stats streaks :
  list_sum (map commits
              (Js.Map.values (AzureDevOps.contributorMap cs prs wis stats streaks)))
  = length cs.
Proof.
  change (total commits (AzureDevOps.contributorMap cs prs wis stats streaks)
          = length cs).
  unfold AzureDevOps.contributorMap.
  rewrite enrich_total by (intros e; apply enrich_counters).
  rewrite total_foldl_forWorkItem by done.
  rewrite enhanced_pullRequest_loop, enhanced_commit_loop. done.
Qed.

Lemma enhanced_value_counts cs prs wis stats streaks c :
  In c (Js.Map.values (AzureDevOps.contributorMap cs prs wis stats streaks)) ->
  Js.Map.get (name c) (AzureDevOps.contributorMap cs prs wis stats streaks) = Some c
  /\ countsActivityOf cs prs wis (name c) c.
Proof.
  intros Hc. apply In_values in Hc as [k Hin].
  assert (Hget : Js.Map.get k (AzureDevOps.contributorMap cs prs wis stats streaks)
                 = Some c).
  { apply get_of_In; [|done]. rewrite enhanced_keys. apply NoDup_addAll. constructor. }
  pose proof (enhanced_record_counts _ _ _ _ _ _ _ Hget) as Hcounts.
  destruct Hcounts as (Hname & Hrest). rewrite Hname. split; [done|].
  by split.
Qed.

Lemma enhanced_names_NoDup cs prs wis stats streaks :
  NoDup (map name (Js.Map.values (AzureDevOps.contributorMap cs prs wis stats streaks))).
Proof.
  assert (Heq : map name (Js.Map.values
                            (AzureDevOps.contributorMap cs prs wis stats streaks))
                = Js.Map.keys (AzureDevOps.contributorMap cs prs wis stats streaks)).
  { unfold Js.Map.values, Js.Map.keys. rewrite map_map.
    apply map_ext_in. intros [k c] Hin. simpl.
    assert (Hc : In c (Js.Map.values
                         (AzureDevOps.contributorMap cs prs wis stats streaks))).
    { unfold Js.Map.values. apply in_map_iff. by exists (k, c). }
    assert (Hget : Js.Map.get k (AzureDevOps.contributorMap cs prs wis stats streaks)
                   = Some c).
    { apply get_of_In; [|done]. rewrite enhanced_keys. apply NoDup_addAll. constructor. }
    by destruct (enhanced_record_counts _ _ _ _ _ _ _ Hget) as (Hname & _). }
  rewrite Heq, enhanced_keys. apply NoDup_addAll. constructor.
Qed.
End SummaryContributors.

(** X5.  The contributor list of the summary holds [min(10, n)] of the
    [n] contributors of the map, with pairwise distinct names; no
    contributor left out has more commits than one that is listed; the
    commit counts listed add up to at most [totalCommits], and to exactly
    [totalCommits] when there are at most ten contributors. *)
Theorem summary_lists_the_ten_busiest_contributors :
  forall (rt : Runtime) (dateFrom dateTo : option string)
         (cs : list AzureDevOpsCommit) (prs : list AzureDevOpsPullRequest)
         (wis : list AzureDevOpsWorkItem) (prComments : nat)
         (fileChanges : list FileChange),
    let doc :=
      AzureDevOps.fetchAzureDevOpsData dateFrom dateTo cs prs wis prComments fileChanges in
    let all :=
      Js.Map.values
        (AzureDevOps.contributorMap cs prs wis
           (AzureDevOps.calculatePrMergeStats prs) (AzureDevOps.calculateStreaks cs)) in
    length (contributors doc) = Nat.min 10 (length all)
    /\ NoDup (map name (contributors doc))
    /\ (forall a b, In a (contributors doc) -> In b all -> ~ In b (contributors doc) ->
                    commits b <= commits a)
    /\ list_sum (map commits (contributors doc)) <= totalCommits doc
    /\ (length all <= 10 -> list_sum (map commits (contributors doc)) = totalCommits doc).
Proof.
  intros rt dateFrom dateTo cs prs wis prComments fileChanges doc all.
  set (sorted := Js.sort byCommits all).
  assert (Hdoc : contributors doc = take 10 sorted) by done.
  assert (Hperm : Permutation sorted all) by apply sort_perm.
  assert (Htotal : list_sum (map commits sorted) = length cs).
  { rewrite (Permutation_map commits Hperm : Permutation _ (map commits all)).
    apply enhanced_total_commits. }
  rewrite Hdoc. split; [|split; [|split; [|split]]].
  - rewrite length_take. unfold sorted. by rewrite length_sort.
  - assert (Hnd : NoDup (map name sorted)).
    { rewrite (Permutation_map name Hperm : Permutation _ (map name all)).
      apply enhanced_names_NoDup. }
    rewrite <- (take_drop 10 sorted), map_app in Hnd.
    by apply NoDup_app in Hnd as [Hnd _].
  - intros a b Ha Hb Hnot.
    assert (Hb' : In b (drop 10 sorted)).
    { apply (Permutation_in _ (Permutation_sym Hperm)) in Hb.
      rewrite <- (take_drop 10 sorted) in Hb. apply in_app_iff in Hb as [Hb|Hb]; done. }
    assert (Hss : StronglySorted (fun x y => commits y <= commits x)
                    (take 10 sorted ++ drop 10 sorted)).
    { rewrite take_drop. apply Sorted_StronglySorted.
      - intros x y z. lia.
      - eapply Sorted_weaken; [|apply sorted_descending].
        intros x y. apply descending_inOrder. }
    apply (StronglySorted_split _ _ _ a b Hss Ha Hb').
  - change (totalCommits doc) with (length cs). rewrite <- Htotal, <- firstn_map.
    apply list_sum_take_le.
  - intros Hlen. change (totalCommits doc) with (length cs).
    rewrite take_ge; [done|]. unfold sorted. rewrite length_sort. done.
Qed.

Lemma summary_lists_the_ten_busiest_contributors_witness :
  list_sum (map commits
              (contributors
                 (AzureDevOps.fetchAzureDevOpsData None None twoContributors
                    [pullRequestBy "Bo"] [] 0 [])))
  = totalCommits
      (AzureDevOps.fetchAzureDevOpsData None None twoContributors
         [pullRequestBy "Bo"] [] 0 []).
Proof.
  apply (summary_lists_the_ten_busiest_contributors IsoUtc None None twoContributors
           [pullRequestBy "Bo"] [] 0 []).
  vm_compute. lia.
Defined.

(** ** Streaks in the summary *)

Section StreakFields.
Context `{Runtime}.

Lemma maxStreakOf_bounds dates :
  dates <> [] ->
  1 <= AzureDevOps.maxStreakOf dates /\ AzureDevOps.maxStreakOf dates <= length dates.
Proof.
  intros Hne.
  destruct (maxStreakOf_is_longestRun dates Hne)
    as [(seg & (Hseg & (pre & post & Heq) & _) & Hlen) _].
  rewrite <- Hlen. split.
  - destruct seg; [done|simpl; lia].
  - apply (f_equal length) in Heq. unfold AzureDevOps.sortedDates in Heq.
    rewrite length_sort, !length_app in Heq. lia.
Qed.

Lemma enrich_streak stats streaks hours n c :
  longestStreak (snd (AzureDevOps.enrich stats streaks hours (n, c)))
  = Some (default 0 (Js.Map.get n (streaksByAuthor streaks))).
Proof.
  unfold AzureDevOps.enrich.
  destruct (Js.Map.get n (mergeTimeByAuthor stats)) as [[|? ?]|];
    destruct (Js.Map.get n hours); done.
Qed.

Lemma commitsBy_zero n cs : commitsBy n cs = 0 <-> existsb (isBy n) cs = false.
Proof.
  unfold commitsBy. induction cs as [|c cs IH]; simpl; [done|].
  destruct (isBy n c); simpl; [split; [lia|done]|exact IH].
Qed.

Lemma commitDays_nonempty n cs :
  existsb (isBy n) cs = true -> Js.StringSet.ofList (commitDays n cs) <> [].
Proof.
  intros Hex. apply addAll_nonempty. right. unfold commitDays.
  apply existsb_exists in Hex as (c & Hin & Hby).
  assert (Hf : In c (List.filter (isBy n) cs)) by (apply filter_In; done).
  destruct (List.filter (isBy n) cs); [done|discriminate].
Qed.

(** The streak recorded for [n] by [calculateStreaks], 0 without one. *)
Lemma recorded_streak_bounds n cs :
  let s := default 0 (Js.Map.get n (streaksByAuthor (AzureDevOps.calculateStreaks cs))) in
  (s = 0 <-> commitsBy n cs = 0) /\ s <= commitsBy n cs.
Proof.
  intros s. unfold s. destruct (existsb (isBy n) cs) eqn:Hex.
  - rewrite streak_of_contributor by done. simpl.
    destruct (maxStreakOf_bounds _ (commitDays_nonempty n cs Hex)) as [H1 H2].
    assert (Hlen : length (Js.StringSet.ofList (commitDays n cs)) <= commitsBy n cs).
    { pose proof (length_addAll_le (commitDays n cs) Js.StringSet.empty) as Hle.
      unfold commitDays in Hle at 2. rewrite length_map in Hle. simpl in Hle.
      exact Hle. }
    assert (Hpos : commitsBy n cs <> 0).
    { intros Hz. apply commitsBy_zero in Hz. congruence. }
    split; [split; lia|lia].
  - rewrite no_streak_without_commits by done. simpl.
    apply commitsBy_zero in Hex. rewrite Hex. split; [done|lia].
Qed.
End StreakFields.

(** X6.  Every contributor of the summary carries a [longestStreak]; it
    is 0 exactly for the contributors without a commit (those known only
    from pull requests), and it never exceeds the contributor's number
    of commits. *)
Theorem summary_streak_is_zero_only_without_commits :
  forall (rt : Runtime) (dateFrom dateTo : option string)
         (cs : list AzureDevOpsCommit) (prs : list AzureDevOpsPullRequest)
         (wis : list AzureDevOpsWorkItem) (prComments : nat)
         (fileChanges : list FileChange) (c : Contributor),
    In c (contributors
            (AzureDevOps.fetchAzureDevOpsData dateFrom dateTo cs prs wis prComments
               fileChanges)) ->
    exists s, longestStreak c = Some s
              /\ (s = 0 <-> commits c = 0)
              /\ s <= commits c.
Proof.
  intros rt dateFrom dateTo cs prs wis prComments fileChanges c Hc.
  cbn [AzureDevOps.fetchAzureDevOpsData contributors] in Hc.
  unfold AzureDevOps.aggregateContributorStats in Hc.
  apply In_take, In_sort in Hc.
  destruct (enhanced_value_counts _ _ _ _ _ _ Hc) as [Hget (_ & Hcommits & _)].
  destruct (enhanced_map_is_loops cs prs wis (AzureDevOps.calculatePrMergeStats prs)
              (AzureDevOps.calculateStreaks cs)) as [hours Hmap].
  rewrite Hmap in Hget. apply get_enriched in Hget as (c0 & _ & Hc0).
  exists (default 0 (Js.Map.get (name c)
                       (streaksByAuthor (AzureDevOps.calculateStreaks cs)))).
  split.
  - rewrite Hc0 at 1. apply enrich_streak.
  - rewrite Hcommits. apply recorded_streak_bounds.
Qed.

(** Ana in the example of two contributors: two commits on two
    consecutive days. *)
Definition anaRecord : Contributor :=
  {| name := "Ana"; commits := 2; pullRequestsOpened := 0;
     pullRequestsReviewed := 0; commentsWritten := 0; bugsFixed := 0;
     storyPointsDone := 0; linesAdded := Some 0%Z; linesDeleted := Some 0%Z;
     avgPrMergeTimeHours := Some 0%Z; longestStreak := Some 2;
     favoriteHour := Some 10%Z |}.

Lemma summary_streak_is_zero_only_without_commits_witness :
  exists s, longestStreak anaRecord = Some s
            /\ (s = 0 <-> commits anaRecord = 0)
            /\ s <= commits anaRecord.
Proof.
  apply (summary_streak_is_zero_only_without_commits IsoUtc None None twoContributors
           [pullRequestBy "Bo"] [] 0 []).
  left. reflexivity.
Defined.

Lemma In_of_get {V} (m : Js.Map.t V) k v : Js.Map.get k m = Some v -> In (k, v) m.
Proof.
  induction m as [|[k0 v0] m IH]; simpl; [done|].
  destruct (String.eqb_spec k k0) as [->|]; [|by right; apply IH].
  intros [= ->]. by left.
Qed.

Lemma foldl_max_spec (l : list nat) (a : nat) :
  a <= foldl Nat.max a l
  /\ (forall x, In x l -> x <= foldl Nat.max a l)
  /\ (foldl Nat.max a l = a \/ In (foldl Nat.max a l) l).
Proof.
  revert a. induction l as [|x l IH]; intros a; simpl;
    [split; [lia|split; [by intros ? []|by left]]|].
  destruct (IH (Nat.max a x)) as (H1 & H2 & H3). split; [lia|]. split.
  - intros y [<-|Hy]; [lia|by apply H2].
  - destruct H3 as [H3|H3]; [|by auto].
    destruct (Nat.max_spec a x) as [[_ Hm]|[_ Hm]]; rewrite H3, Hm; auto.
Qed.

Section OverallStreak.
Context `{Runtime}.

Lemma longest_is_max (es : list (string * Js.StringSet.t)) (st : nat * Js.Map.t nat) :
  fst (foldl (fun st e =>
                let maxStreak := AzureDevOps.maxStreakOf (snd e) in
                (Nat.max (fst st) maxStreak, Js.Map.set (fst e) maxStreak (snd st)))
             st es)
  = foldl Nat.max (fst st) (map (fun e => AzureDevOps.maxStreakOf (snd e)) es).
Proof.
  revert st. induction es as [|e es IH]; intros st; simpl; [done|]. by rewrite IH.
Qed.

Lemma calculateStreaks_fields cs :
  streak_longestStreak (AzureDevOps.calculateStreaks cs)
  = foldl Nat.max 0
      (map (fun e => AzureDevOps.maxStreakOf (snd e))
           (AzureDevOps.commitsByAuthorAndDate cs))
  /\ forall who,
      Js.Map.get who (streaksByAuthor (AzureDevOps.calculateStreaks cs))
      = AzureDevOps.maxStreakOf <$> Js.Map.get who (AzureDevOps.commitsByAuthorAndDate cs).
Proof.
  unfold AzureDevOps.calculateStreaks.
  match goal with
  | |- context [foldl ?f ?a ?l] =>
      pose proof (longest_is_max l a) as Hmax;
      pose proof (fun who => get_streaks who l a) as Hget;
      destruct (foldl f a l) as [longest streaks]
  end.
  simpl in *. split; [done|]. intros who. rewrite Hget.
  - unfold Js.Map.entries. by destruct (Js.Map.get who _).
  - apply (keys_collected cs Js.Map.empty). constructor.
Qed.

Lemma collected_nonempty cs who dates :
  Js.Map.get who (AzureDevOps.commitsByAuthorAndDate cs) = Some dates -> dates <> [].
Proof.
  unfold AzureDevOps.commitsByAuthorAndDate. rewrite get_collected. simpl.
  destruct (existsb (isBy who) cs) eqn:Hex; [|done].
  intros [= <-]. by apply commitDays_nonempty.
Qed.
End OverallStreak.

(** X7.  The overall [longestStreak] of [calculateStreaks] is the
    largest of the streaks recorded per author: every recorded streak is
    at least 1 and at most the overall one, some author attains it when
    there are commits, and it is 0 exactly when there is no commit. *)
Theorem overall_streak_is_the_largest_recorded :
  forall (rt : Runtime) (cs : list AzureDevOpsCommit),
    let data := AzureDevOps.calculateStreaks cs in
    (forall who n, Js.Map.get who (streaksByAuthor data) = Some n ->
                   1 <= n <= streak_longestStreak data)
    /\ (cs <> [] ->
        exists who, Js.Map.get who (streaksByAuthor data) = Some (streak_longestStreak data))
    /\ (streak_longestStreak data = 0 <-> cs = []).
Proof.
  intros rt cs data. destruct (calculateStreaks_fields cs) as [Hlongest Hget].
  fold data in Hlongest, Hget.
  destruct (foldl_max_spec
              (map (fun e => AzureDevOps.maxStreakOf (snd e))
                   (AzureDevOps.commitsByAuthorAndDate cs)) 0) as (_ & Hall & Hatt).
  rewrite <- Hlongest in Hall, Hatt.
  assert (Hrecorded : forall who n, Js.Map.get who (streaksByAuthor data) = Some n ->
                                    1 <= n <= streak_longestStreak data).
  { intros who n Hn. rewrite Hget in Hn.
    destruct (Js.Map.get who (AzureDevOps.commitsByAuthorAndDate cs)) as [dates|] eqn:Hd;
      [|done].
    injection Hn as <-. split.
    - apply maxStreakOf_bounds. by apply (collected_nonempty cs who).
    - apply Hall, in_map_iff. exists (who, dates). split; [done|]. by apply In_of_get. }
  assert (Hsome : cs <> [] -> exists who n, Js.Map.get who (streaksByAuthor data) = Some n).
  { destruct cs as [|c cs']; [done|]. intros _.
    exists (author_name (author c)). eexists. apply streak_of_contributor.
    simpl. unfold isBy at 1. by rewrite String.eqb_refl. }
  split; [done|]. split.
  - intros Hne. destruct (Hsome Hne) as (who & n & Hn).
    destruct Hatt as [Hzero|Hin].
    + apply Hrecorded in Hn. lia.
    + apply in_map_iff in Hin as ([k dates] & Hk & Hin). simpl in Hk.
      exists k. rewrite Hget.
      rewrite (get_of_In _ k dates); [by rewrite <- Hk| |done].
      apply (keys_collected cs Js.Map.empty). constructor.
  - split.
    + intros Hz. destruct cs as [|c cs']; [done|].
      destruct (Hsome ltac:(done)) as (who & n & Hn). apply Hrecorded in Hn. lia.
    + intros ->. reflexivity.
Qed.

Lemma overall_streak_is_the_largest_recorded_witness :
  exists who,
    Js.Map.get who (streaksByAuthor (AzureDevOps.calculateStreaks streakCommits))
    = Some (streak_longestStreak (AzureDevOps.calculateStreaks streakCommits)).
Proof.
  apply (overall_streak_is_the_largest_recorded IsoUtc streakCommits). discriminate.
Defined.

(** *** The activity histograms *)

Section Histogram.
Context {A : Type} (f : A -> option nat).

Definition bucket (init : list nat) (l : list A) : list nat :=
  foldl (fun h c => match f c with Some i => alter S i h | None => h end) init l.

Definition hits (i : nat) (l : list A) : nat :=
  length (List.filter (fun c => match f c with Some j => Nat.eqb j i | None => false end) l).

Definition withDate (l : list A) : nat :=
  length (List.filter (fun c => match f c with Some _ => true | None => false end) l).

Lemma bucket_length init l : length (bucket init l) = length init.
Proof.
  revert init. induction l as [|c l IH]; intros init; simpl; [done|].
  unfold bucket in IH. rewrite IH. destruct (f c); [by rewrite length_alter|done].
Qed.

Lemma bucket_lookup init l i :
  bucket init l !! i = (fun n => n + hits i l) <$> init !! i.
Proof.
  revert init. induction l as [|c l IH]; intros init; simpl.
  - destruct (init !! i); simpl; f_equal; unfold hits; simpl; lia.
  - unfold bucket in IH. rewrite IH. unfold hits. simpl.
    destruct (f c) as [j|]; [|done].
    destruct (Nat.eqb_spec j i) as [->|Hne].
    + rewrite list_lookup_alter_eq. destruct (init !! i); simpl; f_equal; lia.
    + by rewrite list_lookup_alter_ne.
Qed.

Lemma list_sum_alter_S i (l : list nat) :
  list_sum (alter S i l) = list_sum l + (if i <? length l then 1 else 0).
Proof.
  revert i. induction l as [|x l IH]; intros [|i]; simpl; try lia.
  change (list_alter S i l) with (alter S i l).
  rewrite IH. change (S i <? S (length l)) with (i <? length l). lia.
Qed.

Lemma bucket_sum init l :
  (forall c i, f c = Some i -> i < length init) ->
  list_sum (bucket init l) = list_sum init + withDate l.
Proof.
  intros Hbound. revert init Hbound.
  induction l as [|c l IH]; intros init Hbound; simpl.
  - unfold withDate. simpl. lia.
  - unfold bucket in IH. unfold withDate. simpl.
    destruct (f c) as [i|] eqn:Hc.
    + rewrite IH.
      * rewrite list_sum_alter_S.
        destruct (Nat.ltb_spec i (length init)) as [_|Hge];
          [unfold withDate; simpl; lia|].
        specialize (Hbound c i Hc). lia.
      * intros c' j Hj. rewrite length_alter. by apply (Hbound c').
    + by rewrite IH.
Qed.

Lemma withDate_le l : withDate l <= length l.
Proof. apply List.filter_length_le. Qed.
End Histogram.

Lemma Math_max_ge (l : list nat) x : In x l -> x <= Js.Math_max l.
Proof.
  unfold Js.Math_max. induction l as [|y l IH]; simpl; [done|].
  intros [<-|Hin]; [lia|]. specialize (IH Hin). lia.
Qed.

Lemma Math_max_In (l : list nat) : l <> [] -> In (Js.Math_max l) l.
Proof.
  unfold Js.Math_max. induction l as [|y l IH]; [done|]. intros _. simpl.
  destruct l as [|z l'].
  - left. simpl. lia.
  - specialize (IH ltac:(done)).
    destruct (Nat.max_spec y (foldr Nat.max 0 (z :: l'))) as [[_ ->]|[_ ->]]; auto.
Qed.

(** [indexOf] of a value the array holds: the first index holding it. *)
Lemma indexOf_first (x : nat) (l : list nat) :
  In x l ->
  exists i, Js.indexOf x l = Z.of_nat i
            /\ l !! i = Some x
            /\ forall j y, j < i -> l !! j = Some y -> y <> x.
Proof.
  induction l as [|y l IH]; simpl; [done|].
  intros Hin. destruct (Nat.eqb_spec y x) as [->|Hne].
  - exists 0. split; [done|]. split; [done|]. lia.
  - destruct Hin as [Hin|Hin]; [done|].
    destruct (IH Hin) as (i & Hi & Hat & Hbefore). exists (S i).
    rewrite Hi. destruct (Z.ltb_spec (Z.of_nat i) 0); [lia|].
    split; [lia|]. split; [done|].
    intros [|j] z Hj; simpl; [by intros [= <-]|].
    apply Hbefore. lia.
Qed.

(** The index reported for a histogram: the first of its largest
    buckets. *)
Lemma busiest_bucket (l : list nat) :
  l <> [] ->
  exists i top, Js.indexOf (Js.Math_max l) l = Z.of_nat i
            /\ l !! i = Some top
            /\ (forall j n, l !! j = Some n -> n <= top)
            /\ (forall j n, j < i -> l !! j = Some n -> n < top).
Proof.
  intros Hne. destruct (indexOf_first _ l (Math_max_In l Hne)) as (i & Hi & Hat & Hbefore).
  exists i, (Js.Math_max l). split; [done|]. split; [done|].
  assert (Hle : forall j n, l !! j = Some n -> n <= Js.Math_max l).
  { intros j n Hj. apply Math_max_ge, list_elem_of_In. by eapply list_elem_of_lookup_2. }
  split; [done|]. intros j n Hlt Hj.
  specialize (Hle j n Hj). specialize (Hbefore j n Hlt Hj). lia.
Qed.

Section ActivityPattern.
Context `{Runtime}.

Definition hourOf (c : AzureDevOpsCommit) : option nat :=
  Date_getHours (author_date (author c)).
Definition weekdayOf (c : AzureDevOpsCommit) : option nat :=
  Date_getDay (author_date (author c)).

Lemma tally_buckets cs hourly daily :
  foldl AzureDevOps.tally (hourly, daily) cs
  = (bucket hourOf hourly cs, bucket weekdayOf daily cs).
Proof.
  revert hourly daily. induction cs as [|c cs IH]; intros hourly daily; simpl; [done|].
  by rewrite IH.
Qed.

Lemma calculateActivityPattern_fields cs :
  let hourly := bucket hourOf (replicate 24 0) cs in
  let daily := bucket weekdayOf (replicate 7 0) cs in
  AzureDevOps.calculateActivityPattern cs
  = {| hourlyDistribution := hourly;
       dailyDistribution := daily;
       busiestHour := Js.indexOf (Js.Math_max hourly) hourly;
       busiestDay := Js.at_ AzureDevOps.dayNames (Js.indexOf (Js.Math_max daily) daily);
       peakProductivityTime :=
         AzureDevOps.peakOf (Js.indexOf (Js.Math_max hourly) hourly) |}.
Proof.
  unfold AzureDevOps.calculateActivityPattern. by rewrite tally_buckets.
Qed.

Lemma zero_bucket_lookup {A} (f : A -> option nat) n l i :
  i < n -> bucket f (replicate n 0) l !! i = Some (hits f i l).
Proof.
  intros Hi. rewrite bucket_lookup, lookup_replicate_2; done.
Qed.

Lemma zero_bucket_busiest {A} (f : A -> option nat) n l :
  0 < n ->
  exists i, Js.indexOf (Js.Math_max (bucket f (replicate n 0) l))
                       (bucket f (replicate n 0) l) = Z.of_nat i
            /\ i < n
            /\ (forall j, j < n -> hits f j l <= hits f i l)
            /\ (forall j, j < i -> hits f j l < hits f i l).
Proof.
  intros Hn. set (h := bucket f (replicate n 0) l).
  assert (Hlen : length h = n) by (unfold h; by rewrite bucket_length, length_replicate).
  destruct (busiest_bucket h) as (i & top & Hi & Hat & Hmax & Hfirst).
  { intros Hnil. rewrite Hnil in Hlen. simpl in Hlen. lia. }
  assert (Hin : i < n) by (rewrite <- Hlen; by eapply lookup_lt_Some).
  unfold h in Hat. rewrite zero_bucket_lookup in Hat by done. injection Hat as <-.
  exists i. split; [done|]. split; [done|]. split.
  - intros j Hj. apply (Hmax j). unfold h. by apply zero_bucket_lookup.
  - intros j Hj. apply (Hfirst j); [done|]. unfold h. apply zero_bucket_lookup. lia.
Qed.
End ActivityPattern.

Lemma Iso_hours_bound s h : Iso.hours s = Some h -> h < 24.
Proof.
  unfold Iso.hours. destruct (Iso.parse s) as [t|]; simpl; [|done].
  intros [= <-]. pose proof (Z.mod_pos_bound (t / 3600000) 24 ltac:(lia)). lia.
Qed.

Lemma Iso_weekday_bound s d : Iso.weekday s = Some d -> d < 7.
Proof.
  unfold Iso.weekday. destruct (Iso.parse s) as [t|]; simpl; [|done].
  intros [= <-]. pose proof (Z.mod_pos_bound (t / Iso.msPerDay + 4) 7 ltac:(lia)). lia.
Qed.

(** X8.  On a host whose [getHours] is below 24 and [getDay] below 7,
    [calculateActivityPattern] returns a 24-bucket and a 7-bucket
    histogram: bucket [h] counts the commits whose author date has hour
    [h] (day [d]); each histogram sums to the number of commits with a
    valid date; [busiestHour] is the first hour with the largest
    count, and [busiestDay] names the first such day of the week. *)
Theorem activity_pattern_reports_first_busiest_bucket :
  forall (rt : Runtime),
    (forall s h, Date_getHours s = Some h -> h < 24) ->
    (forall s d, Date_getDay s = Some d -> d < 7) ->
    forall (cs : list AzureDevOpsCommit),
      let pattern := AzureDevOps.calculateActivityPattern cs in
      (length (hourlyDistribution pattern) = 24
       /\ forall h, h < 24 -> hourlyDistribution pattern !! h = Some (hits hourOf h cs))
      /\ (length (dailyDistribution pattern) = 7
          /\ forall d, d < 7 -> dailyDistribution pattern !! d = Some (hits weekdayOf d cs))
      /\ (list_sum (hourlyDistribution pattern) = withDate hourOf cs
          /\ list_sum (dailyDistribution pattern) = withDate weekdayOf cs
          /\ withDate hourOf cs <= length cs /\ withDate weekdayOf cs <= length cs)
      /\ (exists h, busiestHour pattern = Z.of_nat h /\ h < 24
                    /\ (forall h', h' < 24 -> hits hourOf h' cs <= hits hourOf h cs)
                    /\ (forall h', h' < h -> hits hourOf h' cs < hits hourOf h cs))
      /\ (exists d, busiestDay pattern = AzureDevOps.dayNames !! d /\ d < 7
                    /\ is_Some (busiestDay pattern)
                    /\ (forall d', d' < 7 -> hits weekdayOf d' cs <= hits weekdayOf d cs)
                    /\ (forall d', d' < d -> hits weekdayOf d' cs < hits weekdayOf d cs)).
Proof.
  intros rt Hhours Hdays cs pattern. unfold pattern.
  rewrite calculateActivityPattern_fields.
  cbn [hourlyDistribution dailyDistribution busiestHour busiestDay].
  split; [|split; [|split; [|split]]].
  - split; [by rewrite bucket_length, length_replicate|].
    intros h Hh. by apply zero_bucket_lookup.
  - split; [by rewrite bucket_length, length_replicate|].
    intros d Hd. by apply zero_bucket_lookup.
  - split; [|split; [|split; apply withDate_le]].
    + rewrite bucket_sum; [done|]. intros c i Hi. rewrite length_replicate.
      by apply (Hhours (author_date (author c))).
    + rewrite bucket_sum; [done|]. intros c i Hi. rewrite length_replicate.
      by apply (Hdays (author_date (author c))).
  - apply zero_bucket_busiest. lia.
  - destruct (zero_bucket_busiest weekdayOf 7 cs ltac:(lia)) as (d & Hd & Hlt & Hmax & Hfirst).
    exists d. rewrite Hd. unfold Js.at_.
    destruct (Z.ltb_spec (Z.of_nat d) 0); [lia|]. rewrite Nat2Z.id.
    split; [done|]. split; [done|]. split; [|done].
    apply lookup_lt_is_Some. simpl. lia.
Qed.

Lemma activity_pattern_reports_first_busiest_bucket_witness :
  exists h, busiestHour (@AzureDevOps.calculateActivityPattern IsoUtc streakCommits)
            = Z.of_nat h /\ h < 24
            /\ (forall h', h' < 24 ->
                  hits (@hourOf IsoUtc) h' streakCommits <= hits (@hourOf IsoUtc) h streakCommits)
            /\ (forall h', h' < h ->
                  hits (@hourOf IsoUtc) h' streakCommits < hits (@hourOf IsoUtc) h streakCommits).
Proof.
  apply (activity_pattern_reports_first_busiest_bucket IsoUtc
           Iso_hours_bound Iso_weekday_bound streakCommits).
Defined.

(** *** Rankings: the first [k] entries of a descending sort *)

Section Ranking.
Context {A : Type} (key : A -> nat).

(** The comparator [(a, b) => key(b) - key(a)]. *)
Definition desc (a b : A) : Z := (Z.of_nat (key b) - Z.of_nat (key a))%Z.

Definition noLess (a b : A) : Prop := key b <= key a.

Lemma desc_sorted l : StronglySorted noLess (Js.sort desc l).
Proof.
  apply Sorted_StronglySorted; [intros x y z; unfold noLess; lia|].
  eapply Sorted_weaken; [|apply (sort_sorted desc (fun _ => True))].
  - intros a b. unfold inOrder, desc, noLess. lia.
  - unfold consistentOn, desc. lia.
  - by apply Forall_true.
Qed.

Lemma StronglySorted_filter (R : A -> A -> Prop) (p : A -> bool) l :
  StronglySorted R l -> StronglySorted R (List.filter p l).
Proof.
  induction 1 as [|x l Hs IH Hall]; simpl; [constructor|].
  destruct (p x); [|done]. constructor; [done|].
  rewrite List.Forall_forall in *. intros y Hy. apply Hall.
  by apply filter_In in Hy as [Hy _].
Qed.

Lemma StronglySorted_take (R : A -> A -> Prop) n l :
  StronglySorted R l -> StronglySorted R (take n l).
Proof.
  intros Hs. revert n. induction Hs as [|x l Hs IH Hall]; intros [|n]; simpl;
    try constructor; [by apply IH|].
  rewrite List.Forall_forall in *. intros y Hy. by apply Hall, (In_take y n).
Qed.

(** [ranked k l top]: [top] holds [min(k, |l|)] elements of [l] in
    descending order of [key], and nothing of [l] it leaves out has a
    larger [key] than something it holds. *)
Definition ranked (k : nat) (l top : list A) : Prop :=
  length top = Nat.min k (length l)
  /\ StronglySorted noLess top
  /\ exists rest, Permutation (top ++ rest) l
                  /\ forall a b, In a top -> In b rest -> key b <= key a.

Lemma ranked_take k (l sorted : list A) :
  Permutation sorted l -> StronglySorted noLess sorted -> ranked k l (take k sorted).
Proof.
  intros Hperm Hs. split; [|split].
  - by rewrite length_take, (Permutation_length Hperm).
  - by apply StronglySorted_take.
  - exists (drop k sorted). rewrite take_drop. split; [done|].
    intros a b Ha Hb. rewrite <- (take_drop k sorted) in Hs.
    apply (StronglySorted_split _ _ _ a b Hs Ha Hb).
Qed.

Lemma ranked_sort k l : ranked k l (take k (Js.sort desc l)).
Proof. apply ranked_take; [apply sort_perm|apply desc_sorted]. Qed.
End Ranking.

(** *** The busiest days *)

Definition commitsOn (date : string) (cs : list AzureDevOpsCommit) : nat :=
  length (List.filter (fun c => String.eqb (dayOf c) date) cs).

Lemma update_snoc {V} (f : V -> V) k v (m : Js.Map.t V) :
  Js.Map.has k m = false -> Js.Map.update f k (m ++ [(k, v)]) = m ++ [(k, f v)].
Proof.
  unfold Js.Map.has. induction m as [|[k0 v0] m IH]; simpl.
  - by rewrite String.eqb_refl.
  - destruct (String.eqb k k0); [done|]. intros Hm. by rewrite IH.
Qed.

Lemma update_stored {V} (f : V -> V) k v (m : Js.Map.t V) :
  Js.Map.get k m = Some v -> Js.Map.update (fun _ => f v) k m = Js.Map.update f k m.
Proof.
  induction m as [|[k0 v0] m IH]; simpl; [done|].
  destruct (String.eqb k k0); [by intros [= ->]|]. intros Hm. by rewrite IH.
Qed.

Lemma countDate_bump m c : countDate m c = bump (fun _ => 0) S (dayOf c) m.
Proof.
  unfold countDate, bump, getOrCreate, Js.Map.set, Js.Map.has. fold (dayOf c).
  destruct (Js.Map.get (dayOf c) m) as [v|] eqn:Hget; simpl.
  - rewrite Nat.add_1_r. by apply (update_stored S).
  - symmetry. apply update_snoc. unfold Js.Map.has. by rewrite Hget.
Qed.

Lemma keys_counted cs m :
  Js.Map.keys (foldl countDate m cs) = addAll (Js.Map.keys m) (map dayOf cs).
Proof.
  revert m. induction cs as [|c cs IH]; intros m; simpl; [done|].
  by rewrite IH, countDate_bump, keys_bump.
Qed.

Lemma get_counted date cs m :
  default 0 (Js.Map.get date (foldl countDate m cs))
  = default 0 (Js.Map.get date m) + commitsOn date cs.
Proof.
  revert m. induction cs as [|c cs IH]; intros m; simpl.
  - unfold commitsOn. simpl. lia.
  - rewrite IH, countDate_bump, get_bump. unfold commitsOn. simpl.
    rewrite (String.eqb_sym (dayOf c) date).
    destruct (String.eqb_spec date (dayOf c)) as [->|]; simpl; [|done].
    destruct (Js.Map.get (dayOf c) m); simpl; lia.
Qed.

Lemma total_counted cs m :
  list_sum (Js.Map.values (foldl countDate m cs)) = list_sum (Js.Map.values m) + length cs.
Proof.
  revert m. induction cs as [|c cs IH]; intros m; simpl; [lia|].
  rewrite IH, countDate_bump.
  assert (Hb : total (fun n : nat => n) (bump (fun _ => 0) S (dayOf c) m)
               = S (total (fun n : nat => n) m)).
  { unfold bump. rewrite total_update_succ by auto using has_getOrCreate.
    f_equal. unfold getOrCreate. destruct (Js.Map.has (dayOf c) m) eqn:Hh; simpl; [done|].
    rewrite total_set_new by done. lia. }
  unfold total in Hb. rewrite !map_id in Hb. lia.
Qed.

Lemma commitsOn_pos date cs : In date (map dayOf cs) -> 1 <= commitsOn date cs.
Proof.
  intros Hin. apply in_map_iff in Hin as (c & Hc & Hin). unfold commitsOn.
  assert (Hf : In c (List.filter (fun c => String.eqb (dayOf c) date) cs)).
  { apply filter_In. split; [done|]. by apply String.eqb_eq. }
  destruct (List.filter _ cs); [done|simpl; lia].
Qed.

Section BusiestDays.
Variable cs : list AzureDevOpsCommit.

Definition commitsByDate : Js.Map.t nat := foldl countDate Js.Map.empty cs.

Lemma commitsByDate_keys :
  Js.Map.keys commitsByDate = Js.StringSet.ofList (map dayOf cs).
Proof. apply keys_counted. Qed.

Lemma commitsByDate_NoDup : NoDup (Js.Map.keys commitsByDate).
Proof. rewrite commitsByDate_keys. apply NoDup_addAll. constructor. Qed.

Lemma commitsByDate_entry date n :
  In (date, n) commitsByDate <-> In date (map dayOf cs) /\ n = commitsOn date cs.
Proof.
  assert (Hkeys : In date (Js.Map.keys commitsByDate) <-> In date (map dayOf cs)).
  { rewrite commitsByDate_keys. unfold Js.StringSet.ofList. rewrite In_addAll.
    split; [by intros [[]|]|by right]. }
  pose proof (get_counted date cs Js.Map.empty) as Hcount. fold commitsByDate in Hcount.
  split.
  - intros Hin. split.
    + apply Hkeys, in_map_iff. by exists (date, n).
    + apply get_of_In in Hin; [|apply commitsByDate_NoDup]. by rewrite Hin in Hcount.
  - intros [Hin ->]. apply Hkeys in Hin. apply in_map_iff in Hin as ([d n] & Hd & Hin).
    simpl in Hd. subst d.
    rewrite (get_of_In _ _ _ commitsByDate_NoDup Hin) in Hcount. simpl in Hcount.
    by rewrite <- Hcount.
Qed.
End BusiestDays.

(** X9.  [busiestDaysByCommits] lists [min(5, d)] of the [d] distinct
    commit dates, each once and with the number of commits made on it (at
    least one), in descending order of that number; a date it leaves out
    has no more commits than any date it lists; the counts listed add up
    to at most the number of commits. *)
Theorem busiest_days_are_the_five_fullest_dates :
  forall (cs : list AzureDevOpsCommit),
    let days := busiestDays cs in
    length days = Nat.min 5 (length (Js.StringSet.ofList (map dayOf cs)))
    /\ NoDup (map day_date days)
    /\ (forall d, In d days ->
          In (day_date d) (map dayOf cs)
          /\ day_commits d = commitsOn (day_date d) cs /\ 1 <= day_commits d)
    /\ StronglySorted (fun a b => day_commits b <= day_commits a) days
    /\ (forall c d, In c cs -> ~ In (dayOf c) (map day_date days) -> In d days ->
          commitsOn (dayOf c) cs <= day_commits d)
    /\ list_sum (map day_commits days) <= length cs.
Proof.
  intros cs days.
  set (toDay := fun e : string * nat => {| day_date := fst e; day_commits := snd e |}).
  set (sorted := Js.sort (desc snd) (commitsByDate cs)).
  assert (Hdays : days = map toDay (take 5 sorted)) by done.
  assert (Hperm : Permutation sorted (commitsByDate cs)) by apply sort_perm.
  destruct (ranked_sort (snd : string * nat -> nat) 5 (commitsByDate cs))
    as (Hlen & Hsorted & rest & Hrest & Hleft).
  fold sorted in Hlen, Hsorted, Hrest, Hleft.
  assert (Hentry : forall d, In d days ->
            In (day_date d, day_commits d) (take 5 sorted)).
  { intros d Hd. rewrite Hdays in Hd. apply in_map_iff in Hd as ([date n] & <- & Hin).
    done. }
  split; [|split; [|split; [|split; [|split]]]].
  - rewrite Hdays, length_map, Hlen. f_equal.
    rewrite <- commitsByDate_keys. unfold Js.Map.keys. by rewrite length_map.
  - assert (Hnd : NoDup (map fst sorted)).
    { rewrite (Permutation_map fst Hperm : Permutation _ (map fst (commitsByDate cs))).
      apply commitsByDate_NoDup. }
    rewrite <- (take_drop 5 sorted), map_app in Hnd.
    apply NoDup_app in Hnd as [Hnd _]. rewrite Hdays, map_map. done.
  - intros d Hd. apply Hentry, In_take in Hd.
    apply (Permutation_in _ Hperm), commitsByDate_entry in Hd as [Hin Hn].
    split; [done|]. split; [done|]. rewrite Hn. by apply commitsOn_pos.
  - rewrite Hdays. clear -Hsorted. induction Hsorted as [|e l Hs IH Hall]; simpl;
      constructor; [done|].
    rewrite List.Forall_forall in *. intros d Hd.
    apply in_map_iff in Hd as (e' & <- & Hin). by apply Hall.
  - intros c d Hc Hout Hd.
    assert (Hin : In (dayOf c, commitsOn (dayOf c) cs) (take 5 sorted ++ rest)).
    { apply (Permutation_in _ (Permutation_sym Hrest)), commitsByDate_entry.
      split; [|done]. apply in_map_iff. by exists c. }
    apply in_app_iff in Hin as [Hin|Hin].
    + destruct Hout. rewrite Hdays, map_map. apply in_map_iff.
      by exists (dayOf c, commitsOn (dayOf c) cs).
    + apply (Hleft _ _ (Hentry d Hd) Hin).
  - rewrite Hdays, map_map.
    change (map (fun e => day_commits (toDay e)) (take 5 sorted))
      with (map snd (take 5 sorted)).
    rewrite <- firstn_map.
    etransitivity; [apply list_sum_take_le|].
    rewrite (Permutation_map snd Hperm : Permutation _ (map snd (commitsByDate cs))).
    pose proof (total_counted cs Js.Map.empty) as Htotal. unfold Js.Map.values in Htotal.
    unfold commitsByDate. rewrite Htotal. simpl. lia.
Qed.

(** *** The rankings of calculateTop5 *)

Definition streakOf (c : Contributor) : nat := default 0 (longestStreak c).

Lemma StronglySorted_filter_dec {A} (R : A -> A -> Prop) (P : A -> Prop)
    `{forall x, Decision (P x)} (l : list A) :
  StronglySorted R l -> StronglySorted R (filter P l).
Proof.
  induction 1 as [|x l Hs IH Hall]; [constructor|].
  rewrite filter_cons. destruct (decide (P x)); [|done]. constructor; [done|].
  rewrite List.Forall_forall in *. intros y Hy. apply Hall.
  apply list_elem_of_In. apply list_elem_of_In, list_elem_of_filter in Hy. tauto.
Qed.

(** X10.  Every ranking of [calculateTop5] lists [min(5, n)]
    of the [n] contributors it is given, in descending order of the
    ranked count, and nobody it leaves out has a larger count than
    somebody it lists; [longestStreaks] ranks only the contributors with a
    positive streak.  The earlier revision, which sorts the array in
    place, produces rankings with the same property and no
    [longestStreaks]. *)
Theorem every_ranking_lists_the_five_largest :
  forall (l : list Contributor) (cs : list AzureDevOpsCommit) (streaks : StreakData),
    let top5 := AzureDevOps.calculateTop5 l cs streaks in
    let earlier := fst (Part001.calculateTop5 l cs) in
    ((exists top, mostCommits top5 = map commitsEntry top /\ ranked commits 5 l top)
     /\ (exists top, mostPullRequestsOpened top5 = map pullRequestsOpenedEntry top
                     /\ ranked pullRequestsOpened 5 l top)
     /\ (exists top, mostPullRequestsReviewed top5 = map pullRequestsReviewedEntry top
                     /\ ranked pullRequestsReviewed 5 l top)
     /\ (exists top, mostCommentsWritten top5 = map commentsWrittenEntry top
                     /\ ranked commentsWritten 5 l top)
     /\ (exists top, longestStreaks top5 = Some (map streakEntry top)
                     /\ ranked streakOf 5 (filter (fun c => 0 < streakOf c) l) top
                     /\ Forall (fun c => 0 < streakOf c) top))
    /\ ((exists top, mostCommits earlier = map commitsEntry top /\ ranked commits 5 l top)
        /\ (exists top, mostPullRequestsOpened earlier = map pullRequestsOpenedEntry top
                        /\ ranked pullRequestsOpened 5 l top)
        /\ (exists top, mostPullRequestsReviewed earlier = map pullRequestsReviewedEntry top
                        /\ ranked pullRequestsReviewed 5 l top)
        /\ (exists top, mostCommentsWritten earlier = map commentsWrittenEntry top
                        /\ ranked commentsWritten 5 l top)
        /\ longestStreaks earlier = None).
Proof.
  intros l cs streaks top5 earlier. split.
  - split; [|split; [|split; [|split]]].
    + eexists. split; [reflexivity|]. apply (ranked_sort commits).
    + eexists. split; [reflexivity|]. apply (ranked_sort pullRequestsOpened).
    + eexists. split; [reflexivity|]. apply (ranked_sort pullRequestsReviewed).
    + eexists. split; [reflexivity|]. apply (ranked_sort commentsWritten).
    + eexists. split; [reflexivity|]. split.
      * apply ranked_take.
        -- apply filter_Permutation, sort_perm.
        -- apply StronglySorted_filter_dec, (desc_sorted streakOf).
      * apply List.Forall_forall. intros c Hc.
        apply In_take, list_elem_of_In, list_elem_of_filter in Hc. tauto.
  - split; [|split; [|split; [|split]]].
    + eexists. split; [reflexivity|]. apply (ranked_sort commits).
    + eexists. split; [reflexivity|]. apply ranked_take.
      * by rewrite !sort_perm.
      * apply (desc_sorted pullRequestsOpened).
    + eexists. split; [reflexivity|]. apply ranked_take.
      * by rewrite !sort_perm.
      * apply (desc_sorted pullRequestsReviewed).
    + eexists. split; [reflexivity|]. apply ranked_take.
      * by rewrite !sort_perm.
      * apply (desc_sorted commentsWritten).
    + reflexivity.
Qed.

(** *** The contributor list the earlier revision leaves behind *)

Lemma basic_values_noComments `{Runtime} cs prs wis :
  Forall noComments (Js.Map.values (Part001.contributorMap cs prs wis)).
Proof.
  apply List.Forall_forall. intros c Hc. apply In_values in Hc as [k Hin].
  assert (Hget : Js.Map.get k (Part001.contributorMap cs prs wis) = Some c).
  { apply get_of_In; [|done]. rewrite basic_map_is_loops, keys_loops.
    apply NoDup_addAll. constructor. }
  rewrite basic_map_is_loops in Hget.
  apply (loops_count Part001.newContributor) in Hget; [|done|done].
  unfold noComments. unfold countsActivityOf in Hget. tauto.
Qed.

Lemma noComments_sorted (l : list Contributor) :
  Forall noComments l -> Sorted (inOrder byCommentsWritten) l.
Proof.
  induction 1 as [|x l Hx Hl IH]; constructor; [done|].
  destruct Hl as [|y l Hy _]; constructor.
  unfold inOrder, byCommentsWritten, descending, noComments in *. lia.
Qed.

(** X11.  In the earlier revision the summary's contributor list is the
    list [aggregateContributorStats] returned, reordered by the in-place
    sorts of [calculateTop5]: the same ten records, but in descending
    order of pull requests reviewed (ties in descending order of pull
    requests opened, then of commits).  The last in-place sort, by
    comments written, moves nothing, all comment counts being 0. *)
Theorem earlier_summary_is_ordered_by_reviews :
  forall (rt : Runtime) (dateFrom dateTo : option string)
         (cs : list AzureDevOpsCommit) (prs : list AzureDevOpsPullRequest)
         (wis : list AzureDevOpsWorkItem) (prComments : nat),
    let returned := Part001.aggregateContributorStats cs prs wis in
    let listed :=
      contributors (Part001.fetchAzureDevOpsData dateFrom dateTo cs prs wis prComments) in
    listed = Js.sort byPullRequestsReviewed (Js.sort byPullRequestsOpened returned)
    /\ Permutation listed returned
    /\ StronglySorted (fun a b => pullRequestsReviewed b <= pullRequestsReviewed a) listed.
Proof.
  intros rt dateFrom dateTo cs prs wis prComments returned listed.
  assert (Hlisted : listed
            = Js.sort byCommentsWritten
                (Js.sort byPullRequestsReviewed
                   (Js.sort byPullRequestsOpened (Js.sort byCommits returned)))) by done.
  assert (Hzero : Forall noComments returned).
  { apply List.Forall_forall. intros c Hc. unfold returned in Hc.
    apply In_take, In_sort in Hc.
    pose proof (basic_values_noComments cs prs wis) as Hall.
    rewrite List.Forall_forall in Hall. by apply Hall. }
  assert (Heq : listed
                = Js.sort byPullRequestsReviewed (Js.sort byPullRequestsOpened returned)).
  { rewrite Hlisted. unfold returned at 1, Part001.aggregateContributorStats.
    rewrite sort_top10_again. fold (Part001.aggregateContributorStats cs prs wis).
    fold returned. apply sort_sorted_id, noComments_sorted.
    by do 2 apply Forall_sort. }
  split; [done|]. rewrite Heq. split.
  - by rewrite !sort_perm.
  - apply (desc_sorted pullRequestsReviewed).
Qed.

(** *** Modules: the name a work item is filed under *)

Fixpoint hasChar (c : ascii) (s : string) : bool :=
  match s with
  | EmptyString => false
  | String c' r => Ascii.eqb c' c || hasChar c r
  end.

Lemma split_leaf sep leaf : hasChar sep leaf = false -> Js.split sep leaf = [leaf].
Proof.
  induction leaf as [|c r IH]; simpl; [done|].
  intros Hc. apply orb_false_iff in Hc as [-> Hr]. by rewrite IH.
Qed.

Lemma split_last_segment sep prefix leaf :
  hasChar sep leaf = false ->
  exists h t, Js.split sep (prefix +:+ String sep leaf) = h :: t /\ last t = Some leaf.
Proof.
  intros Hleaf. induction prefix as [|c r (h & t & IH & Hlast)]; simpl.
  - rewrite Ascii.eqb_refl, split_leaf by done. by exists EmptyString, [leaf].
  - rewrite IH. destruct (Ascii.eqb c sep).
    + exists EmptyString, (h :: t). split; [done|].
      rewrite last_cons, Hlast. done.
    + by exists (String c h), t.
Qed.

Lemma pop_split sep path leaf :
  hasChar sep leaf = false ->
  path = leaf \/ (exists prefix, path = prefix +:+ String sep leaf) ->
  Js.pop (Js.split sep path) = Some leaf.
Proof.
  intros Hleaf [->|[prefix ->]]; unfold Js.pop.
  - by rewrite split_leaf.
  - destruct (split_last_segment sep prefix leaf Hleaf) as (h & t & -> & Hlast).
    by rewrite last_cons, Hlast.
Qed.

Lemma pop_split_segment sep path :
  exists leaf, Js.pop (Js.split sep path) = Some leaf /\ hasChar sep leaf = false.
Proof.
  unfold Js.pop. induction path as [|c r (leaf & IH & Hleaf)]; simpl.
  - by exists EmptyString.
  - destruct (Ascii.eqb c sep) eqn:Hc.
    + exists leaf. by rewrite last_cons, IH.
    + destruct (Js.split sep r) as [|h t]; [done|].
      destruct t as [|h' t].
      * injection IH as ->. exists (String c leaf). simpl. by rewrite Hc.
      * exists leaf. split; [exact IH|done].
Qed.

(** X12.  The module a work item is filed under is the part of its area
    path after the last backslash, and ["General"] when that part is
    empty or there is no area path; the name is never empty and holds no
    backslash. *)
Theorem module_name_is_last_segment_of_area_path :
  forall (wi : AzureDevOpsWorkItem),
    let moduleName := AzureDevOps.moduleNameOf wi in
    moduleName <> EmptyString
    /\ hasChar "\" moduleName = false
    /\ (System_AreaPath wi = None -> moduleName = "General")
    /\ (forall path leaf,
          System_AreaPath wi = Some path ->
          hasChar "\" leaf = false ->
          path = leaf \/ (exists prefix, path = prefix +:+ String "\" leaf) ->
          moduleName = if String.eqb leaf "" then "General" else leaf).
Proof.
  intros wi moduleName. unfold moduleName, AzureDevOps.moduleNameOf.
  set (areaPath := Js.orString (System_AreaPath wi) "General").
  destruct (pop_split_segment "\" areaPath) as (seg & Hseg & Hclean).
  rewrite Hseg. unfold Js.orString at 1 2, Js.truthy.
  split; [|split; [|split]].
  - destruct (String.eqb_spec seg ""); simpl; [done|done].
  - destruct (String.eqb_spec seg ""); simpl; [done|done].
  - intros Hnone. unfold areaPath in Hseg. rewrite Hnone in Hseg.
    injection Hseg as <-. done.
  - intros path leaf Hpath Hleaf Hshape. unfold areaPath in Hseg.
    rewrite Hpath in Hseg. unfold Js.orString, Js.truthy in Hseg.
    destruct (String.eqb_spec path "") as [Hempty|Hne]; simpl in Hseg.
    + injection Hseg as <-. rewrite Hempty in Hshape.
      destruct Hshape as [<-|[prefix Hp]]; [done|]. by destruct prefix.
    + rewrite (pop_split "\" path leaf Hleaf Hshape) in Hseg. injection Hseg as <-.
      unfold Js.orString, Js.truthy. by destruct (String.eqb leaf "").
Qed.

Definition filedItem (path : string) : AzureDevOpsWorkItem :=
  {| id := 1; System_Title := "Item"; System_WorkItemType := "Task";
     System_State := "Done"; System_AssignedTo := None; StoryPoints := Some 3%Z;
     System_CreatedDate := "2024-01-01"; System_AreaPath := Some path |}.

Lemma module_name_is_last_segment_of_area_path_witness :
  AzureDevOps.moduleNameOf (filedItem "Shop\Web\Checkout") = "Checkout".
Proof.
  destruct (module_name_is_last_segment_of_area_path (filedItem "Shop\Web\Checkout"))
    as (_ & _ & _ & Hleaf).
  apply (Hleaf "Shop\Web\Checkout" "Checkout"); [reflexivity|reflexivity|].
  right. by exists "Shop\Web".
Defined.

(** *** Modules: what each one counts *)

Definition itemsIn (n : string) (wis : list AzureDevOpsWorkItem)
    : list AzureDevOpsWorkItem :=
  List.filter (fun wi => String.eqb (AzureDevOps.moduleNameOf wi) n) wis.

Definition sumPoints (wis : list AzureDevOpsWorkItem) : Z :=
  foldr Z.add 0%Z (map (fun wi => Js.orZero (StoryPoints wi)) wis).

Lemma totalStoryPoints_sum wis : totalStoryPoints wis = sumPoints wis.
Proof.
  unfold totalStoryPoints, sumPoints.
  assert (Hacc : forall acc,
    foldl (fun acc wi => (acc + Js.orZero (StoryPoints wi))%Z) acc wis
    = (acc + foldr Z.add 0 (map (fun wi => Js.orZero (StoryPoints wi)) wis))%Z).
  { induction wis as [|wi wis IH]; intros acc; simpl; [lia|]. rewrite IH. lia. }
  rewrite Hacc. lia.
Qed.

Lemma forModule_bump m wi :
  AzureDevOps.forModule m wi
  = bump AzureDevOps.newModule (AzureDevOps.creditModule (Js.orZero (StoryPoints wi)))
         (AzureDevOps.moduleNameOf wi) m.
Proof. reflexivity. Qed.

Section ModuleLoop.
Context (mu : ProjectModule -> Z) (delta : Z -> Z).
Context (mu_credit : forall p v, mu (AzureDevOps.creditModule p v) = (mu v + delta p)%Z).
Context (mu_new : forall k, mu (AzureDevOps.newModule k) = 0%Z).

Lemma measure_modules n wis m :
  measure mu n (foldl AzureDevOps.forModule m wis)
  = (measure mu n m
     + foldr Z.add 0 (map (fun wi => delta (Js.orZero (StoryPoints wi))) (itemsIn n wis)))%Z.
Proof using mu_credit mu_new.
  revert m. induction wis as [|wi wis IH]; intros m; simpl; [lia|].
  rewrite IH, forModule_bump.
  rewrite (measure_bump mu (delta (Js.orZero (StoryPoints wi)))) by auto.
  unfold itemsIn. simpl. rewrite (String.eqb_sym (AzureDevOps.moduleNameOf wi) n).
  destruct (String.eqb n (AzureDevOps.moduleNameOf wi)); simpl; lia.
Qed.

Lemma totalZ_modules wis m :
  totalZ mu (foldl AzureDevOps.forModule m wis)
  = (totalZ mu m
     + foldr Z.add 0 (map (fun wi => delta (Js.orZero (StoryPoints wi))) wis))%Z.
Proof using mu_credit mu_new.
  revert m. induction wis as [|wi wis IH]; intros m; simpl; [lia|].
  rewrite IH, forModule_bump.
  rewrite (totalZ_bump mu (delta (Js.orZero (StoryPoints wi)))) by auto. lia.
Qed.
End ModuleLoop.

Lemma keys_modules wis m :
  Js.Map.keys (foldl AzureDevOps.forModule m wis)
  = addAll (Js.Map.keys m) (map AzureDevOps.moduleNameOf wis).
Proof.
  revert m. induction wis as [|wi wis IH]; intros m; simpl; [done|].
  by rewrite IH, forModule_bump, keys_bump.
Qed.

Lemma entries_modules (P : string -> ProjectModule -> Prop) wis m :
  (forall p k v, P k v -> P k (AzureDevOps.creditModule p v)) ->
  (forall k, P k (AzureDevOps.newModule k)) ->
  Forall (fun e => P (fst e) (snd e)) m ->
  Forall (fun e => P (fst e) (snd e)) (foldl AzureDevOps.forModule m wis).
Proof.
  intros Hcredit Hnew. revert m.
  induction wis as [|wi wis IH]; intros m Hm; simpl; [done|].
  apply IH. rewrite forModule_bump. apply entries_bump; auto.
Qed.

Lemma count_ones {A} (l : list A) :
  foldr Z.add 0%Z (map (fun _ => 1%Z) l) = Z.of_nat (length l).
Proof. induction l as [|x l IH]; simpl; lia. Qed.

Lemma byModulePoints_sorted l :
  StronglySorted (fun a b => (module_storyPointsDone b <= module_storyPointsDone a)%Z)
    (Js.sort AzureDevOps.byModulePoints l).
Proof.
  apply Sorted_StronglySorted; [intros x y z; lia|].
  eapply Sorted_weaken; [|apply (sort_sorted AzureDevOps.byModulePoints (fun _ => True))].
  - intros a b. unfold inOrder, AzureDevOps.byModulePoints. lia.
  - unfold consistentOn, AzureDevOps.byModulePoints. lia.
  - by apply Forall_true.
Qed.

(** What the record of the module [n] holds after the loop. *)
Definition countsItemsOf (wis : list AzureDevOpsWorkItem) (n : string)
    (m : ProjectModule) : Prop :=
  module_name m = n
  /\ module_commits m = 0
  /\ module_status m = "In Progress"
  /\ module_pullRequests m = length (itemsIn n wis)
  /\ 1 <= length (itemsIn n wis)
  /\ module_storyPointsDone m = sumPoints (itemsIn n wis).

Lemma moduleMap_NoDup wis : NoDup (Js.Map.keys (AzureDevOps.moduleMap wis)).
Proof.
  unfold AzureDevOps.moduleMap. rewrite keys_modules. apply NoDup_addAll. constructor.
Qed.

Lemma moduleMap_entry wis n m :
  In (n, m) (AzureDevOps.moduleMap wis) -> countsItemsOf wis n m.
Proof.
  intros Hin.
  pose proof (entries_modules
                (fun k v => module_name v = k /\ module_commits v = 0
                            /\ module_status v = "In Progress")
                wis Js.Map.empty ltac:(by intros p k v) ltac:(done) ltac:(constructor))
    as Hfixed.
  rewrite List.Forall_forall in Hfixed. destruct (Hfixed _ Hin) as (Hname & Hcommits & Hstatus).
  simpl in Hname, Hcommits, Hstatus.
  assert (Hget : Js.Map.get n (AzureDevOps.moduleMap wis) = Some m).
  { apply get_of_In; [apply moduleMap_NoDup|done]. }
  pose proof (measure_modules (fun v => Z.of_nat (module_pullRequests v)) (fun _ => 1%Z)
                ltac:(intros; simpl; lia) ltac:(done) n wis Js.Map.empty) as Hcount.
  pose proof (measure_modules module_storyPointsDone (fun p => p)
                ltac:(done) ltac:(done) n wis Js.Map.empty) as Hpoints.
  fold (AzureDevOps.moduleMap wis) in Hcount, Hpoints.
  unfold measure in Hcount, Hpoints. rewrite Hget in Hcount, Hpoints.
  simpl in Hcount, Hpoints. rewrite count_ones in Hcount.
  assert (Hkey : In n (map AzureDevOps.moduleNameOf wis)).
  { assert (Hk : In n (Js.Map.keys (AzureDevOps.moduleMap wis))).
    { apply in_map_iff. by exists (n, m). }
    unfold AzureDevOps.moduleMap in Hk. rewrite keys_modules, In_addAll in Hk.
    by destruct Hk as [[]|Hk]. }
  split; [done|]. split; [done|]. split; [done|]. split; [lia|]. split; [|done].
  apply in_map_iff in Hkey as (wi & Hwi & Hin').
  assert (Hf : In wi (itemsIn n wis)).
  { apply filter_In. split; [done|]. by apply String.eqb_eq. }
  destruct (itemsIn n wis); [done|simpl; lia].
Qed.

(** X13.  [aggregateModuleStats] returns [min(6, k)] of the [k] distinct
    module names, each once, in descending order of story points.  Each
    returned module has [commits] 0 and status ["In Progress"]; its
    [pullRequests] field is the number of work items filed under it (at
    least one) and its [storyPointsDone] the sum of their estimates,
    whatever their state.  Over all modules these add up to the number
    of work items and to the total of story points. *)
Theorem module_counts_its_work_items :
  forall (wis : list AzureDevOpsWorkItem),
    let modules := AzureDevOps.aggregateModuleStats wis in
    let all := Js.Map.values (AzureDevOps.moduleMap wis) in
    length modules
    = Nat.min 6 (length (Js.StringSet.ofList (map AzureDevOps.moduleNameOf wis)))
    /\ NoDup (map module_name modules)
    /\ (forall m, In m modules -> countsItemsOf wis (module_name m) m)
    /\ StronglySorted
         (fun a b => (module_storyPointsDone b <= module_storyPointsDone a)%Z) modules
    /\ Permutation (modules ++ drop 6 (Js.sort AzureDevOps.byModulePoints all)) all
    /\ list_sum (map module_pullRequests all) = length wis
    /\ foldr Z.add 0%Z (map module_storyPointsDone all) = totalStoryPoints wis.
Proof.
  intros wis modules all.
  set (sorted := Js.sort AzureDevOps.byModulePoints all).
  assert (Hmods : modules = take 6 sorted) by done.
  assert (Hperm : Permutation sorted all) by apply sort_perm.
  assert (Hall : forall m, In m all -> countsItemsOf wis (module_name m) m).
  { intros m Hm. apply In_values in Hm as [k Hin].
    pose proof (moduleMap_entry wis k m Hin) as Hc.
    destruct Hc as (Hname & Hrest). rewrite Hname. by split. }
  assert (Hnames : map module_name all = Js.Map.keys (AzureDevOps.moduleMap wis)).
  { unfold all, Js.Map.values, Js.Map.keys. rewrite map_map.
    apply map_ext_in. intros [k m] Hin. by destruct (moduleMap_entry wis k m Hin). }
  split; [|split; [|split; [|split; [|split; [|split]]]]].
  - rewrite Hmods, length_take. unfold sorted. rewrite length_sort. f_equal.
    unfold all, Js.Map.values. rewrite length_map.
    rewrite <- (length_map fst). change (map fst (AzureDevOps.moduleMap wis))
      with (Js.Map.keys (AzureDevOps.moduleMap wis)).
    unfold AzureDevOps.moduleMap. by rewrite keys_modules.
  - assert (Hnd : NoDup (map module_name sorted)).
    { rewrite (Permutation_map module_name Hperm : Permutation _ (map module_name all)).
      rewrite Hnames. apply moduleMap_NoDup. }
    rewrite <- (take_drop 6 sorted), map_app in Hnd.
    apply NoDup_app in Hnd as [Hnd _]. by rewrite Hmods.
  - intros m Hm. apply Hall. rewrite Hmods in Hm.
    apply In_take in Hm. by apply (Permutation_in _ Hperm).
  - rewrite Hmods. apply StronglySorted_take, byModulePoints_sorted.
  - rewrite Hmods. fold sorted. by rewrite take_drop.
  - apply Nat2Z.inj.
    pose proof (totalZ_modules (fun v => Z.of_nat (module_pullRequests v)) (fun _ => 1%Z)
                  ltac:(intros; simpl; lia) ltac:(done) wis Js.Map.empty) as Hcount.
    fold (AzureDevOps.moduleMap wis) in Hcount.
    rewrite totalZ_of_nat, count_ones in Hcount. exact Hcount.
  - pose proof (totalZ_modules module_storyPointsDone (fun p => p)
                  ltac:(done) ltac:(done) wis Js.Map.empty) as Hpoints.
    fold (AzureDevOps.moduleMap wis) in Hpoints.
    rewrite totalStoryPoints_sum. exact Hpoints.
Qed.

(** *** Repository statistics *)

Definition repoEntry (n : string) : string * RepositoryStats :=
  (n, AzureDevOps.newRepositoryStats n).

Lemma has_repoEntries k (names : list string) :
  Js.Map.has k (map repoEntry names) = Js.StringSet.has k names.
Proof.
  unfold Js.Map.has. induction names as [|n names IH]; simpl; [done|].
  destruct (String.eqb k n); [done|]. exact IH.
Qed.

Lemma update_same {V} (f : V -> V) k (m : Js.Map.t V) :
  Forall (fun v => f v = v) (Js.Map.values m) -> Js.Map.update f k m = m.
Proof.
  induction m as [|[k0 v0] m IH]; simpl; [done|]. intros Hm.
  apply Forall_cons in Hm as [H0 Hm].
  destruct (String.eqb k k0); [by rewrite H0|]. by rewrite IH.
Qed.

Lemma set_repoEntry n (names : list string) :
  Js.Map.set n (AzureDevOps.newRepositoryStats n) (map repoEntry names)
  = map repoEntry (Js.StringSet.add n names).
Proof.
  unfold Js.Map.set, Js.StringSet.add. rewrite has_repoEntries.
  destruct (Js.StringSet.has n names) eqn:Hhas.
  - assert (Hupd : forall l,
      Js.Map.update (fun _ => AzureDevOps.newRepositoryStats n) n (map repoEntry l)
      = map repoEntry l).
    { induction l as [|x l IH]; simpl; [done|].
      destruct (String.eqb_spec n x) as [->|]; [done|]. by rewrite IH. }
    apply Hupd.
  - by rewrite map_app.
Qed.

Lemma repoStats_entries (repositories : list Repository) (names : list string) :
  foldl (fun m repo =>
           Js.Map.set (repository_name repo)
             (AzureDevOps.newRepositoryStats (repository_name repo)) m)
        (map repoEntry names) repositories
  = map repoEntry (addAll names (map repository_name repositories)).
Proof.
  revert names. induction repositories as [|r rs IH]; intros names; simpl; [done|].
  by rewrite set_repoEntry, IH.
Qed.

(** No set of contributors is ever added to: they all stay empty. *)
Lemma trackRepositories_empty repoStats byRepo commit :
  Forall (fun s => s = Js.StringSet.empty) (Js.Map.values byRepo) ->
  Forall (fun s => s = Js.StringSet.empty)
    (Js.Map.values (AzureDevOps.trackRepositories repoStats byRepo commit)).
Proof.
  unfold AzureDevOps.trackRepositories. generalize (Js.Map.keys repoStats).
  intros ks. revert byRepo. induction ks as [|k ks IH]; intros byRepo Hm; simpl; [done|].
  apply IH. destruct (Js.Map.has k byRepo); simpl; [done|]. by apply values_set.
Qed.

Lemma contributorsByRepo_empty repoStats cs byRepo :
  Forall (fun s => s = Js.StringSet.empty) (Js.Map.values byRepo) ->
  Forall (fun s => s = Js.StringSet.empty)
    (Js.Map.values (foldl (AzureDevOps.trackRepositories repoStats) byRepo cs)).
Proof.
  revert byRepo. induction cs as [|c cs IH]; intros byRepo Hm; simpl; [done|].
  by apply IH, trackRepositories_empty.
Qed.

Lemma repositoryStatsMap_entries cs (repositories : list Repository) :
  AzureDevOps.repositoryStatsMap cs repositories
  = map repoEntry (Js.StringSet.ofList (map repository_name repositories)).
Proof.
  unfold AzureDevOps.repositoryStatsMap. cbv zeta.
  pose proof (repoStats_entries repositories []) as Hstats.
  change (map repoEntry []) with (@Js.Map.empty RepositoryStats) in Hstats.
  rewrite Hstats. clear Hstats.
  change (addAll [] (map repository_name repositories))
    with (Js.StringSet.ofList (map repository_name repositories)).
  set (names := Js.StringSet.ofList (map repository_name repositories)).
  pose proof (contributorsByRepo_empty (map repoEntry names) cs Js.Map.empty
                ltac:(constructor)) as Hempty.
  revert Hempty. unfold Js.Map.entries.
  generalize (foldl (AzureDevOps.trackRepositories (map repoEntry names)) Js.Map.empty cs).
  intros byRepo Hempty. induction byRepo as [|[k s] byRepo IH]; simpl; [done|].
  apply Forall_cons in Hempty as [Hs Hempty]. simpl in Hs. subst s.
  destruct (Js.Map.has k (map repoEntry names)); [|by apply IH].
  rewrite update_same; [by apply IH|].
  apply List.Forall_forall. intros v Hv. unfold Js.Map.values in Hv.
  rewrite map_map in Hv. apply in_map_iff in Hv as (n & <- & _). done.
Qed.

Lemma repositories_in_order (l : list RepositoryStats) :
  Forall (fun r => repo_commits r = 0) l -> Js.sort AzureDevOps.byRepoCommits l = l.
Proof.
  intros Hl. apply sort_sorted_id.
  induction Hl as [|x l Hx Hl IH]; constructor; [done|].
  destruct Hl as [|y l Hy _]; constructor.
  unfold inOrder, AzureDevOps.byRepoCommits. lia.
Qed.

(** X14.  [aggregateRepositoryStats] reads neither the commits nor the
    pull requests: whatever they are, it returns the first ten distinct
    repository names, in the order of the repository list, each with 0
    commits, 0 pull requests and 0 contributors. *)
Theorem repository_stats_count_nothing :
  forall (cs : list AzureDevOpsCommit) (prs : list AzureDevOpsPullRequest)
         (repositories : list Repository),
    AzureDevOps.aggregateRepositoryStats cs prs repositories
    = map AzureDevOps.newRepositoryStats
          (take 10 (Js.StringSet.ofList (map repository_name repositories)))
    /\ Forall (fun r => repo_commits r = 0 /\ repo_pullRequests r = 0
                        /\ repo_contributors r = 0)
              (AzureDevOps.aggregateRepositoryStats cs prs repositories).
Proof.
  intros cs prs repositories.
  assert (Heq : AzureDevOps.aggregateRepositoryStats cs prs repositories
                = map AzureDevOps.newRepositoryStats
                    (take 10 (Js.StringSet.ofList (map repository_name repositories)))).
  { unfold AzureDevOps.aggregateRepositoryStats.
    rewrite repositoryStatsMap_entries. unfold Js.Map.values. rewrite map_map.
    change (map (fun x => snd (repoEntry x)))
      with (map AzureDevOps.newRepositoryStats).
    rewrite repositories_in_order, firstn_map; [done|].
    apply List.Forall_forall. intros r Hr. by apply in_map_iff in Hr as (n & <- & _). }
  split; [done|]. rewrite Heq. apply List.Forall_forall. intros r Hr.
  by apply in_map_iff in Hr as (n & <- & _).
Qed.

(** *** Milestones drawn from the commits *)

Section CommitMilestones.
Context `{Runtime}.

Definition timeOf (c : AzureDevOpsCommit) : option Z :=
  Date_getTime (author_date (author c)).

Definition timed (c : AzureDevOpsCommit) : Prop := is_Some (timeOf c).

(** Both commits carry a date, and [a]'s is not the later one. *)
Definition notLater (a b : AzureDevOpsCommit) : Prop :=
  exists ta tb, timeOf a = Some ta /\ timeOf b = Some tb /\ (ta <= tb)%Z.

Lemma byAuthorDate_consistent : consistentOn AzureDevOps.byAuthorDate timed.
Proof.
  intros a b [ta Ha] [tb Hb]. unfold AzureDevOps.byAuthorDate.
  unfold timeOf in Ha, Hb. rewrite Ha, Hb. simpl. lia.
Qed.

Lemma byAuthorDate_notLater a b :
  timed a -> timed b -> inOrder AzureDevOps.byAuthorDate a b -> notLater a b.
Proof.
  intros [ta Ha] [tb Hb]. unfold inOrder, AzureDevOps.byAuthorDate.
  pose proof Ha as Ha'. pose proof Hb as Hb'. unfold timeOf in Ha', Hb'.
  rewrite Ha', Hb'. simpl. intros Hle. exists ta, tb. repeat split; [done..|lia].
Qed.

Lemma notLater_trans a b c : notLater a b -> notLater b c -> notLater a c.
Proof.
  intros (ta & tb & Ha & Hb & Hab) (tb' & tc & Hb' & Hc & Hbc).
  rewrite Hb in Hb'. injection Hb' as <-. exists ta, tc. repeat split; [done..|lia].
Qed.

Lemma commits_by_date cs :
  Forall timed cs -> StronglySorted notLater (Js.sort AzureDevOps.byAuthorDate cs).
Proof.
  intros Hcs. apply Sorted_StronglySorted.
  - intros a b c. apply notLater_trans.
  - apply (Sorted_on timed (inOrder AzureDevOps.byAuthorDate)).
    + apply byAuthorDate_notLater.
    + by apply Forall_sort.
    + by apply (sort_sorted _ timed); [apply byAuthorDate_consistent|].
Qed.
End CommitMilestones.

(** X15.  [generateMilestones] returns one milestone per supplied bound,
    two for the commits when there are any, and one more for 100 pull
    requests within a supplied end: at most five, whatever the work
    items.  When every commit carries a date, "First Commit" is drawn
    from a commit no other commit precedes, and "Halfway Point" from the
    commit at position [n / 2] of the [n] commits in date order, with the
    text "[n / 2] commits so far". *)
Theorem milestones_come_from_bounds_and_commits :
  forall (rt : Runtime) (cs : list AzureDevOpsCommit)
         (prs : list AzureDevOpsPullRequest) (wis : list AzureDevOpsWorkItem)
         (dateFrom dateTo : option string),
    let ms := AzureDevOps.generateMilestones cs prs wis dateFrom dateTo in
    length ms
    = (if supplied dateFrom then 1 else 0)
      + (match cs with [] => 0 | _ => 2 end)
      + (if (100 <=? length prs) && supplied dateTo then 1 else 0)
      + (if supplied dateTo then 1 else 0)
    /\ length ms <= 5
    /\ (cs <> [] -> Forall timed cs ->
        exists byDate first mid,
          Permutation byDate cs
          /\ StronglySorted notLater byDate
          /\ head byDate = Some first
          /\ byDate !! (length cs / 2) = Some mid
          /\ (forall c, In c cs -> notLater first c)
          /\ In (AzureDevOps.firstCommit first) ms
          /\ In (AzureDevOps.halfwayPoint (length cs / 2) mid) ms).
Proof.
  intros rt cs prs wis dateFrom dateTo ms.
  assert (Hsupplied : forall d f,
    length (AzureDevOps.whenSupplied d f) = if supplied d then 1 else 0).
  { intros [s|] f; simpl; [|done]. unfold supplied. by destruct (Js.truthy s). }
  assert (Hcommits : length (AzureDevOps.commitMilestones cs)
                     = match cs with [] => 0 | _ => 2 end).
  { unfold AzureDevOps.commitMilestones.
    pose proof (length_sort AzureDevOps.byAuthorDate cs) as Hlen.
    destruct (Js.sort AzureDevOps.byAuthorDate cs), cs; simpl in *; done. }
  assert (Hlen : length ms
    = (if supplied dateFrom then 1 else 0)
      + (match cs with [] => 0 | _ => 2 end)
      + (if (100 <=? length prs) && supplied dateTo then 1 else 0)
      + (if supplied dateTo then 1 else 0)).
  { unfold ms, AzureDevOps.generateMilestones, AzureDevOps.pushedMilestones.
    rewrite length_sort, !length_app, !Hsupplied, Hcommits.
    destruct (100 <=? length prs); simpl; [rewrite Hsupplied|]; lia. }
  split; [done|]. split.
  { rewrite Hlen. destruct (supplied dateFrom), (supplied dateTo), cs,
      (100 <=? length prs); simpl; lia. }
  intros Hne Htimed.
  pose proof (commits_by_date cs Htimed) as Hsorted.
  pose proof (sort_perm AzureDevOps.byAuthorDate cs) as Hperm.
  assert (Hpushed : forall m, In m (AzureDevOps.commitMilestones cs) -> In m ms).
  { intros m Hm. unfold ms, AzureDevOps.generateMilestones. apply In_sort.
    unfold AzureDevOps.pushedMilestones. rewrite !in_app_iff. auto. }
  unfold AzureDevOps.commitMilestones in Hpushed.
  destruct (Js.sort AzureDevOps.byAuthorDate cs) as [|first rest] eqn:Hs.
  { apply Permutation_nil in Hperm. done. }
  assert (Hsame : length (first :: rest) = length cs) by by rewrite (Permutation_length Hperm).
  rewrite Hsame in Hpushed.
  assert (Hmid : length cs / 2 < length (first :: rest)).
  { rewrite Hsame. apply Nat.div_lt; [|lia]. destruct cs; [done|simpl; lia]. }
  exists (first :: rest), first, (nth (length cs / 2) (first :: rest) first).
  split; [done|]. split; [done|]. split; [done|]. split.
  { destruct (lookup_lt_is_Some_2 _ _ Hmid) as [c Hc].
    by rewrite nth_lookup, Hc. }
  split.
  - intros c Hc. apply (Permutation_in _ (Permutation_sym Hperm)) in Hc.
    destruct Hc as [<-|Hc].
    + rewrite List.Forall_forall in Htimed.
      destruct (Htimed first) as [t Ht].
      { apply (Permutation_in _ Hperm). by left. }
      exists t, t. repeat split; [done..|lia].
    + apply StronglySorted_inv in Hsorted as [_ Hall].
      rewrite List.Forall_forall in Hall. by apply Hall.
  - split; apply Hpushed; simpl; auto.
Qed.

Lemma milestones_come_from_bounds_and_commits_witness :
  exists byDate first mid,
    Permutation byDate twoContributors
    /\ StronglySorted (@notLater IsoUtc) byDate
    /\ head byDate = Some first
    /\ byDate !! (length twoContributors / 2) = Some mid
    /\ (forall c, In c twoContributors -> @notLater IsoUtc first c)
    /\ In (AzureDevOps.firstCommit first)
          (@AzureDevOps.generateMilestones IsoUtc twoContributors [] []
             (Some "2024-03-01") None)
    /\ In (AzureDevOps.halfwayPoint (length twoContributors / 2) mid)
          (@AzureDevOps.generateMilestones IsoUtc twoContributors [] []
             (Some "2024-03-01") None).
Proof.
  apply (milestones_come_from_bounds_and_commits IsoUtc twoContributors [] []
           (Some "2024-03-01") None).
  - discriminate.
  - repeat constructor; vm_compute; eexists; reflexivity.
Defined.

(** *** Highlights: the sentences about work items *)

Lemma count_bump (k : string) (m : Js.Map.t nat) :
  Js.Map.set k (default 0 (Js.Map.get k m) + 1) m = bump (fun _ => 0) S k m.
Proof.
  unfold bump, getOrCreate, Js.Map.set, Js.Map.has.
  destruct (Js.Map.get k m) as [v|] eqn:Hget; simpl.
  - rewrite Nat.add_1_r. by apply (update_stored S).
  - symmetry. apply update_snoc. unfold Js.Map.has. by rewrite Hget.
Qed.

(** The key a work item is counted under: its type, ["Unknown"] for the
    empty one. *)
Definition typeKey (wi : AzureDevOpsWorkItem) : string :=
  Js.orString (Some (System_WorkItemType wi)) "Unknown".

Definition ofType (t : string) (wis : list AzureDevOpsWorkItem) : nat :=
  length (List.filter (fun wi => String.eqb (System_WorkItemType wi) t) wis).

Lemma typeKey_named t wi :
  Js.truthy t = true -> t <> "Unknown" ->
  String.eqb (typeKey wi) t = String.eqb (System_WorkItemType wi) t.
Proof.
  intros Ht Hu. unfold typeKey, Js.orString, Js.truthy in *.
  destruct (String.eqb (System_WorkItemType wi) "") eqn:He; cbn [negb]; [|done].
  apply String.eqb_eq in He. rewrite He.
  transitivity false; [apply String.eqb_neq; congruence|].
  symmetry. apply String.eqb_neq. intros <-. discriminate Ht.
Qed.

Lemma get_countType t wis m :
  Js.truthy t = true -> t <> "Unknown" ->
  default 0 (Js.Map.get t (foldl countType m wis))
  = default 0 (Js.Map.get t m) + ofType t wis.
Proof.
  intros Ht Hu. revert m. induction wis as [|wi wis IH]; intros m; simpl.
  - unfold ofType. simpl. lia.
  - rewrite IH. unfold countType. fold (typeKey wi). rewrite count_bump, get_bump.
    unfold ofType. simpl. rewrite <- (typeKey_named t wi Ht Hu).
    rewrite (String.eqb_sym (typeKey wi) t).
    destruct (String.eqb_spec t (typeKey wi)) as [->|]; simpl; [|done].
    destruct (Js.Map.get (typeKey wi) m); simpl; lia.
Qed.

Lemma getOr_countType t d wis :
  Js.truthy t = true -> t <> "Unknown" ->
  getOr (foldl countType Js.Map.empty wis) t d
  = if Nat.eqb (ofType t wis) 0 then d else ofType t wis.
Proof.
  intros Ht Hu. pose proof (get_countType t wis Js.Map.empty Ht Hu) as Hget.
  unfold getOr. destruct (Js.Map.get t (foldl countType Js.Map.empty wis)) as [n|];
    simpl in Hget; rewrite <- Hget; done.
Qed.

Lemma filter_Is_true {A} (b : A -> bool) (l : list A) :
  filter (fun x => b x) l = List.filter b l.
Proof.
  induction l as [|x l IH]; [done|]. rewrite filter_cons. simpl.
  destruct (b x); simpl; by rewrite IH.
Qed.

Lemma lookup_pushIf cond text highlights i s :
  highlights !! i = Some s -> pushIf cond text highlights !! i = Some s.
Proof.
  intros Hi. unfold pushIf. destruct cond; [|done]. by apply lookup_app_l_Some.
Qed.

Lemma lookup_pushed text highlights :
  pushIf true text highlights !! length highlights = Some text.
Proof. unfold pushIf. by rewrite list_lookup_middle. Qed.

Lemma In_take_lookup {A} (l : list A) n i x :
  l !! i = Some x -> i < n -> In x (take n l).
Proof.
  intros Hi Hn. apply list_elem_of_In, list_elem_of_lookup. exists i.
  by rewrite lookup_take_lt.
Qed.

(** X16.  In the highlights of both revisions, the bug sentence reads
    "[f] bugs squashed out of [b] total" when [f > 0] bugs are Done, [b]
    being the number of work items of type Bug ([f <= b]), and "[b] bugs
    tracked" when none is Done but there are bugs; "features delivered"
    counts the work items of type Feature and, only when there is none,
    those of type User Story.  The sentences are never cut off by the
    final [slice]. *)
Theorem work_item_highlights_count_by_type :
  forall (rt : Runtime) (cs : list AzureDevOpsCommit)
         (prs : list AzureDevOpsPullRequest) (wis : list AzureDevOpsWorkItem)
         (prComments : nat) (codeChanges : CodeChanges) (pattern : ActivityPattern)
         (hs : list string),
    hs = AzureDevOps.generateHighlights cs prs wis prComments codeChanges pattern
    \/ hs = Part001.generateHighlights cs prs wis prComments ->
    let bugs := ofType "Bug" wis in
    let fixed := length (List.filter isDoneBug wis) in
    let features :=
      if Nat.eqb (ofType "Feature" wis) 0
      then ofType "User Story" wis else ofType "Feature" wis in
    fixed <= bugs
    /\ (0 < fixed ->
        In (Js.natToString fixed +:+ " bugs squashed out of "
              +:+ Js.natToString bugs +:+ " total") hs)
    /\ (fixed = 0 -> 0 < bugs -> In (Js.natToString bugs +:+ " bugs tracked") hs)
    /\ (0 < features -> In (Js.natToString features +:+ " features delivered") hs).
Proof.
  intros rt cs prs wis prComments codeChanges pattern hs Hhs bugs fixed features.
  assert (Hbugs : getOr (foldl countType Js.Map.empty wis) "Bug" 0 = bugs).
  { rewrite getOr_countType by done. fold bugs. by destruct bugs. }
  assert (Hfeatures : getOr (foldl countType Js.Map.empty wis) "Feature"
                        (getOr (foldl countType Js.Map.empty wis) "User Story" 0)
                      = features).
  { rewrite !getOr_countType by done. unfold features.
    destruct (ofType "Feature" wis); simpl; [|done].
    by destruct (ofType "User Story" wis). }
  split; [apply filter_length_le|].
  destruct Hhs as [-> | ->].
  - unfold AzureDevOps.generateHighlights, AzureDevOps.candidateHighlights.
    cbv zeta. rewrite Hfeatures, Hbugs, (filter_Is_true isDoneBug). fold fixed.
    match goal with
    | |- context [bugHighlight fixed bugs ?h] =>
        assert (Hearlier : length h <= 4) by count_pushes; set (earlier := h) in *
    end.
    assert (Hbug : length (bugHighlight fixed bugs earlier) <= 5)
      by by apply bugHighlight_le.
    split; [|split].
    + intros Hfixed. apply (In_take_lookup _ 10 (length earlier)); [|lia].
      do 6 apply lookup_pushIf. unfold bugHighlight.
      destruct (Nat.ltb_spec 0 fixed); [|lia]. by rewrite list_lookup_middle.
    + intros Hnone Hsome. apply (In_take_lookup _ 10 (length earlier)); [|lia].
      do 6 apply lookup_pushIf. unfold bugHighlight. rewrite Hnone.
      destruct (Nat.ltb_spec 0 bugs); [|lia]. apply lookup_pushed.
    + intros Hsome.
      apply (In_take_lookup _ 10 (length (bugHighlight fixed bugs earlier))); [|lia].
      do 5 apply lookup_pushIf.
      destruct (Nat.ltb_spec 0 features); [|lia]. apply lookup_pushed.
  - unfold Part001.generateHighlights, Part001.candidateHighlights.
    cbv zeta. rewrite Hfeatures, Hbugs, (filter_Is_true isDoneBug). fold fixed.
    match goal with
    | |- context [bugHighlight fixed bugs ?h] =>
        assert (Hearlier : length h <= 3) by count_pushes; set (earlier := h) in *
    end.
    assert (Hbug : length (bugHighlight fixed bugs earlier) <= 4)
      by by apply bugHighlight_le.
    split; [|split].
    + intros Hfixed. apply (In_take_lookup _ 8 (length earlier)); [|lia].
      do 5 apply lookup_pushIf. unfold bugHighlight.
      destruct (Nat.ltb_spec 0 fixed); [|lia]. by rewrite list_lookup_middle.
    + intros Hnone Hsome. apply (In_take_lookup _ 8 (length earlier)); [|lia].
      do 5 apply lookup_pushIf. unfold bugHighlight. rewrite Hnone.
      destruct (Nat.ltb_spec 0 bugs); [|lia]. apply lookup_pushed.
    + intros Hsome.
      apply (In_take_lookup _ 8 (length (bugHighlight fixed bugs earlier))); [|lia].
      do 4 apply lookup_pushIf.
      destruct (Nat.ltb_spec 0 features); [|lia]. apply lookup_pushed.
Qed.

Lemma work_item_highlights_count_by_type_witness :
  length (List.filter isDoneBug busyItems) <= ofType "Bug" busyItems.
Proof.
  assert (Hcurrent :
    @AzureDevOps.generateHighlights IsoUtc [] [] busyItems 0
      (AzureDevOps.aggregateCodeChanges [])
      (@AzureDevOps.calculateActivityPattern IsoUtc [])
    = @AzureDevOps.generateHighlights IsoUtc [] [] busyItems 0
        (AzureDevOps.aggregateCodeChanges [])
        (@AzureDevOps.calculateActivityPattern IsoUtc [])
    \/ @AzureDevOps.generateHighlights IsoUtc [] [] busyItems 0
         (AzureDevOps.aggregateCodeChanges [])
         (@AzureDevOps.calculateActivityPattern IsoUtc [])
       = @Part001.generateHighlights IsoUtc [] [] busyItems 0).
  { left. reflexivity. }
  exact (proj1 (work_item_highlights_count_by_type IsoUtc [] [] busyItems 0
                  (AzureDevOps.aggregateCodeChanges [])
                  (@AzureDevOps.calculateActivityPattern IsoUtc []) _ Hcurrent)).
Defined.

(** *** Highlights: what the final [slice] drops *)

Lemma take_snoc_full {A} (l : list A) x n :
  length l <= n ->
  take n (l ++ [x]) = (if Nat.eqb (length l) n then l else l ++ [x]).
Proof.
  intros Hn. destruct (Nat.eqb_spec (length l) n) as [<-|Hne].
  - by rewrite take_app_length.
  - apply take_ge. rewrite length_app. simpl. lia.
Qed.

(** X17.  The final [slice] of [generateHighlights] drops at most one
    sentence, and always the last candidate: in the current revision the
    "Peak productivity" sentence, exactly when the ten other sentences
    all apply; in the earlier revision the "team members contributed"
    sentence, exactly when the eight other sentences all apply.  Every
    other sentence that applies is reported, in the order of the code. *)
Theorem only_the_last_highlight_is_dropped :
  forall (rt : Runtime) (cs : list AzureDevOpsCommit)
         (prs : list AzureDevOpsPullRequest) (wis : list AzureDevOpsWorkItem)
         (prComments : nat) (codeChanges : CodeChanges) (pattern : ActivityPattern),
    (exists others,
        length others <= 10
        /\ AzureDevOps.candidateHighlights cs prs wis prComments codeChanges pattern
           = pushIf (Js.truthy (peakProductivityTime pattern))
               (AzureDevOps.peakHighlight pattern) others
        /\ AzureDevOps.generateHighlights cs prs wis prComments codeChanges pattern
           = if Js.truthy (peakProductivityTime pattern) && negb (Nat.eqb (length others) 10)
             then others ++ [AzureDevOps.peakHighlight pattern] else others)
    /\ (exists others,
           length others <= 8
           /\ Part001.candidateHighlights cs prs wis prComments
              = pushIf (0 <? uniqueContributors cs)
                  (Js.natToString (uniqueContributors cs) +:+ " team members contributed")
                  others
           /\ Part001.generateHighlights cs prs wis prComments
              = if (0 <? uniqueContributors cs) && negb (Nat.eqb (length others) 8)
                then others
                       ++ [Js.natToString (uniqueContributors cs)
                             +:+ " team members contributed"]
                else others).
Proof.
  intros rt cs prs wis prComments codeChanges pattern. split.
  - unfold AzureDevOps.generateHighlights, AzureDevOps.candidateHighlights. cbv zeta.
    match goal with
    | |- context [pushIf (Js.truthy _) _ ?h] =>
        assert (Hlen : length h <= 10) by count_pushes; set (others := h) in *
    end.
    exists others. split; [done|]. split; [done|].
    destruct (Js.truthy (peakProductivityTime pattern)); unfold pushIf; cbn [andb].
    + rewrite take_snoc_full by done. by destruct (Nat.eqb (length others) 10).
    + by apply take_ge.
  - unfold Part001.generateHighlights, Part001.candidateHighlights. cbv zeta.
    match goal with
    | |- context [pushIf (0 <? uniqueContributors cs) _ ?h] =>
        assert (Hlen : length h <= 8) by count_pushes; set (others := h) in *
    end.
    exists others. split; [done|]. split; [done|].
    destruct (0 <? uniqueContributors cs); unfold pushIf; cbn [andb].
    + rewrite take_snoc_full by done. by destruct (Nat.eqb (length others) 8).
    + by apply take_ge.
Qed.

(** *** Pull-request merge times *)

Section MergeTimes.
Context `{Runtime}.

(** The merge time a pull request contributes, if it contributes one:
    it is completed, has both dates, and took more than 0 and less than
    8760 hours. *)
Definition countedMergeTime (pr : AzureDevOpsPullRequest) : option Q :=
  if isCompleted pr && supplied (closedDate pr) && Js.truthy (creationDate pr) then
    match AzureDevOps.hoursToMerge pr with
    | Some h => if negb (Qle_bool h 0) && negb (Qle_bool 8760 h) then Some h else None
    | None => None
    end
  else None.

Definition mergeTimesOf (who : string) (prs : list AzureDevOpsPullRequest) : list Q :=
  omap countedMergeTime (List.filter (fun pr => String.eqb (createdBy pr) who) prs).

Lemma recordMergeTime_counted st pr :
  AzureDevOps.recordMergeTime st pr
  = match countedMergeTime pr with
    | Some h => (fst st ++ [h],
                 bump (fun _ => []) (fun l => l ++ [h]) (createdBy pr) (snd st))
    | None => st
    end.
Proof.
  destruct st as [mergeTimes byAuthor]. unfold AzureDevOps.recordMergeTime, countedMergeTime.
  destruct (isCompleted pr && supplied (closedDate pr) && Js.truthy (creationDate pr));
    [|done].
  destruct (AzureDevOps.hoursToMerge pr) as [h|]; [|done].
  by destruct (negb (Qle_bool h 0) && negb (Qle_bool 8760 h)).
Qed.

Lemma mergeTimes_all prs st :
  fst (foldl AzureDevOps.recordMergeTime st prs) = fst st ++ omap countedMergeTime prs.
Proof.
  revert st. induction prs as [|pr prs IH]; intros st; simpl; [by rewrite app_nil_r|].
  rewrite IH, recordMergeTime_counted.
  destruct (countedMergeTime pr); simpl; [by rewrite <- app_assoc|done].
Qed.

Lemma mergeTimes_byAuthor who prs st :
  Js.Map.get who (snd (foldl AzureDevOps.recordMergeTime st prs))
  = match Js.Map.get who (snd st), mergeTimesOf who prs with
    | Some l, times => Some (l ++ times)
    | None, [] => None
    | None, times => Some times
    end.
Proof.
  revert st. induction prs as [|pr prs IH]; intros st; simpl.
  - unfold mergeTimesOf. simpl. destruct (Js.Map.get who (snd st)); [|done].
    by rewrite app_nil_r.
  - rewrite IH, recordMergeTime_counted. unfold mergeTimesOf. simpl.
    rewrite (String.eqb_sym (createdBy pr) who).
    destruct (countedMergeTime pr) as [h|] eqn:Hh; simpl.
    + rewrite get_bump. destruct (String.eqb_spec who (createdBy pr)) as [->|]; simpl.
      * rewrite Hh. destruct (Js.Map.get (createdBy pr) (snd st)); simpl; [|done].
        by rewrite <- app_assoc.
      * done.
    + destruct (String.eqb who (createdBy pr)); simpl; [by rewrite Hh|done].
Qed.

Definition withinYear (h : Q) : Prop := (0 < h /\ h < 8760)%Q.

Lemma countedMergeTime_withinYear pr h : countedMergeTime pr = Some h -> withinYear h.
Proof.
  unfold countedMergeTime.
  destruct (isCompleted pr && supplied (closedDate pr) && Js.truthy (creationDate pr));
    [|done].
  destruct (AzureDevOps.hoursToMerge pr) as [h'|]; [|done].
  destruct (Qle_bool h' 0) eqn:Hlo; [done|].
  destruct (Qle_bool 8760 h') eqn:Hhi; [done|]. simpl. intros [= <-].
  split; apply Qnot_le_lt; intros Hle; apply Qle_bool_iff in Hle; congruence.
Qed.

Lemma sumQ_bounds (l : list Q) (acc : Q) :
  Forall withinYear l ->
  (acc <= foldl Qplus acc l
   /\ foldl Qplus acc l <= acc + 8760 * inject_Z (Z.of_nat (length l)))%Q.
Proof.
  intros Hl. revert acc. induction Hl as [|h l [Hlo Hhi] Hl IH]; intros acc.
  - cbn [foldl length]. change (inject_Z (Z.of_nat 0)) with 0%Q. split; lra.
  - cbn [foldl length]. destruct (IH (acc + h)%Q) as [IH1 IH2].
    rewrite Nat2Z.inj_succ. unfold Z.succ. rewrite inject_Z_plus.
    change (inject_Z 1) with 1%Q. split; lra.
Qed.

Lemma average_within_year (l : list Q) :
  l <> [] -> Forall withinYear l ->
  (0 <= Js.Math_round (AzureDevOps.sumQ l / inject_Z (Z.of_nat (length l))) <= 8760)%Z.
Proof.
  intros Hne Hl. destruct (sumQ_bounds l 0 Hl) as [Hlo Hhi].
  fold (AzureDevOps.sumQ l) in Hlo, Hhi.
  set (n := inject_Z (Z.of_nat (length l))) in *.
  assert (Hn : (0 < n)%Q).
  { unfold n. change 0%Q with (inject_Z 0). rewrite <- Zlt_Qlt.
    destruct l; [done|simpl; lia]. }
  assert (Havg : (0 <= AzureDevOps.sumQ l / n /\ AzureDevOps.sumQ l / n <= 8760)%Q).
  { split.
    - apply Qle_shift_div_l; [done|]. lra.
    - apply Qle_shift_div_r; [done|]. lra. }
  unfold Js.Math_round. split.
  - change 0%Z with (Qfloor 0). apply Qfloor_resp_le. lra.
  - change 8760%Z with (Qfloor (8760 + (1 # 2))). apply Qfloor_resp_le. lra.
Qed.
End MergeTimes.

(** X18.  [calculatePrMergeStats] counts a pull request when it is
    completed, carries both dates and took more than 0 and less than 8760
    hours to merge.  Its per-author map holds, for each author of at
    least one counted pull request, that author's merge times in the
    order of the list, and no entry for anybody else; every time recorded
    lies strictly between 0 and 8760 hours; the rounded average lies
    between 0 and 8760, and is 0 when no pull request is counted. *)
Theorem merge_times_are_those_of_counted_pull_requests :
  forall (rt : Runtime) (prs : list AzureDevOpsPullRequest),
    let stats := AzureDevOps.calculatePrMergeStats prs in
    (forall who,
        Js.Map.get who (mergeTimeByAuthor stats)
        = match mergeTimesOf who prs with [] => None | times => Some times end)
    /\ (forall who times h,
           Js.Map.get who (mergeTimeByAuthor stats) = Some times -> In h times ->
           withinYear h
           /\ exists pr, In pr prs /\ createdBy pr = who /\ isCompleted pr = true
                         /\ AzureDevOps.hoursToMerge pr = Some h)
    /\ (0 <= avgMergeTimeHours stats <= 8760)%Z
    /\ (omap countedMergeTime prs = [] -> avgMergeTimeHours stats = 0%Z).
Proof.
  intros rt prs stats.
  pose proof (mergeTimes_all prs ([], Js.Map.empty)) as Hall.
  pose proof (fun who => mergeTimes_byAuthor who prs ([], Js.Map.empty)) as Hby.
  unfold stats, AzureDevOps.calculatePrMergeStats.
  destruct (foldl AzureDevOps.recordMergeTime ([], Js.Map.empty) prs)
    as [mergeTimes byAuthor].
  simpl in Hall, Hby. cbn [mergeTimeByAuthor avgMergeTimeHours].
  assert (Hget : forall who,
    Js.Map.get who byAuthor
    = match mergeTimesOf who prs with [] => None | times => Some times end).
  { intros who. rewrite Hby. by destruct (mergeTimesOf who prs). }
  split; [done|]. split; [|split].
  - intros who times h Htimes Hh. rewrite Hget in Htimes.
    assert (Hin : In h (mergeTimesOf who prs)).
    { destruct (mergeTimesOf who prs); [done|]. by injection Htimes as <-. }
    apply list_elem_of_In, list_elem_of_omap in Hin as (pr & Hpr & Hcounted).
    apply list_elem_of_In, filter_In in Hpr as [Hpr Hwho].
    split; [by apply (countedMergeTime_withinYear pr)|].
    exists pr. split; [done|]. split; [by apply String.eqb_eq|].
    unfold countedMergeTime in Hcounted.
    destruct (isCompleted pr); [|done]. split; [done|].
    cbn [andb] in Hcounted.
    destruct (supplied (closedDate pr) && Js.truthy (creationDate pr)); [|done].
    destruct (AzureDevOps.hoursToMerge pr) as [h'|]; [|done].
    destruct (negb (Qle_bool h' 0) && negb (Qle_bool 8760 h')); [|done].
    by injection Hcounted as <-.
  - destruct mergeTimes as [|t ts] eqn:Hts; [lia|]. rewrite <- Hts.
    apply average_within_year; [by rewrite Hts|].
    rewrite Hts, Hall. apply List.Forall_forall. intros h Hh.
    apply list_elem_of_In, list_elem_of_omap in Hh as (pr & _ & Hcounted).
    by apply (countedMergeTime_withinYear pr).
  - intros Hnone. rewrite Hall, Hnone. done.
Qed.

(** *** Code changes *)

Definition changedPath (change : FileChange) : option string :=
  match item_path change with
  | Some p => if Js.truthy p then Some p else None
  | None => None
  end.

Definition addsContent (change : FileChange) : bool :=
  String.eqb (changeType change) "add" || String.eqb (changeType change) "edit".

Definition contentAdded (fileChanges : list FileChange) : Z :=
  foldr Z.add 0%Z
    (map (fun change => Js.orZero (item_contentLength change))
         (List.filter addsContent fileChanges)).

Lemma codeChanges_loop fileChanges (added : Z) (files : Js.StringSet.t) :
  foldl (fun st change =>
           let files := match item_path change with
                        | Some p => if Js.truthy p then Js.StringSet.add p (snd st)
                                    else snd st
                        | None => snd st
                        end in
           let added :=
             if String.eqb (changeType change) "add"
                || String.eqb (changeType change) "edit"
             then (fst st + Js.orZero (item_contentLength change))%Z
             else fst st in
           (added, files))
        (added, files) fileChanges
  = ((added + contentAdded fileChanges)%Z, addAll files (omap changedPath fileChanges)).
Proof.
  revert added files. induction fileChanges as [|change fcs IH]; intros added files.
  - unfold contentAdded. simpl. f_equal. lia.
  - cbn [foldl]. cbv zeta. cbn [fst snd]. rewrite IH. clear IH.
    assert (Hadded : contentAdded (change :: fcs)
                     = ((if addsContent change
                         then Js.orZero (item_contentLength change) else 0)
                        + contentAdded fcs)%Z).
    { unfold contentAdded. simpl. by destruct (addsContent change). }
    assert (Hfiles : omap changedPath (change :: fcs)
                     = match changedPath change with
                       | Some p => p :: omap changedPath fcs
                       | None => omap changedPath fcs
                       end) by done.
    rewrite Hadded, Hfiles. unfold addsContent, changedPath.
    destruct (item_path change) as [p|]; [destruct (Js.truthy p)|];
      destruct (String.eqb (changeType change) "add"
                || String.eqb (changeType change) "edit");
      cbn [addAll foldl]; f_equal; lia.
Qed.

(** X19.  [aggregateCodeChanges] never reports a deleted line;
    [filesChanged] is the number of distinct non-empty paths among the
    changes (at most the number of changes), and [linesAdded] is the sum
    of the content lengths of the changes of type "add" or "edit" (a
    missing length counting 0), so it is not negative when no length
    is. *)
Theorem code_changes_count_paths_and_added_content :
  forall (fileChanges : list FileChange),
    let changes := AzureDevOps.aggregateCodeChanges fileChanges in
    cc_linesDeleted changes = 0%Z
    /\ cc_filesChanged changes
       = length (Js.StringSet.ofList (omap changedPath fileChanges))
    /\ NoDup (Js.StringSet.ofList (omap changedPath fileChanges))
    /\ cc_filesChanged changes <= length fileChanges
    /\ cc_linesAdded changes = contentAdded fileChanges
    /\ (Forall (fun change => (0 <= Js.orZero (item_contentLength change))%Z) fileChanges ->
        (0 <= cc_linesAdded changes)%Z).
Proof.
  intros fileChanges changes.
  assert (Heq : changes
                = {| cc_linesAdded := contentAdded fileChanges; cc_linesDeleted := 0;
                     cc_filesChanged :=
                       length (Js.StringSet.ofList (omap changedPath fileChanges)) |}).
  { unfold changes, AzureDevOps.aggregateCodeChanges. by rewrite codeChanges_loop. }
  rewrite Heq. cbn [cc_linesAdded cc_linesDeleted cc_filesChanged].
  split; [done|]. split; [done|]. split; [apply NoDup_addAll; constructor|].
  split; [|split; [done|]].
  - etransitivity; [apply length_addAll_le|]. simpl. clear.
    induction fileChanges as [|change fcs IH]; [done|].
    change (omap changedPath (change :: fcs))
      with (match changedPath change with
            | Some p => p :: omap changedPath fcs
            | None => omap changedPath fcs
            end).
    destruct (changedPath change); simpl; lia.
  - clear. intros Hall. unfold contentAdded.
    induction Hall as [|change fcs Hc Hall IH]; simpl; [done|].
    destruct (addsContent change); simpl; lia.
Qed.

Definition pagesChange : FileChange :=
  {| item_path := Some "/pages/index.ts"; changeType := "edit";
     item_contentLength := Some 120%Z |}.

Lemma code_changes_count_paths_and_added_content_witness :
  (0 <= cc_linesAdded (AzureDevOps.aggregateCodeChanges [pagesChange; pagesChange]))%Z.
Proof.
  apply (code_changes_count_paths_and_added_content [pagesChange; pagesChange]).
  repeat constructor; vm_compute; discriminate.
Defined.

(** *** The derived fields of a contributor: favourite hour, merge time *)

Section DerivedFields.
Context `{Runtime}.















End DerivedFields.




(** *** The highlights of the summary document *)

Lemma lookup_bugHighlight fixed bugs highlights i s :
  highlights !! i = Some s -> bugHighlight fixed bugs highlights !! i = Some s.
Proof.
  intros Hi. unfold bugHighlight. destruct (0 <? fixed).
  - by apply lookup_app_l_Some.
  - by apply lookup_pushIf.
Qed.

Lemma peakOf_truthy h : Js.truthy (AzureDevOps.peakOf h) = true.
Proof.
  unfold AzureDevOps.peakOf.
  by destruct ((5 <=? h) && (h <? 12))%Z, ((12 <=? h) && (h <? 17))%Z,
    ((17 <=? h) && (h <? 21))%Z.
Qed.

Section SummaryHighlights.
Context `{Runtime}.

Lemma pattern_has_peak cs :
  Js.truthy (peakProductivityTime (AzureDevOps.calculateActivityPattern cs)) = true.
Proof. rewrite calculateActivityPattern_fields. apply peakOf_truthy. Qed.

Lemma current_highlights_shape cs prs wis prComments codeChanges pattern :
  Js.truthy (peakProductivityTime pattern) = true ->
  exists others,
    length others <= 10
    /\ AzureDevOps.generateHighlights cs prs wis prComments codeChanges pattern
       = if Nat.eqb (length others) 10
         then others else others ++ [AzureDevOps.peakHighlight pattern].
Proof.
  intros Hpeak.
  unfold AzureDevOps.generateHighlights, AzureDevOps.candidateHighlights. cbv zeta.
  rewrite Hpeak.
  match goal with
  | |- context [pushIf true _ ?h] =>
      assert (Hlen : length h <= 10) by count_pushes; set (others := h) in *
  end.
  exists others. split; [done|]. by rewrite pushIf_true, take_snoc_full.
Qed.
End SummaryHighlights.

(** X21.  The summary document of the current revision always carries
    between one and ten highlights.  Unless all ten are taken by other
    sentences, the last one is the "Peak productivity" sentence of the
    activity pattern of the commits; when there are commits the first
    one is the commit count; and whenever an added or edited file
    carries content, the "files modified" sentence is among them. *)
Theorem summary_always_carries_highlights :
  forall (rt : Runtime) (dateFrom dateTo : option string)
         (cs : list AzureDevOpsCommit) (prs : list AzureDevOpsPullRequest)
         (wis : list AzureDevOpsWorkItem) (prComments : nat)
         (fileChanges : list FileChange),
    let doc :=
      AzureDevOps.fetchAzureDevOpsData dateFrom dateTo cs prs wis prComments fileChanges in
    let pattern := AzureDevOps.calculateActivityPattern cs in
    1 <= length (highlights doc) <= 10
    /\ activityPattern doc = Some pattern
    /\ (length (highlights doc) < 10 ->
        last (highlights doc) = Some (AzureDevOps.peakHighlight pattern))
    /\ (cs <> [] ->
        head (highlights doc)
        = Some (toLocaleString (Z.of_nat (length cs)) +:+ " commits pushed"))
    /\ ((0 < contentAdded fileChanges)%Z ->
        In (toLocaleString
              (Z.of_nat (length (Js.StringSet.ofList (omap changedPath fileChanges))))
              +:+ " files modified")
           (highlights doc)).
Proof.
  intros rt dateFrom dateTo cs prs wis prComments fileChanges doc pattern.
  assert (Hdoc : highlights doc
                 = AzureDevOps.generateHighlights cs prs wis prComments
                     (AzureDevOps.aggregateCodeChanges fileChanges) pattern) by done.
  destruct (current_highlights_shape cs prs wis prComments
              (AzureDevOps.aggregateCodeChanges fileChanges) pattern
              (pattern_has_peak cs)) as (others & Hlen & Hshape).
  assert (Hchanges : AzureDevOps.aggregateCodeChanges fileChanges
            = {| cc_linesAdded := contentAdded fileChanges; cc_linesDeleted := 0;
                 cc_filesChanged :=
                   length (Js.StringSet.ofList (omap changedPath fileChanges)) |}).
  { unfold AzureDevOps.aggregateCodeChanges. by rewrite codeChanges_loop. }
  split; [|split; [done|split; [|split]]].
  - rewrite Hdoc, Hshape. destruct (Nat.eqb_spec (length others) 10) as [Heq|Hne].
    + lia.
    + rewrite length_app. simpl. lia.
  - rewrite Hdoc, Hshape. destruct (Nat.eqb_spec (length others) 10) as [Heq|Hne].
    + lia.
    + intros _. apply last_snoc.
  - intros Hne. rewrite Hdoc.
    unfold AzureDevOps.generateHighlights, AzureDevOps.candidateHighlights. cbv zeta.
    rewrite head_lookup, lookup_take_lt by lia.
    do 6 apply lookup_pushIf. apply lookup_bugHighlight. do 3 apply lookup_pushIf.
    destruct cs; [done|]. reflexivity.
  - intros Hadded. rewrite Hdoc, Hchanges.
    unfold AzureDevOps.generateHighlights, AzureDevOps.candidateHighlights. cbv zeta.
    cbn [cc_linesAdded cc_linesDeleted cc_filesChanged].
    match goal with
    | |- context [pushIf (_ || _) _ ?h] =>
        assert (Hearlier : length h <= 3) by count_pushes; set (earlier := h) in *
    end.
    apply (In_take_lookup _ 10 (length earlier)); [|lia].
    do 6 apply lookup_pushIf. apply lookup_bugHighlight.
    destruct (Z.ltb_spec 0 (contentAdded fileChanges)); [|lia]. apply lookup_pushed.
Qed.

(** *** Who the rankings of the summary can name *)

Definition rankedNames (t : Top5) : list string :=
  map entry_name
    (mostCommits t ++ mostPullRequestsOpened t ++ mostPullRequestsReviewed t
       ++ mostCommentsWritten t ++ default [] (longestStreaks t)).

Lemma NoDup_map_In_inj {A B} (f : A -> B) (l : list A) a b :
  NoDup (map f l) -> In a l -> In b l -> f a = f b -> a = b.
Proof.
  induction l as [|x l IH]; simpl; [done|].
  intros Hnd Ha Hb Hf. apply NoDup_cons in Hnd as [Hx Hnd].
  destruct Ha as [->|Ha], Hb as [->|Hb]; [done| | |by apply IH].
  - destruct Hx. apply list_elem_of_In. rewrite Hf. by apply in_map.
  - destruct Hx. apply list_elem_of_In. rewrite <- Hf. by apply in_map.
Qed.

Lemma ranking_names (entry : Contributor -> Top5Entry) cmp (listed : list Contributor) n :
  (forall c, entry_name (entry c) = name c) ->
  In n (map entry_name (map entry (take 5 (Js.sort cmp listed)))) ->
  In n (map name listed).
Proof.
  intros Hentry Hn. rewrite map_map in Hn. apply in_map_iff in Hn as (c & <- & Hc).
  rewrite Hentry. apply in_map. by apply In_take, In_sort in Hc.
Qed.

(** X22.  Every ranking of the summary document is computed from the
    contributor list of the document, the ten busiest committers: each
    name a ranking holds is the name of a listed contributor, so a
    contributor who is not among the ten appears in no ranking, however
    many pull requests that contributor opened or reviewed. *)
Theorem rankings_name_only_listed_contributors :
  forall (rt : Runtime) (dateFrom dateTo : option string)
         (cs : list AzureDevOpsCommit) (prs : list AzureDevOpsPullRequest)
         (wis : list AzureDevOpsWorkItem) (prComments : nat)
         (fileChanges : list FileChange),
    let doc :=
      AzureDevOps.fetchAzureDevOpsData dateFrom dateTo cs prs wis prComments fileChanges in
    let all :=
      Js.Map.values
        (AzureDevOps.contributorMap cs prs wis
           (AzureDevOps.calculatePrMergeStats prs) (AzureDevOps.calculateStreaks cs)) in
    (forall n, In n (rankedNames (top5 doc)) -> In n (map name (contributors doc)))
    /\ (forall c, In c all -> ~ In c (contributors doc) ->
                  ~ In (name c) (rankedNames (top5 doc))).
Proof.
  intros rt dateFrom dateTo cs prs wis prComments fileChanges doc all.
  set (listed := contributors doc).
  assert (Hnames : forall n, In n (rankedNames (top5 doc)) -> In n (map name listed)).
  { intros n Hn. unfold rankedNames in Hn. rewrite !map_app, !in_app_iff in Hn.
    destruct Hn as [Hn|[Hn|[Hn|[Hn|Hn]]]].
    - by apply (ranking_names commitsEntry byCommits).
    - by apply (ranking_names pullRequestsOpenedEntry byPullRequestsOpened).
    - by apply (ranking_names pullRequestsReviewedEntry byPullRequestsReviewed).
    - by apply (ranking_names commentsWrittenEntry byCommentsWritten).
    - change (In n (map entry_name
                      (map streakEntry
                         (take 5
                            (filter (fun c => 0 < default 0 (longestStreak c))
                                    (Js.sort byLongestStreak listed)))))) in Hn.
      rewrite map_map in Hn. apply in_map_iff in Hn as (c & <- & Hc).
      apply In_take, list_elem_of_In, list_elem_of_filter in Hc as [_ Hc].
      apply list_elem_of_In, In_sort in Hc.
      change (entry_name (streakEntry c)) with (name c). by apply in_map. }
  split; [done|]. intros c Hc Hout Hranked.
  apply Hnames, in_map_iff in Hranked as (c' & Hname & Hc').
  assert (Hall : In c' all).
  { unfold listed in Hc'. cbn [contributors doc AzureDevOps.fetchAzureDevOpsData] in Hc'.
    unfold AzureDevOps.aggregateContributorStats in Hc'.
    by apply In_take, In_sort in Hc'. }
  pose proof (NoDup_map_In_inj name all c' c
                (enhanced_names_NoDup cs prs wis _ _) Hall Hc Hname) as Heq.
  subst c'. by apply Hout.
Qed.

(** *** The properties above on the example data *)

Lemma busiest_days_are_the_five_fullest_dates_witness :
  In "2024-02-29" (map dayOf streakCommits)
  /\ 2 = commitsOn "2024-02-29" streakCommits /\ 1 <= 2.
Proof.
  destruct (busiest_days_are_the_five_fullest_dates streakCommits)
    as (_ & _ & Hlisted & _).
  apply (Hlisted {| day_date := "2024-02-29"; day_commits := 2 |}).
  vm_compute. repeat (first [left; reflexivity | right]).
Defined.

Definition filedItems : list AzureDevOpsWorkItem :=
  [filedItem "Shop\Web\Checkout"; filedItem "Shop\Web\Cart"; filedItem "Checkout"].

Lemma module_counts_its_work_items_witness :
  countsItemsOf filedItems "Checkout"
    {| module_name := "Checkout"; module_commits := 0; module_pullRequests := 2;
       module_storyPointsDone := 6; module_status := "In Progress" |}.
Proof.
  destruct (module_counts_its_work_items filedItems) as (_ & _ & Hlisted & _).
  apply (Hlisted {| module_name := "Checkout"; module_commits := 0;
                    module_pullRequests := 2; module_storyPointsDone := 6;
                    module_status := "In Progress" |}).
  vm_compute. repeat (first [left; reflexivity | right]).
Defined.

Lemma merge_times_are_those_of_counted_pull_requests_witness :
  @withinYear (inject_Z 86400000 / inject_Z 3600000)
  /\ exists pr, In pr [pullRequestBy "Bo"] /\ createdBy pr = "Bo"
                /\ isCompleted pr = true
                /\ @AzureDevOps.hoursToMerge IsoUtc pr
                   = Some (inject_Z 86400000 / inject_Z 3600000)%Q.
Proof.
  destruct (merge_times_are_those_of_counted_pull_requests IsoUtc [pullRequestBy "Bo"])
    as (_ & Hrecorded & _).
  apply (Hrecorded "Bo" [(inject_Z 86400000 / inject_Z 3600000)%Q]).
  - reflexivity.
  - left. reflexivity.
Defined.

Lemma summary_always_carries_highlights_witness :
  head (highlights (@AzureDevOps.fetchAzureDevOpsData IsoUtc None None twoContributors
                      [pullRequestBy "Bo"] [] 0 []))
  = Some (@toLocaleString IsoUtc (Z.of_nat (length twoContributors)) +:+ " commits pushed").
Proof.
  assert (Hcommits : twoContributors <> []) by discriminate.
  exact (proj1 (proj2 (proj2 (proj2
           (summary_always_carries_highlights IsoUtc None None twoContributors
              [pullRequestBy "Bo"] [] 0 [])))) Hcommits).
Defined.

Lemma rankings_name_only_listed_contributors_witness :
  In "Bo" (map name (contributors
                       (@AzureDevOps.fetchAzureDevOpsData IsoUtc None None twoContributors
                          [pullRequestBy "Bo"] [] 0 []))).
Proof.
  assert (Hranked :
    In "Bo" (rankedNames
               (top5 (@AzureDevOps.fetchAzureDevOpsData IsoUtc None None twoContributors
                        [pullRequestBy "Bo"] [] 0 []))))
    by (vm_compute; repeat (first [left; reflexivity | right])).
  exact (proj1 (rankings_name_only_listed_contributors IsoUtc None None twoContributors
                  [pullRequestBy "Bo"] [] 0 []) "Bo" Hranked).
Defined.
